(** * model-based-meta-rl: the task abstraction layer ([task/task.py])

    A shallow embedding of the task classes ([Task], [MujocoTask],
    [CartPoleTask], [AntTask], [HalfCheetahTask], [SwimmerTask]) and of the
    fragments of NumPy, PyTorch and gym they are written against.

    Floating-point numbers are the IEEE 754 binary floats of the standard
    library's [SpecFloat]: [spec_float] with the operations [SFadd], [SFsub],
    [SFmul], [SFdiv] and [SFcompare], at precision 24 / exponent 128 for
    float32 and 53 / 1024 for float64. *)

From Stdlib Require Import ZArith List Bool Lia QArith Qabs.
From Stdlib Require String.
From Stdlib Require Import Floats.SpecFloat.
Import ListNotations.
Open Scope Z_scope.

(** ** Python exceptions and results *)

Inductive exn :=
| NotImplementedError
| TypeError
| AttributeError
| ValueError
| IndexError
| RuntimeError.

Inductive result (A : Type) :=
| Ok (a : A)
| Raise (e : exn).
Arguments Ok {A} a.
Arguments Raise {A} e.

Definition rbind {A B} (r : result A) (k : A -> result B) : result B :=
  match r with
  | Ok a => k a
  | Raise e => Raise e
  end.

Notation "x <- r ;; k" := (rbind r (fun x => k))
  (at level 61, r at next level, right associativity).

(** A Python number: the reward of a step is an [int] or a [float]. *)
Inductive pynum :=
| PyInt (z : Z)
| PyFloat (x : spec_float).

(** Methods that read and write the object they are called on: a state
    monad over the object, with exceptions. An exception leaves the object
    as it was when it was raised. *)
Definition prog (S A : Type) : Type := S -> result A * S.

Definition ret {S A} (a : A) : prog S A := fun s => (Ok a, s).

Definition lift {S A} (r : result A) : prog S A := fun s => (r, s).

Definition bind {S A B} (m : prog S A) (k : A -> prog S B) : prog S B :=
  fun s =>
    match m s with
    | (Ok a, s') => k a s'
    | (Raise e, s') => (Raise e, s')
    end.

Notation "x <<- m ;; k" := (bind m (fun x => k))
  (at level 61, m at next level, right associativity).
Notation "' p <<- m ;; k" := (bind m (fun x => let p := x in k))
  (at level 61, p pattern, m at next level, right associativity).

(** ** IEEE 754 binary floating point *)

Module Float.

Record format := Format { prec : Z; emax : Z }.

Definition binary32 := Format 24 128.
Definition binary64 := Format 53 1024.

Definition emin (f : format) : Z := 3 - emax f - prec f.

Definition valid (f : format) (x : spec_float) : bool :=
  valid_binary (prec f) (emax f) x.

Definition is_nan (x : spec_float) : bool :=
  match x with S754_nan => true | _ => false end.

Definition isfinite (x : spec_float) : bool :=
  match x with
  | S754_zero _ | S754_finite _ _ _ => true
  | S754_infinity _ | S754_nan => false
  end.

(** Conversion of an integer and of a float of another format: the exact
    value rounded to nearest, ties to even. *)
Definition of_Z (f : format) (z : Z) : spec_float :=
  binary_normalize (prec f) (emax f) z 0 false.

Definition round_to (f : format) (x : spec_float) : spec_float :=
  match x with
  | S754_finite s m e => binary_round (prec f) (emax f) s m e
  | _ => x
  end.

(** A decimal literal [num/den] of Python source, which is a float64. *)
Definition py_float (num den : Z) : spec_float :=
  SFdiv 53 1024 (of_Z binary64 num) (of_Z binary64 den).

Definition add (f : format) := SFadd (prec f) (emax f).
Definition sub (f : format) := SFsub (prec f) (emax f).
Definition mul (f : format) := SFmul (prec f) (emax f).
Definition div (f : format) := SFdiv (prec f) (emax f).
Definition neg := SFopp.

Definition ltb := SFltb.
Definition leb := SFleb.
Definition gtb (x y : spec_float) := SFltb y x.
Definition geb (x y : spec_float) := SFleb y x.

(** The integer nearest to [m * 2^e], ties to the even one. *)
Definition nearest_even (m : positive) (e : Z) : Z :=
  match e with
  | Zneg p =>
      let d := 2 ^ Zpos p in
      let q := Zpos m / d in
      let r := Zpos m mod d in
      match 2 * r ?= d with
      | Lt => q
      | Gt => q + 1
      | Eq => if Z.even q then q else q + 1
      end
  | _ => Zpos m * 2 ^ e
  end.

(** C's [rint] under the default rounding mode: a float with no fractional
    bits is returned as it is, the sign of a zero result is the sign of
    the argument. *)
Definition rint (f : format) (x : spec_float) : spec_float :=
  match x with
  | S754_finite s m (Zneg p) =>
      binary_normalize (prec f) (emax f)
        (cond_Zopp s (nearest_even m (Zneg p))) 0 s
  | _ => x
  end.

(** The integer part, rounding toward zero; [None] for NaN and the
    infinities, which have none. *)
Definition trunc (x : spec_float) : option Z :=
  match x with
  | S754_zero _ => Some 0
  | S754_finite s m e =>
      Some (cond_Zopp s
              (match e with
               | Zneg p => Zpos m / 2 ^ Zpos p
               | _ => Zpos m * 2 ^ e
               end))
  | S754_infinity _ | S754_nan => None
  end.

(** NumPy's clip kernel: [_NPY_MAX(a, b)] is [a] when [a] is NaN or
    [a > b], else [b]; [_NPY_MIN] likewise; [clip x lo hi] is
    [_NPY_MIN (_NPY_MAX x lo) hi]. *)
Definition maximum (a b : spec_float) : spec_float :=
  if is_nan a || gtb a b then a else b.

Definition minimum (a b : spec_float) : spec_float :=
  if is_nan a || ltb a b then a else b.

Definition clip (x lo hi : spec_float) : spec_float :=
  minimum (maximum x lo) hi.

(** The value of a float of format [f] in units of [2 ^ emin f], a whole
    number for every valid float; the infinities and NaN have none. *)
Definition scaled (f : format) (x : spec_float) : option Z :=
  match x with
  | S754_zero _ => Some 0
  | S754_finite s m e => Some (cond_Zopp s (Zpos m * 2 ^ (e - emin f)))
  | S754_infinity _ | S754_nan => None
  end.

(** The value of a finite float as a rational. *)
Definition to_Q (x : spec_float) : option Q :=
  match x with
  | S754_zero _ => Some (0 # 1)
  | S754_finite s m (Zneg p) => Some (cond_Zopp s (Zpos m) # 2 ^ p)
  | S754_finite s m e => Some (cond_Zopp s (Zpos m * 2 ^ e) # 1)
  | S754_infinity _ | S754_nan => None
  end.

(** [represents f x v]: [x] is a valid float of format [f] whose value is
    the integer [v]. *)
Definition represents (f : format) (x : spec_float) (v : Z) : Prop :=
  valid f x = true /\ scaled f x = Some (v * 2 ^ (- emin f)).

(** Integers extended with the infinities and NaN: what rounding a float
    to an integer can give. *)
Inductive ival := INaN | IInf (s : bool) | IInt (z : Z).

Definition denotes (f : format) (x : spec_float) (i : ival) : Prop :=
  match i with
  | INaN => x = S754_nan
  | IInf s => x = S754_infinity s
  | IInt z => represents f x z
  end.

(** The integer nearest to the value of a float. *)
Definition nearest (x : spec_float) : ival :=
  match x with
  | S754_nan => INaN
  | S754_infinity s => IInf s
  | S754_zero _ => IInt 0
  | S754_finite s m e => IInt (cond_Zopp s (nearest_even m e))
  end.

(** Clamping into [[lo, hi]]; NaN stays NaN. *)
Definition clamp (i : ival) (lo hi : Z) : ival :=
  match i with
  | INaN => INaN
  | IInf false => IInt hi
  | IInf true => IInt (Z.min lo hi)
  | IInt z => IInt (Z.min (Z.max z lo) hi)
  end.

(** Two floats with the same value: the second is the first in float64,
    the widest format in use. *)
Definition same_value (x y : spec_float) : Prop :=
  match x with
  | S754_finite _ _ _ =>
      valid binary64 y = true /\ scaled binary64 y = scaled binary64 x
  | _ => y = x
  end.

End Float.

(** ** The fragment of NumPy used by [task.py] *)

Module Numpy.

Inductive float_dtype := float32 | float64.
Inductive int_dtype := int8 | int64.
Inductive dtype := DFloat (f : float_dtype) | DInt (w : int_dtype).

Definition fmt (f : float_dtype) : Float.format :=
  match f with
  | float32 => Float.binary32
  | float64 => Float.binary64
  end.

Definition float_dtype_eqb (f g : float_dtype) : bool :=
  match f, g with
  | float32, float32 | float64, float64 => true
  | _, _ => false
  end.

Definition int_dtype_eqb (v w : int_dtype) : bool :=
  match v, w with
  | int8, int8 | int64, int64 => true
  | _, _ => false
  end.

Definition int_min (w : int_dtype) : Z :=
  match w with int8 => - 2 ^ 7 | int64 => - 2 ^ 63 end.

Definition int_max (w : int_dtype) : Z :=
  match w with int8 => 2 ^ 7 - 1 | int64 => 2 ^ 63 - 1 end.

Definition in_range (w : int_dtype) (z : Z) : bool :=
  (int_min w <=? z) && (z <=? int_max w).

(** Two's complement wrap-around of an integer into [w]. *)
Definition wrap (w : int_dtype) (z : Z) : Z :=
  (z - int_min w) mod (2 * (int_max w + 1)) + int_min w.

(** Arrays of rank 0 (NumPy scalars and 0-d arrays, which are not
    iterable) and of rank 1. *)
Inductive array (A : Type) :=
| Scalar (x : A)
| Vector (xs : list A).
Arguments Scalar {A} x.
Arguments Vector {A} xs.

Definition amap {A B} (g : A -> B) (a : array A) : array B :=
  match a with
  | Scalar x => Scalar (g x)
  | Vector xs => Vector (map g xs)
  end.

Definition elements {A} (a : array A) : list A :=
  match a with
  | Scalar x => [x]
  | Vector xs => xs
  end.

Inductive ndarray :=
| NdFloat (f : float_dtype) (a : array spec_float)
| NdInt (w : int_dtype) (a : array Z).

Definition dtype_of (a : ndarray) : dtype :=
  match a with
  | NdFloat f _ => DFloat f
  | NdInt w _ => DInt w
  end.

(** *** Shapes and broadcasting, for ranks 0 and 1 *)

Inductive shape := Rank0 | Rank1 (n : nat).

Definition ashape {A} (a : array A) : shape :=
  match a with
  | Scalar _ => Rank0
  | Vector xs => Rank1 (length xs)
  end.

Definition shape_of (a : ndarray) : shape :=
  match a with
  | NdFloat _ a => ashape a
  | NdInt _ a => ashape a
  end.

Definition broadcast_shapes (s t : shape) : result shape :=
  match s, t with
  | Rank0, _ => Ok t
  | _, Rank0 => Ok s
  | Rank1 n, Rank1 k =>
      if Nat.eqb n k then Ok s
      else if Nat.eqb n 1 then Ok t
      else if Nat.eqb k 1 then Ok s
      else Raise ValueError
  end.

(** [broadcast_to a s], for a shape [s] that [a] broadcasts to. *)
Definition broadcast_to {A} (a : array A) (s : shape) : array A :=
  match a, s with
  | Scalar x, Rank1 n => Vector (repeat x n)
  | Vector [x], Rank1 n => Vector (repeat x n)
  | _, _ => a
  end.

Fixpoint zip3 {A B} (g : A -> A -> A -> B) (xs ys zs : list A) : list B :=
  match xs, ys, zs with
  | x :: xs, y :: ys, z :: zs => g x y z :: zip3 g xs ys zs
  | _, _, _ => []
  end.

(** Element-wise ternary operation on arrays of one shape. *)
Definition amap3 {A B} (g : A -> A -> A -> B) (a b c : array A) : array B :=
  match a, b, c with
  | Scalar x, Scalar y, Scalar z => Scalar (g x y z)
  | _, _, _ => Vector (zip3 g (elements a) (elements b) (elements c))
  end.

Definition broadcast3 {A B} (g : A -> A -> A -> B) (a b c : array A)
  : result (array B) :=
  s1 <- broadcast_shapes (ashape a) (ashape b) ;;
  s <- broadcast_shapes s1 (ashape c) ;;
  Ok (amap3 g (broadcast_to a s) (broadcast_to b s) (broadcast_to c s)).

(** *** Casts

    C leaves the conversion of a NaN, an infinity or a float beyond the
    target's range to an integer type undefined, and NumPy hands it to the
    C compiler: [invalid_cast w x] stands for whatever the platform yields
    for [x] converted to [w]. *)
Section Casts.

Variable invalid_cast : int_dtype -> spec_float -> Z.

Definition float_to_int (w : int_dtype) (x : spec_float) : Z :=
  match Float.trunc x with
  | Some z => if in_range w z then z else invalid_cast w x
  | None => invalid_cast w x
  end.

Definition to_floats (f : float_dtype) (a : ndarray) : array spec_float :=
  match a with
  | NdFloat g x =>
      if float_dtype_eqb g f then x else amap (Float.round_to (fmt f)) x
  | NdInt _ x => amap (Float.of_Z (fmt f)) x
  end.

Definition to_ints (w : int_dtype) (a : ndarray) : array Z :=
  match a with
  | NdInt v x => if int_dtype_eqb v w then x else amap (wrap w) x
  | NdFloat _ x => amap (float_to_int w) x
  end.

(** [a.astype(dt)] *)
Definition astype (dt : dtype) (a : ndarray) : ndarray :=
  match dt with
  | DFloat f => NdFloat f (to_floats f a)
  | DInt w => NdInt w (to_ints w a)
  end.

(** [a.round()]: [rint] on floats, the identity on integers. *)
Definition round (a : ndarray) : ndarray :=
  match a with
  | NdFloat f x => NdFloat f (amap (Float.rint (fmt f)) x)
  | NdInt _ _ => a
  end.

(** An operand of [np.clip]: a Python integer or an array. *)
Inductive operand := OInt (z : Z) | OArr (a : ndarray).

Definition promote (d e : dtype) : dtype :=
  match d, e with
  | DFloat float64, _ | _, DFloat float64 => DFloat float64
  | DFloat float32, DInt int64 | DInt int64, DFloat float32 => DFloat float64
  | DFloat float32, _ | _, DFloat float32 => DFloat float32
  | DInt int64, _ | _, DInt int64 => DInt int64
  | DInt int8, DInt int8 => DInt int8
  end.

(** The common dtype, as NumPy 1.x resolves it. Against an array of
    rank 1 a Python integer counts by its value: it leaves an integer
    dtype that holds it, and a float32 array stays float32 for an
    integer of at most 16 bits and becomes float64 for a larger one. *)
Definition operand_dtype (d : dtype) (o : operand) : dtype :=
  match o with
  | OInt z =>
      match d with
      | DInt w => if in_range w z then d else DInt int64
      | DFloat float32 =>
          if (- 32768 <=? z) && (z <=? 65535) then d else DFloat float64
      | DFloat float64 => d
      end
  | OArr a => promote d (dtype_of a)
  end.

(** When every operand has rank 0 nothing counts by value: a Python
    integer is an int64. *)
Definition scalar_operand_dtype (d : dtype) (o : operand) : dtype :=
  match o with
  | OInt _ => promote d (DInt int64)
  | OArr a => promote d (dtype_of a)
  end.

Definition is_rank0 (a : ndarray) : bool :=
  match shape_of a with
  | Rank0 => true
  | Rank1 _ => false
  end.

Definition is_scalar_operand (o : operand) : bool :=
  match o with
  | OInt _ => true
  | OArr a => is_rank0 a
  end.

Definition clip_dtype (a : ndarray) (lo hi : operand) : dtype :=
  if is_rank0 a && is_scalar_operand lo && is_scalar_operand hi
  then scalar_operand_dtype (scalar_operand_dtype (dtype_of a) lo) hi
  else operand_dtype (operand_dtype (dtype_of a) lo) hi.

Definition operand_floats (f : float_dtype) (o : operand) : array spec_float :=
  match o with
  | OInt z => Scalar (Float.of_Z (fmt f) z)
  | OArr a => to_floats f a
  end.

Definition operand_ints (w : int_dtype) (o : operand) : array Z :=
  match o with
  | OInt z => Scalar z
  | OArr a => to_ints w a
  end.

Definition clipZ (z lo hi : Z) : Z := Z.min (Z.max z lo) hi.

(** [np.clip(a, lo, hi)]: the operands are brought to their common dtype
    and shape, then clipped element by element. *)
Definition clip (a : ndarray) (lo hi : operand) : result ndarray :=
  match clip_dtype a lo hi with
  | DFloat f =>
      r <- broadcast3 Float.clip (to_floats f a)
             (operand_floats f lo) (operand_floats f hi) ;;
      Ok (NdFloat f r)
  | DInt w =>
      r <- broadcast3 clipZ (to_ints w a)
             (operand_ints w lo) (operand_ints w hi) ;;
      Ok (NdInt w r)
  end.

(** [np.float32(a)] *)
Definition np_float32 (a : ndarray) : ndarray := astype (DFloat float32) a.

End Casts.

(** The elements of an array are floats of its format, or integers of its
    width. *)
Definition valid_array (a : ndarray) : Prop :=
  match a with
  | NdFloat f x => Forall (fun v => Float.valid (fmt f) v = true) (elements x)
  | NdInt w x => Forall (fun z => in_range w z = true) (elements x)
  end.

(** What [to_floats float64] does to an element of a float array. *)
Definition widen (f : float_dtype) (y : spec_float) : spec_float :=
  match f with
  | float32 => Float.round_to Float.binary64 y
  | float64 => y
  end.

(** The elements of an array of either kind. *)
Definition items (a : ndarray) : list (spec_float + Z) :=
  match a with
  | NdFloat _ x => map inl (elements x)
  | NdInt _ x => map inr (elements x)
  end.

(** Below this bound every integer is exact in the arithmetic [np.clip]
    does on the array: float64 where the bound does not fit the format of
    a float array, at most 64 bits for an integer array. *)
Definition exact_limit (a : ndarray) : Z :=
  match a with
  | NdFloat _ _ => 2 ^ 53
  | NdInt _ _ => 2 ^ 63
  end.

(** [np.concatenate] of two flat float64 buffers. *)
Definition concatenate (xs ys : list spec_float) : ndarray :=
  NdFloat float64 (Vector (xs ++ ys)).

(** *** Arithmetic *)

(** Element-wise binary operation on arrays of one shape. *)
Definition amap2 {A B} (g : A -> A -> B) (a b : array A) : array B :=
  match a, b with
  | Scalar x, Scalar y => Scalar (g x y)
  | _, _ => Vector (map (fun p => g (fst p) (snd p))
                      (combine (elements a) (elements b)))
  end.

Definition broadcast2 {A B} (g : A -> A -> B) (a b : array A)
  : result (array B) :=
  s <- broadcast_shapes (ashape a) (ashape b) ;;
  Ok (amap2 g (broadcast_to a s) (broadcast_to b s)).

Definition same_shape (s t : shape) : bool :=
  match s, t with
  | Rank0, Rank0 => true
  | Rank1 n, Rank1 m => Nat.eqb n m
  | _, _ => false
  end.

Definition broadcast_nd (a : ndarray) (s : shape) : ndarray :=
  match a with
  | NdFloat f x => NdFloat f (broadcast_to x s)
  | NdInt w x => NdInt w (broadcast_to x s)
  end.

Section Arithmetic.

Variable invalid_cast : int_dtype -> spec_float -> Z.

(** A binary ufunc on two arrays: the operands are brought to their
    common dtype and shape; integer results wrap around. *)
Definition ufunc2
    (fop : Float.format -> spec_float -> spec_float -> spec_float)
    (zop : Z -> Z -> Z) (a b : ndarray) : result ndarray :=
  match promote (dtype_of a) (dtype_of b) with
  | DFloat f =>
      r <- broadcast2 (fop (fmt f)) (to_floats f a) (to_floats f b) ;;
      Ok (NdFloat f r)
  | DInt w =>
      r <- broadcast2 (fun x y => wrap w (zop x y))
             (to_ints invalid_cast w a) (to_ints invalid_cast w b) ;;
      Ok (NdInt w r)
  end.

(** [a + b] and [a - b] *)
Definition np_add : ndarray -> ndarray -> result ndarray :=
  ufunc2 Float.add Z.add.

Definition np_subtract : ndarray -> ndarray -> result ndarray :=
  ufunc2 Float.sub Z.sub.

(** [c * a] for a Python float [c], a float64: against a float array
    of rank 1 the scalar takes the format of the array; an array of rank
    0 counts as a scalar itself and the product is float64, as it is
    for an integer array. *)
Definition np_multiply (c : spec_float) (a : ndarray) : ndarray :=
  match a with
  | NdFloat f (Vector xs) =>
      NdFloat f
        (Vector (map (Float.mul (fmt f) (Float.round_to (fmt f) c)) xs))
  | NdFloat f (Scalar x) =>
      NdFloat float64
        (Scalar (Float.mul Float.binary64 c
                   (Float.round_to Float.binary64 x)))
  | NdInt _ x =>
      NdFloat float64
        (amap (fun z => Float.mul Float.binary64 c
                          (Float.of_Z Float.binary64 z)) x)
  end.

(** [np.full(shape, fill_value, dtype=dt)]: the fill value is broadcast
    to the shape and cast. *)
Definition np_full (s : shape) (fill_value : ndarray) (dt : dtype)
  : result ndarray :=
  t <- broadcast_shapes (shape_of fill_value) s ;;
  if same_shape t s
  then Ok (astype invalid_cast dt (broadcast_nd fill_value s))
  else Raise ValueError.

End Arithmetic.

End Numpy.

(** ** gym action spaces *)

Module Gym.
Import Numpy.

(** The classes of [gym.spaces]. *)
#[local] Unset Elimination Schemes.
Inductive space :=
| Box (low high : ndarray) (dtype : dtype)
| Discrete (n : Z)
| MultiBinary (n : Z)
| MultiDiscrete (nvec : list Z)
| Tuple (spaces : list space)
| Dict (spaces : list (String.string * space)).
#[local] Set Elimination Schemes.

(** The [dtype] attribute of a [MultiBinary] and of a [MultiDiscrete]
    space, which gym fixes. *)
Definition MultiBinary_dtype : dtype := DInt int8.
Definition MultiDiscrete_dtype : dtype := DInt int64.

(** [nvec - 1], for the int64 array [nvec] of a [MultiDiscrete]. *)
Definition nvec_minus_1 (nvec : list Z) : ndarray :=
  NdInt int64 (Vector (map (fun k => k - 1) nvec)).

(** The spaces [reformat_action] has a branch for; [None] is the
    undefined action space. *)
Definition supported (sp : option space) : bool :=
  match sp with
  | None => true
  | Some (Box _ _ _ | Discrete _ | MultiBinary _ | MultiDiscrete _) => true
  | Some (Tuple _ | Dict _) => false
  end.

End Gym.

(** ** [class Task(gym.Env)] *)

Module Task.
Import Numpy Gym.

Section Task.

Variable invalid_cast : int_dtype -> spec_float -> Z.

(** [env] is the task object [self], its simulator included; [info] is
    the diagnostic dictionary of a step. [native_step] and
    [native_reset] are the [step] and [reset] of the simulator class
    that follows [Task] in the method resolution order of a concrete
    task ([CartPoleEnv], [AntEnv], ...). *)
Variables env info : Type.
Variable action_space : env -> option space.
Variable native_step :
  ndarray -> prog env (ndarray * pynum * bool * info).
Variable native_reset : prog env ndarray.

Definition get_cost {S A N C : Type} (self : env) (state : S) (action : A)
    (next_state : N) : result C :=
  Raise NotImplementedError.

Definition get_reset_state {N T : Type} (self : env) (n : N) : result T :=
  Raise NotImplementedError.

Definition get_control_params {P : Type} (self : env) : result P :=
  Raise NotImplementedError.

Definition reformat_action (self : env) (action : ndarray) : result ndarray :=
  match action_space self with
  | Some (Box _ _ dtype) =>
      Ok (astype invalid_cast dtype action)
  | Some (Discrete n) =>
      a <- clip invalid_cast (round action) (OInt 0) (OInt (n - 1)) ;;
      Ok (astype invalid_cast (DInt int64) a)
  | Some (MultiBinary _) =>
      a <- clip invalid_cast (round action) (OInt 0) (OInt 1) ;;
      Ok (astype invalid_cast MultiBinary_dtype a)
  | Some (MultiDiscrete nvec) =>
      a <- clip invalid_cast (round action) (OInt 0)
             (OArr (nvec_minus_1 nvec)) ;;
      Ok (astype invalid_cast MultiDiscrete_dtype a)
  | None => Ok action
  | Some _ => Raise NotImplementedError
  end.

Definition step (action : ndarray)
  : prog env (ndarray * pynum * bool * info) :=
  fun self =>
    (action <<- lift (reformat_action self action) ;;
     '(next_state, reward, done, info) <<- native_step action ;;
     ret (np_float32 invalid_cast next_state, reward, done, info)) self.

Definition reset : prog env ndarray :=
  state <<- native_reset ;;
  ret (np_float32 invalid_cast state).

End Task.

End Task.

(** ** [class MujocoTask(Task, MujocoEnv)] *)

Module MujocoTask.
Import Numpy Gym.

(** [space.low] and [space.high], attributes of [Box] only. *)
Definition low (sp : space) : result ndarray :=
  match sp with
  | Box low _ _ => Ok low
  | _ => Raise AttributeError
  end.

Definition high (sp : space) : result ndarray :=
  match sp with
  | Box _ high _ => Ok high
  | _ => Raise AttributeError
  end.

(** [python_slice xs start stop] is [xs[start:stop]] for
    [0 <= start <= stop]. *)
Definition python_slice {A} (xs : list A) (start stop : nat) : list A :=
  firstn (stop - start) (skipn start xs).

(** [a[start:stop]] on an array; a rank-0 array cannot be sliced. *)
Definition slice (a : ndarray) (start stop : nat) : result ndarray :=
  match a with
  | NdFloat f (Vector xs) => Ok (NdFloat f (Vector (python_slice xs start stop)))
  | NdInt w (Vector xs) => Ok (NdInt w (Vector (python_slice xs start stop)))
  | _ => Raise IndexError
  end.

Section MujocoTask.

Variable invalid_cast : int_dtype -> spec_float -> Z.

(** [nq] and [nv] are [self.model.nq] and [self.model.nv]; [qpos] and
    [qvel] are the buffers [self.sim.data.qpos] and [self.sim.data.qvel],
    flattened; [set_state] is [MujocoEnv.set_state]; [native_step] is
    the [step] of the simulator class of the concrete task. *)
Variables env info : Type.
Variable action_space : env -> option space.
Variable native_step :
  ndarray -> prog env (ndarray * pynum * bool * info).
Variables nq nv : env -> nat.
Variables qpos qvel : env -> list spec_float.
Variable set_state : ndarray -> ndarray -> prog env unit.

Definition _get_obs (self : env) : ndarray :=
  concatenate (qpos self) (qvel self).

(** [self.action_space.shape] is the shape of the bounds of the [Box];
    [0.5] is a Python float. *)
Definition get_control_params (self : env)
  : result (pynum * ndarray * ndarray) :=
  match action_space self with
  | Some sp =>
      low <- low sp ;;
      high <- high sp ;;
      let mu := PyInt 0 in
      d <- np_subtract invalid_cast high low ;;
      let sigma := np_multiply (Float.py_float 5 10) d in
      mean <- np_add invalid_cast low sigma ;;
      u_init <- np_full invalid_cast (shape_of low) mean (DFloat float32) ;;
      Ok (mu, sigma, u_init)
  | None => Raise AttributeError
  end.

Definition set_new_state (state : ndarray) : prog env unit :=
  fun self =>
    (p <<- lift (slice state 0 (nq self)) ;;
     v <<- lift (slice state (nq self) (nq self + nv self)) ;;
     set_state p v) self.

(** [super().step] is [Task.step]: [Task] follows [MujocoTask] in the
    method resolution order of every concrete task. *)
Definition step (action : ndarray)
  : prog env (ndarray * pynum * bool * info) :=
  fun self =>
    (action <<- lift (Task.reformat_action invalid_cast env action_space
                        self action) ;;
     action <<- lift (match action_space self with
                      | Some sp =>
                          lo <- low sp ;;
                          hi <- high sp ;;
                          clip invalid_cast action (OArr lo) (OArr hi)
                      | None => Ok action
                      end) ;;
     '(next_state, reward, done, info) <<-
        Task.step invalid_cast env info action_space native_step action ;;
     ret (np_float32 invalid_cast next_state, reward, done, info)) self.

End MujocoTask.

End MujocoTask.

(** ** The fragment of PyTorch used by [task.py]

    Tensors are float32 ([torch.float]); a Python float that meets a tensor
    is first brought to float32. *)

Module Torch.

Definition f32 : Float.format := Float.binary32.

(** A rank-1 tensor, and a rank-2 tensor of shape
    [[length rows, ncols]]. *)
Definition tensor1 (A : Type) := list A.

Record tensor2 (A : Type) := Tensor2 { ncols : nat; rows : list (list A) }.
Arguments Tensor2 {A} ncols rows.
Arguments ncols {A} t.
Arguments rows {A} t.

Definition well_shaped {A} (t : tensor2 A) : Prop :=
  Forall (fun r => length r = ncols t) (rows t).

(** [len(t)] *)
Definition len {A} (t : tensor2 A) : nat := length (rows t).

(** [t] has exactly [n] rows of [k] elements each. *)
Definition has_shape {A} (t : tensor2 A) (n k : nat) : Prop :=
  len t = n /\ ncols t = k /\ well_shaped t.

(** The float32 a Python float becomes. *)
Definition scalar (c : spec_float) : spec_float := Float.round_to f32 c.

Definition one : spec_float := Float.of_Z f32 1.
Definition zero : spec_float := S754_zero false.

(** [t[:, j]] *)
Definition column (t : tensor2 spec_float) (j : nat)
  : result (tensor1 spec_float) :=
  if (j <? ncols t)%nat then Ok (map (fun r => nth j r S754_nan) (rows t))
  else Raise IndexError.

(** Broadcasting of two sizes, and of a rank-1 tensor to a size. *)
Definition broadcast_size (n k : nat) : result nat :=
  if Nat.eqb n k then Ok n
  else if Nat.eqb n 1 then Ok k
  else if Nat.eqb k 1 then Ok n
  else Raise RuntimeError.

Definition expand {A} (xs : list A) (n : nat) : list A :=
  match xs with
  | [x] => repeat x n
  | _ => xs
  end.

Definition map2 {A B C} (g : A -> B -> C) (xs : list A) (ys : list B) : list C :=
  map (fun p => g (fst p) (snd p)) (combine xs ys).

(** An element-wise binary operation on rank-1 tensors. *)
Definition binop {A B C} (g : A -> B -> C) (xs : tensor1 A) (ys : tensor1 B)
  : result (tensor1 C) :=
  n <- broadcast_size (length xs) (length ys) ;;
  Ok (map2 g (expand xs n) (expand ys n)).

(** An element-wise binary operation of a rank-1 tensor with every row of a
    rank-2 tensor. *)
Definition binop_rows {A B C} (g : A -> B -> C) (v : tensor1 A) (t : tensor2 B)
  : result (tensor2 C) :=
  n <- broadcast_size (length v) (ncols t) ;;
  Ok (Tensor2 n (map (fun r => map2 g (expand v n) (expand r n)) (rows t))).

Definition map_tensor2 {A B} (g : A -> B) (t : tensor2 A) : tensor2 B :=
  Tensor2 (ncols t) (map (map g) (rows t)).

(** [b.float()] *)
Definition to_float (b : bool) : spec_float := if b then one else zero.

(** [t.unsqueeze(1)] of a rank-1 tensor: shape [[N, 1]]. *)
Definition unsqueeze1 {A} (xs : tensor1 A) : tensor2 A :=
  Tensor2 1 (map (fun x => [x]) xs).

(** [torch.pow(t, 2)] *)
Definition pow2 (t : tensor2 spec_float) : tensor2 spec_float :=
  map_tensor2 (fun x => Float.mul f32 x x) t.

(** [t.sum(dim=1)]: every row is reduced to one float32. [sum] is the
    reduction of one row by torch's kernel, which adds the elements in
    an order of its own, not always from left to right, so that the
    rounding of a row is the library's. *)
Definition sum1 (sum : list spec_float -> spec_float)
    (t : tensor2 spec_float) : tensor1 spec_float :=
  map sum (rows t).

(** [torch.isfinite(t).all(dim=1)] *)
Definition isfinite_all1 (t : tensor2 spec_float) : tensor1 bool :=
  map (forallb Float.isfinite) (rows t).

(** [torch.zeros((n, k), dtype=torch.float)] *)
Definition zeros (n k : nat) : tensor2 spec_float :=
  Tensor2 k (repeat (repeat zero k) n).

(** [torch.cat((a, b), -1)] *)
Definition cat_cols {A} (a b : tensor2 A) : result (tensor2 A) :=
  if Nat.eqb (len a) (len b)
  then Ok (Tensor2 (ncols a + ncols b) (map2 (@app A) (rows a) (rows b)))
  else Raise RuntimeError.

(** [torch.tensor(a, dtype=torch.float)] of a flat float64 buffer. *)
Definition tensor (xs : list spec_float) : tensor1 spec_float :=
  map (Float.round_to f32) xs.

(** *** Random tensors

    [rng] is the state of the global generator; [uniform g lo hi] draws
    one float32 from the uniform distribution on [[lo, hi)] and [normal g]
    one from the standard normal distribution. *)
Section Random.

Variable rng : Type.
Variable uniform : spec_float -> spec_float -> rng -> spec_float * rng.
Variable normal : rng -> spec_float * rng.

Fixpoint draws (draw : rng -> spec_float * rng) (k : nat) (g : rng)
  : list spec_float * rng :=
  match k with
  | O => ([], g)
  | S k =>
      let (x, g) := draw g in
      let (xs, g) := draws draw k g in
      (x :: xs, g)
  end.

Fixpoint draw_rows (draw : rng -> spec_float * rng) (n k : nat) (g : rng)
  : list (list spec_float) * rng :=
  match n with
  | O => ([], g)
  | S n =>
      let (r, g) := draws draw k g in
      let (rs, g) := draw_rows draw n k g in
      (r :: rs, g)
  end.

(** A tensor of shape [[n, k]] filled by [draw]; a negative size is an
    error. *)
Definition random_tensor (draw : rng -> spec_float * rng) (n : Z) (k : nat)
  : prog rng (tensor2 spec_float) :=
  fun g =>
    if n <? 0 then (Raise RuntimeError, g)
    else let (rs, g) := draw_rows draw (Z.to_nat n) k g in
         (Ok (Tensor2 k rs), g).

(** [torch.FloatTensor(n, k).uniform_(lo, hi)] *)
Definition FloatTensor_uniform_ (n : Z) (k : nat) (lo hi : spec_float)
  : prog rng (tensor2 spec_float) :=
  random_tensor (uniform (scalar lo) (scalar hi)) n k.

(** [torch.randn(n, k)] *)
Definition randn (n : Z) (k : nat) : prog rng (tensor2 spec_float) :=
  random_tensor normal n k.

End Random.

End Torch.

(** ** The concrete tasks *)

(** A task object together with the state of torch's global random number
    generator, which the reset-state samplers draw from. *)
Record world (env rng : Type) := World { self : env; generator : rng }.
Arguments World {env rng} self generator.
Arguments self {env rng} w.
Arguments generator {env rng} w.

Definition with_generator {env rng A} (m : prog rng A) : prog (world env rng) A :=
  fun w => let (r, g) := m (generator w) in (r, World (self w) g).

(** Python float literals of [task.py]. *)
Module Lit.
Definition f_1_0 : spec_float := Float.py_float 1 1.
Definition f_0_5 : spec_float := Float.py_float 5 10.
Definition f_0_2 : spec_float := Float.py_float 2 10.
Definition f_0_1 : spec_float := Float.py_float 1 10.
Definition f_0_05 : spec_float := Float.py_float 5 100.
Definition f_0_0001 : spec_float := Float.py_float 1 10000.
Definition f_0_3 : spec_float := Float.py_float 3 10.
End Lit.

(** The angle threshold gym's [CartPoleEnv] sets in its constructor:
    [theta_threshold_radians = 12 * 2 * math.pi / 360]. *)
Module CartPoleEnv.
Definition math_pi : spec_float := S754_finite false 7074237752028440 (-51).
Definition theta_threshold_radians : spec_float :=
  Float.div Float.binary64
    (Float.mul Float.binary64 (Float.of_Z Float.binary64 (12 * 2)) math_pi)
    (Float.of_Z Float.binary64 360).
End CartPoleEnv.

(** *** [class CartPoleTask(Task, CartPoleEnv)] *)

Module CartPoleTask.
Import Numpy Gym Torch.

(** [*action]: the elements of an iterable, as NumPy scalars. *)
Definition unpack (action : ndarray) : result (list ndarray) :=
  match action with
  | NdFloat f (Vector xs) => Ok (map (fun x => NdFloat f (Scalar x)) xs)
  | NdInt w (Vector xs) => Ok (map (fun x => NdInt w (Scalar x)) xs)
  | NdFloat _ (Scalar _) | NdInt _ (Scalar _) => Raise TypeError
  end.

Section CartPoleTask.

Variable invalid_cast : int_dtype -> spec_float -> Z.

(** [x_threshold] and [theta_threshold_radians] are the attributes of
    [CartPoleEnv], Python floats; [native_step] is [CartPoleEnv.step]. *)
Variables env info : Type.
Variable action_space : env -> option space.
Variable native_step :
  ndarray -> prog env (ndarray * pynum * bool * info).
Variables x_threshold theta_threshold_radians : env -> spec_float.

Variable rng : Type.
Variable uniform : spec_float -> spec_float -> rng -> spec_float * rng.

Definition get_cost (self : env)
    (state action next_state : tensor2 spec_float)
  : result (tensor1 spec_float * tensor2 spec_float) :=
  x <- column next_state 0 ;;
  theta <- column next_state 2 ;;
  let x_lo := map (fun v => Float.ltb v (scalar (Float.neg (x_threshold self)))) x in
  let x_hi := map (fun v => Float.gtb v (scalar (x_threshold self))) x in
  let t_lo :=
    map (fun v => Float.ltb v
                    (scalar (Float.neg (theta_threshold_radians self)))) theta in
  let t_hi :=
    map (fun v => Float.gtb v (scalar (theta_threshold_radians self))) theta in
  b <- binop orb x_lo x_hi ;;
  b <- binop orb b t_lo ;;
  b <- binop orb b t_hi ;;
  let done := map to_float b in
  let cost := map (fun d => Float.sub f32 d (scalar Lit.f_1_0)) done in
  Ok (cost, unsqueeze1 done).

Definition get_reset_state (n : Z)
  : prog (world env rng) (tensor2 spec_float) :=
  with_generator
    (FloatTensor_uniform_ rng uniform n 4 (Float.neg Lit.f_0_05) Lit.f_0_05).

(** The call of [reformat_action] on [*action] passes the elements of
    [action] as positional arguments, of which [reformat_action] takes
    one. *)
Definition step (action : ndarray)
  : prog env (ndarray * pynum * bool * info) :=
  fun self =>
    (args <<- lift (unpack action) ;;
     action <<- lift (match args with
                      | [a] => Task.reformat_action invalid_cast env
                                 action_space self a
                      | _ => Raise TypeError
                      end) ;;
     '(next_state, reward, done, info) <<-
        Task.step invalid_cast env info action_space native_step action ;;
     let reward := if (done : bool) then PyInt 0 else reward in
     ret (np_float32 invalid_cast next_state, reward, done, info)) self.

End CartPoleTask.

End CartPoleTask.

(** *** The articulated-body tasks

    [init_qpos] and [init_qvel] are the float64 buffers [self.init_qpos] and
    [self.init_qvel]; [dt] is the Python float [self.dt]; [sum] is the
    reduction of a row by [Tensor.sum]. *)

Module AntTask.
Import Torch.

Section AntTask.

Variable env : Type.
Variables nq nv : env -> nat.
Variables init_qpos init_qvel : env -> list spec_float.
Variable dt : env -> spec_float.
Variable sum : list spec_float -> spec_float.

Variable rng : Type.
Variable uniform : spec_float -> spec_float -> rng -> spec_float * rng.
Variable normal : rng -> spec_float * rng.

Definition get_cost (self : env)
    (state action next_state : tensor2 spec_float)
  : result (tensor1 spec_float * tensor2 spec_float) :=
  xposbefore <- column state 0 ;;
  xposafter <- column next_state 0 ;;
  d <- binop (Float.sub f32) xposafter xposbefore ;;
  let forward_reward := map (fun v => Float.div f32 v (scalar (dt self))) d in
  let ctrl_cost :=
    map (fun v => Float.mul f32 (scalar Lit.f_0_5) v) (sum1 sum (pow2 action)) in
  let survive_reward := Lit.f_1_0 in
  r <- binop (Float.sub f32) forward_reward ctrl_cost ;;
  let reward := map (fun v => Float.add f32 v (scalar survive_reward)) r in
  height <- column next_state 2 ;;
  b <- binop andb (isfinite_all1 next_state)
         (map (fun v => Float.geb v (scalar Lit.f_0_2)) height) ;;
  notdone <- binop andb b
               (map (fun v => Float.leb v (scalar Lit.f_1_0)) height) ;;
  Ok (map Float.neg reward, unsqueeze1 (map to_float (map negb notdone))).

Definition get_reset_state (n : Z)
  : prog (world env rng) (tensor2 spec_float) :=
  fun w =>
    (noise <<- with_generator
                 (FloatTensor_uniform_ rng uniform n (nq (self w))
                    (Float.neg Lit.f_0_1) Lit.f_0_1) ;;
     qpos <<- lift (binop_rows (Float.add f32)
                      (tensor (init_qpos (self w))) noise) ;;
     noise <<- with_generator (randn rng normal n (nv (self w))) ;;
     qvel <<- lift (binop_rows (Float.add f32)
                      (tensor (init_qvel (self w)))
                      (map_tensor2
                         (fun v => Float.mul f32 v (scalar Lit.f_0_1)) noise)) ;;
     lift (cat_cols qpos qvel)) w.

End AntTask.

End AntTask.

Module HalfCheetahTask.
Import Torch.

Section HalfCheetahTask.

Variable env : Type.
Variables nq nv : env -> nat.
Variables init_qpos init_qvel : env -> list spec_float.
Variable dt : env -> spec_float.
Variable sum : list spec_float -> spec_float.

Variable rng : Type.
Variable uniform : spec_float -> spec_float -> rng -> spec_float * rng.
Variable normal : rng -> spec_float * rng.

Definition get_cost (self : env)
    (state action next_state : tensor2 spec_float)
  : result (tensor1 spec_float * tensor2 spec_float) :=
  xposbefore <- column state 0 ;;
  xposafter <- column next_state 0 ;;
  let reward_ctrl :=
    map (fun v => Float.mul f32 (scalar (Float.neg Lit.f_0_1)) v)
      (sum1 sum (pow2 action)) in
  d <- binop (Float.sub f32) xposafter xposbefore ;;
  let reward_run := map (fun v => Float.div f32 v (scalar (dt self))) d in
  r <- binop (Float.add f32) reward_ctrl reward_run ;;
  let cost := map Float.neg r in
  let done := zeros (len state) 1 in
  Ok (cost, done).

Definition get_reset_state (n : Z)
  : prog (world env rng) (tensor2 spec_float) :=
  fun w =>
    (noise <<- with_generator
                 (FloatTensor_uniform_ rng uniform n (nq (self w))
                    (Float.neg Lit.f_0_1) Lit.f_0_1) ;;
     qpos <<- lift (binop_rows (Float.add f32)
                      (tensor (init_qpos (self w))) noise) ;;
     noise <<- with_generator (randn rng normal n (nv (self w))) ;;
     qvel <<- lift (binop_rows (Float.add f32)
                      (tensor (init_qvel (self w)))
                      (map_tensor2
                         (fun v => Float.mul f32 v (scalar Lit.f_0_1)) noise)) ;;
     lift (cat_cols qpos qvel)) w.

End HalfCheetahTask.

End HalfCheetahTask.

Module SwimmerTask.
Import Torch.

Section SwimmerTask.

Variable env : Type.
Variables nq nv : env -> nat.
Variables init_qpos init_qvel : env -> list spec_float.
Variable dt : env -> spec_float.
Variable sum : list spec_float -> spec_float.

Variable rng : Type.
Variable uniform : spec_float -> spec_float -> rng -> spec_float * rng.

Definition get_cost (self : env)
    (state action next_state : tensor2 spec_float)
  : result (tensor1 spec_float * tensor2 spec_float) :=
  xposbefore <- column state 0 ;;
  xposafter <- column next_state 0 ;;
  d <- binop (Float.sub f32) xposafter xposbefore ;;
  let reward_fwd := map (fun v => Float.div f32 v (scalar (dt self))) d in
  let reward_ctrl :=
    map (fun v => Float.mul f32 (scalar (Float.neg Lit.f_0_0001)) v)
      (sum1 sum (pow2 action)) in
  r <- binop (Float.add f32) reward_fwd reward_ctrl ;;
  let cost := map Float.neg r in
  let done := zeros (len state) 1 in
  Ok (cost, done).

Definition get_reset_state (n : Z)
  : prog (world env rng) (tensor2 spec_float) :=
  fun w =>
    (noise <<- with_generator
                 (FloatTensor_uniform_ rng uniform n (nq (self w))
                    (Float.neg Lit.f_0_1) Lit.f_0_1) ;;
     qpos <<- lift (binop_rows (Float.add f32)
                      (tensor (init_qpos (self w))) noise) ;;
     noise <<- with_generator
                 (FloatTensor_uniform_ rng uniform n (nv (self w))
                    (Float.neg Lit.f_0_1) Lit.f_0_1) ;;
     qvel <<- lift (binop_rows (Float.add f32)
                      (tensor (init_qvel (self w))) noise) ;;
     lift (cat_cols qpos qvel)) w.

End SwimmerTask.

End SwimmerTask.

(** ** The words of the specification *)

Module Spec.
Import Numpy.

Section Spec.

Variable invalid_cast : int_dtype -> spec_float -> Z.

(** An element rounded to the nearest integer, clamped into [[0, hi]]
    and cast to the integer type [w]. A NaN has no nearest integer and
    stays NaN under clamping: its cast is the platform's. *)
Definition round_clamp_cast (w : int_dtype) (hi : Z) (it : spec_float + Z) : Z :=
  match it with
  | inl x =>
      match Float.clamp (Float.nearest x) 0 hi with
      | Float.IInt z => z
      | _ => invalid_cast w S754_nan
      end
  | inr z => Z.min (Z.max z 0) hi
  end.

Definition item_is_nan (it : spec_float + Z) : bool :=
  match it with
  | inl x => Float.is_nan x
  | inr _ => false
  end.

(** [r] holds the elements of [a], each rounded, clamped into
    [[0, hi]] and cast to [w]; an element that is not NaN lands in
    [[0, hi]]. *)
Definition rounded_clamped (w : int_dtype) (hi : Z) (a : ndarray)
    (r : array Z) : Prop :=
  Forall2 (fun it z =>
             z = round_clamp_cast w hi it /\
             (item_is_nan it = false -> 0 <= z <= hi))
    (items a) (elements r).

(** The same with a bound of its own for every dimension: dimension [i]
    is clamped into [[0, nvec_i - 1]]. *)
Definition rounded_clamped_each (w : int_dtype) (nvec : list Z)
    (a : ndarray) (r : array Z) : Prop :=
  Forall2 (fun p z =>
             z = round_clamp_cast w (snd p - 1) (fst p) /\
             (item_is_nan (fst p) = false -> 0 <= z <= snd p - 1))
    (combine (items a) nvec) (elements r).

(** [r] is [x] clipped into [[lo, hi]]: a NaN stays NaN, anything else
    lands between the bounds when they are ordered. *)
Definition clipped_into (lo hi x r : spec_float) : Prop :=
  r = Float.clip x lo hi /\
  (Float.is_nan x = false -> Float.leb lo hi = true ->
   Float.leb lo r = true /\ Float.leb r hi = true) /\
  (Float.ltb lo x = true -> Float.ltb x hi = true -> r = x).

(** [v] lies outside [[-t, t]], for a float32 [v] and a Python float
    [t]: strictly below [-t] or strictly above [t]. *)
Definition outside (t v : spec_float) : bool :=
  Float.ltb v (Torch.scalar (Float.neg t)) || Float.gtb v (Torch.scalar t).

(** A cart-pole row has failed: its position (column 0) or its angle
    (column 2) is outside its threshold. *)
Definition cart_pole_failed (x_threshold theta_threshold : spec_float)
    (row : list spec_float) : bool :=
  outside x_threshold (nth 0 row S754_nan)
  || outside theta_threshold (nth 2 row S754_nan).

(** An ant row is terminal: some component is not finite, or the torso
    height (column 2) is below 0.2 or above 1.0. *)
Definition ant_done (row : list spec_float) : bool :=
  existsb (fun v => negb (Float.isfinite v)) row
  || Float.ltb (nth 2 row S754_nan) (Torch.scalar Lit.f_0_2)
  || Float.gtb (nth 2 row S754_nan) (Torch.scalar Lit.f_1_0).

(** The ant cost of one transition, in float32 arithmetic: minus
    (forward velocity - 0.5 * sum of squared actions + 1.0), the sum
    being the reduction [sum] of the squares. *)
Definition ant_cost (sum : list spec_float -> spec_float)
    (dt : spec_float) (srow arow nrow : list spec_float)
  : spec_float :=
  let f32 := Torch.f32 in
  let forward :=
    Float.div f32
      (Float.sub f32 (nth 0 nrow S754_nan) (nth 0 srow S754_nan))
      (Torch.scalar dt) in
  let squares := sum (map (fun a => Float.mul f32 a a) arow) in
  Float.neg
    (Float.add f32
       (Float.sub f32 forward
          (Float.mul f32 (Torch.scalar Lit.f_0_5) squares))
       (Torch.scalar Lit.f_1_0)).

(** A step delegated to the simulator: the native step on [action],
    its next state cast to float32, reward, done and info as they
    are. *)
Definition delegate {env info : Type}
    (native_step : ndarray -> prog env (ndarray * pynum * bool * info))
    (action : ndarray) : prog env (ndarray * pynum * bool * info) :=
  fun self =>
    match native_step action self with
    | (Ok (next_state, reward, done, info), self') =>
        (Ok (np_float32 invalid_cast next_state, reward, done, info), self')
    | (Raise e, self') => (Raise e, self')
    end.

(** Every element of [xs] clipped into the bounds of its own
    dimension. *)
Definition clipped_each (lo hi xs rs : list spec_float) : Prop :=
  length rs = length xs /\
  forall i x l h,
    nth_error xs i = Some x -> nth_error lo i = Some l ->
    nth_error hi i = Some h ->
    exists r, nth_error rs i = Some r /\ clipped_into l h x r.

End Spec.

End Spec.

(** ** Concrete tasks

    Small instances of the parameters above, on which the statements below
    are evaluated. *)

Module Example.
Import Numpy Gym Torch.

(** What an x86-64 build yields for an invalid conversion: the most
    negative 64-bit integer, of which an int8 keeps the low byte. *)
Definition invalid_cast (w : int_dtype) (x : spec_float) : Z :=
  match w with
  | int64 => - 2 ^ 63
  | int8 => 0
  end.

Definition nan : spec_float := S754_nan.
Definition f64 (num den : Z) : spec_float := Float.py_float num den.
Definition f32 (num den : Z) : spec_float := Torch.scalar (Float.py_float num den).

(** A task object that is its own action space. *)
Definition action_space (self : option space) : option space := self.

Definition box : space :=
  Box (NdFloat float32 (Vector [f32 (-1) 1; f32 (-1) 1]))
      (NdFloat float32 (Vector [f32 1 1; f32 1 1]))
      (DFloat float32).

(** A simulator that counts its steps, observes two zeros, pays 1.0 and
    is done from its third step on. *)
Definition native_step (action : ndarray)
  : prog nat (ndarray * pynum * bool * unit) :=
  fun steps =>
    (Ok (NdFloat float64 (Vector [f64 0 1; f64 0 1]),
         PyFloat (f64 1 1), (2 <=? steps)%nat, tt),
     S steps).

Definition box_space (steps : nat) : option space := Some box.
Definition discrete_space (steps : nat) : option space := Some (Discrete 2).
Definition tuple_space (steps : nat) : option space := Some (Tuple []).

Definition native_reset : prog nat ndarray :=
  fun _ => (Ok (NdFloat float64 (Vector [f64 0 1; f64 0 1])), O).

Definition action : ndarray :=
  NdFloat float64 (Vector [f64 7 10; f64 (-3) 10; f64 5 2; nan]).

Definition action2 : ndarray := NdFloat float64 (Vector [f64 7 10; f64 (-3) 1]).

Definition action1 : ndarray := NdFloat float64 (Vector [f64 7 10]).

(** A generator that counts its draws and always draws the lower bound,
    or zero. *)
Definition uniform (lo hi : spec_float) (g : nat) : spec_float * nat := (lo, S g).
Definition normal (g : nat) : spec_float * nat := (Torch.zero, S g).

(** A simulator of two positions and one velocity. *)
Record sim := Sim { sim_qpos : list spec_float; sim_qvel : list spec_float }.

Definition sim_nq (s : sim) : nat := 2.
Definition sim_nv (s : sim) : nat := 1.

Definition shape_eqb (s t : shape) : bool :=
  match s, t with
  | Rank0, Rank0 => true
  | Rank1 n, Rank1 k => Nat.eqb n k
  | _, _ => false
  end.

Definition sim_set_state (p v : ndarray) : prog sim unit :=
  fun s =>
    if shape_eqb (shape_of p) (Rank1 (sim_nq s))
       && shape_eqb (shape_of v) (Rank1 (sim_nv s))
    then (Ok tt, Sim (elements (to_floats float64 p))
                     (elements (to_floats float64 v)))
    else (Raise RuntimeError, s).

Definition batch1 (row : list spec_float) : tensor2 spec_float :=
  Tensor2 (length row) [row].

Definition x_threshold (self : unit) : spec_float := Lit.f_0_2.
Definition theta_threshold_radians (self : unit) : spec_float :=
  CartPoleEnv.theta_threshold_radians.
Definition dt (self : unit) : spec_float := f64 5 100.

Definition init_qpos (self : unit) : list spec_float := [f64 0 1; f64 3 4].
Definition init_qvel (self : unit) : list spec_float := [f64 0 1].
Definition nq (self : unit) : nat := 2.
Definition nv (self : unit) : nat := 1.

(** A reduction that adds the elements from left to right. *)
Definition sum (xs : list spec_float) : spec_float :=
  fold_left (Float.add Torch.f32) xs Torch.zero.

(** A simulator with one free joint, like the root joint of the ant: a
    position and a quaternion, and six velocities. Its [set_state] ends
    with the forward pass, which rescales the quaternion to unit
    length. *)
Definition free_nq (s : sim) : nat := 7.
Definition free_nv (s : sim) : nat := 6.

Definition normalize4 (q : list spec_float) : list spec_float :=
  let b64 := Float.binary64 in
  let norm :=
    SFsqrt 53 1024
      (fold_left (Float.add b64) (map (fun x => Float.mul b64 x x) q)
         (S754_zero false)) in
  let inv := Float.div b64 (Float.of_Z b64 1) norm in
  map (fun x => Float.mul b64 x inv) q.

Definition forward (s : sim) : sim :=
  Sim (firstn 3 (sim_qpos s)
       ++ normalize4 (firstn 4 (skipn 3 (sim_qpos s)))
       ++ skipn 7 (sim_qpos s))
      (sim_qvel s).

Definition free_set_state (p v : ndarray) : prog sim unit :=
  fun s =>
    if shape_eqb (shape_of p) (Rank1 (free_nq s))
       && shape_eqb (shape_of v) (Rank1 (free_nv s))
    then (Ok tt, forward (Sim (elements (to_floats float64 p))
                              (elements (to_floats float64 v))))
    else (Raise RuntimeError, s).

(** A state of the free joint whose quaternion, [(2, 0, 0, 0)], has
    length 2. *)
Definition free_state : ndarray :=
  NdFloat float64
    (Vector ([f64 0 1; f64 0 1; f64 0 1; f64 2 1; f64 0 1; f64 0 1; f64 0 1]
             ++ repeat (f64 0 1) 6)).

End Example.

(** * Facts

    ** IEEE 754 floats *)

Module FloatFacts.
Import Float.

Lemma digits2_pos_bounds (m : positive) :
  2 ^ (Zpos (digits2_pos m) - 1) <= Zpos m < 2 ^ Zpos (digits2_pos m).
Proof.
  induction m as [m IH | m IH |]; simpl digits2_pos.
  - rewrite Pos2Z.inj_succ.
    replace (Z.succ (Zpos (digits2_pos m)) - 1)
      with (Z.succ (Zpos (digits2_pos m) - 1)) by lia.
    rewrite !Z.pow_succ_r by lia. lia.
  - rewrite Pos2Z.inj_succ.
    replace (Z.succ (Zpos (digits2_pos m)) - 1)
      with (Z.succ (Zpos (digits2_pos m) - 1)) by lia.
    rewrite !Z.pow_succ_r by lia. lia.
  - simpl. lia.
Qed.

Lemma iter_xO_Z (m k : positive) :
  Zpos (Pos.iter xO m k) = Zpos m * 2 ^ Zpos k.
Proof.
  induction k using Pos.peano_ind.
  - simpl. lia.
  - rewrite Pos.iter_succ, Pos2Z.inj_succ, Z.pow_succ_r by lia.
    rewrite Pos2Z.inj_xO, IHk. lia.
Qed.

Lemma iter_xO_digits (m k : positive) :
  Zpos (digits2_pos (Pos.iter xO m k)) = Zpos (digits2_pos m) + Zpos k.
Proof.
  induction k using Pos.peano_ind.
  - simpl. lia.
  - rewrite Pos.iter_succ. simpl digits2_pos. lia.
Qed.

(** Aligning a mantissa to a smaller exponent keeps the value and adds
    the shift to the number of digits. *)
Lemma shl_align_le (m : positive) (e e' : Z) :
  e' <= e ->
  snd (shl_align m e e') = e' /\
  Zpos (fst (shl_align m e e')) = Zpos m * 2 ^ (e - e') /\
  Zpos (digits2_pos (fst (shl_align m e e'))) = Zpos (digits2_pos m) + (e - e').
Proof.
  intros H. unfold shl_align.
  destruct (e' - e) as [|p|p] eqn:E; try lia.
  - assert (e' = e) by lia. subst e'. simpl. rewrite Z.sub_diag. simpl. lia.
  - simpl. replace (e - e') with (Zpos p) by lia.
    rewrite iter_xO_Z, iter_xO_digits. auto.
Qed.

Section Rounding.

Variable f : format.
Hypothesis prec_gt_1 : 1 < prec f.
Hypothesis prec_lt_emax : prec f < emax f.

Lemma bounded_inv (m : positive) (e : Z) :
  bounded (prec f) (emax f) m e = true ->
  emin f <= e <= emax f - prec f /\
  Zpos (digits2_pos m) <= prec f /\
  (Zpos (digits2_pos m) = prec f \/ e = emin f).
Proof.
  unfold bounded, canonical_mantissa, fexp, SpecFloat.emin, emin.
  intros H. apply andb_true_iff in H. destruct H as [H1 H2].
  apply Z.eqb_eq in H1. apply Z.leb_le in H2. lia.
Qed.

Lemma bounded_intro (m : positive) (e : Z) :
  emin f <= e <= emax f - prec f ->
  Zpos (digits2_pos m) <= prec f ->
  (Zpos (digits2_pos m) = prec f \/ e = emin f) ->
  bounded (prec f) (emax f) m e = true.
Proof.
  unfold bounded, canonical_mantissa, fexp, SpecFloat.emin, emin.
  intros H1 H2 H3. apply andb_true_iff. split.
  - apply Z.eqb_eq. lia.
  - apply Z.leb_le. lia.
Qed.

Lemma binary_round_aux_canonical (s : bool) (m : positive) (e : Z) :
  bounded (prec f) (emax f) m e = true ->
  binary_round_aux (prec f) (emax f) s (Zpos m) e loc_Exact = S754_finite s m e.
Proof.
  unfold bounded, canonical_mantissa. intros H.
  apply andb_true_iff in H. destruct H as [H1 H2].
  apply Z.eqb_eq in H1.
  unfold binary_round_aux, shr_fexp. simpl Zdigits2 at 1.
  rewrite H1, Z.sub_diag.
  cbn [shr_record_of_loc shr shr_m loc_of_shr_record round_nearest_even].
  simpl Zdigits2. rewrite H1, Z.sub_diag. cbn [shr shr_m].
  rewrite H2. reflexivity.
Qed.

(** A number [m * 2^e] with at most [prec] digits above the smallest
    exponent is a float: rounding only aligns it. *)
Lemma binary_round_exact (s : bool) (m : positive) (e : Z) :
  Zpos (digits2_pos m) <= prec f ->
  emin f <= e ->
  Zpos (digits2_pos m) + e <= emax f ->
  exists m' e',
    binary_round (prec f) (emax f) s m e = S754_finite s m' e' /\
    bounded (prec f) (emax f) m' e' = true /\
    e' <= e /\
    Zpos m' = Zpos m * 2 ^ (e - e').
Proof.
  intros Hd He Hmax.
  set (e' := fexp (prec f) (emax f) (Zpos (digits2_pos m) + e)).
  assert (He' : e' <= e /\ emin f <= e' /\ e' <= emax f - prec f /\
                (Zpos (digits2_pos m) + e - e' = prec f \/ e' = emin f) /\
                Zpos (digits2_pos m) + e - e' <= prec f).
  { unfold e', fexp, SpecFloat.emin, emin in *. lia. }
  destruct He' as (H1 & H2 & H3 & H4 & H5).
  destruct (shl_align_le m e e' H1) as (A1 & A2 & A3).
  exists (fst (shl_align m e e')), e'.
  assert (B : bounded (prec f) (emax f) (fst (shl_align m e e')) e' = true).
  { apply bounded_intro; lia. }
  unfold binary_round. fold e'.
  destruct (shl_align m e e') as [mz ez] eqn:E. simpl in *. subst ez.
  rewrite binary_round_aux_canonical by exact B. auto.
Qed.

End Rounding.
Section Order.

Variable f : format.
Hypothesis prec_gt_1 : 1 < prec f.
Hypothesis prec_lt_emax : prec f < emax f.

Lemma canonical_lt (m1 m2 : positive) (e1 e2 : Z) :
  bounded (prec f) (emax f) m1 e1 = true ->
  bounded (prec f) (emax f) m2 e2 = true ->
  e1 < e2 ->
  Zpos m1 * 2 ^ (e1 - emin f) < Zpos m2 * 2 ^ (e2 - emin f).
Proof.
  intros B1 B2 Hlt.
  apply (bounded_inv f) in B1. apply (bounded_inv f) in B2.
  destruct B1 as (R1 & D1 & _). destruct B2 as (R2 & D2 & C2).
  assert (D2' : Zpos (digits2_pos m2) = prec f) by lia.
  pose proof (digits2_pos_bounds m1) as [_ U1].
  pose proof (digits2_pos_bounds m2) as [L2 _].
  rewrite D2' in L2.
  assert (P1 : 2 ^ Zpos (digits2_pos m1) <= 2 ^ prec f)
    by (apply Z.pow_le_mono_r; lia).
  assert (P2 : 2 ^ prec f = 2 * 2 ^ (prec f - 1)).
  { replace (prec f) with (Z.succ (prec f - 1)) at 1 by lia.
    rewrite Z.pow_succ_r by lia. reflexivity. }
  replace (e2 - emin f) with ((e2 - e1) + (e1 - emin f)) by lia.
  rewrite Z.pow_add_r by lia.
  assert (P3 : 2 ^ 1 <= 2 ^ (e2 - e1)) by (apply Z.pow_le_mono_r; lia).
  change (2 ^ 1) with 2 in P3.
  assert (P4 : 0 < 2 ^ (e1 - emin f)) by (apply Z.pow_pos_nonneg; lia).
  assert (P5 : Zpos m1 < Zpos m2 * 2 ^ (e2 - e1)) by nia.
  rewrite Z.mul_assoc. apply Z.mul_lt_mono_pos_r; assumption.
Qed.

Lemma compare_cont_Z (m1 m2 : positive) (k : Z) :
  0 < k ->
  Pos.compare_cont Eq m1 m2 = (Zpos m1 * k ?= Zpos m2 * k).
Proof.
  intros Hk. rewrite <- Zmult_compare_compat_r by lia. reflexivity.
Qed.

(** On valid floats [SFcompare] is the order of the values. *)
Lemma SFcompare_scaled (a b : spec_float) (u v : Z) :
  valid f a = true -> valid f b = true ->
  scaled f a = Some u -> scaled f b = Some v ->
  SFcompare a b = Some (u ?= v).
Proof.
  unfold valid.
  destruct a as [sa|sa| |sa ma ea], b as [sb|sb| |sb mb eb];
    cbn [valid_binary scaled SFcompare]; intros Va Vb Ha Hb; try discriminate;
    apply (f_equal (fun o => match o with Some z => z | None => 0 end)) in Ha, Hb;
    cbv beta iota in Ha, Hb; subst u v.
  - reflexivity.
  - assert (0 < Zpos mb * 2 ^ (eb - emin f))
      by (apply Z.mul_pos_pos; [lia | apply Z.pow_pos_nonneg; [lia|];
          apply (bounded_inv f) in Vb; lia]).
    destruct sb; cbn [cond_Zopp]; f_equal; symmetry.
    + apply Z.compare_gt_iff. lia.
    + apply Z.compare_lt_iff. lia.
  - assert (0 < Zpos ma * 2 ^ (ea - emin f))
      by (apply Z.mul_pos_pos; [lia | apply Z.pow_pos_nonneg; [lia|];
          apply (bounded_inv f) in Va; lia]).
    destruct sa; cbn [cond_Zopp]; f_equal; symmetry.
    + apply Z.compare_lt_iff. lia.
    + apply Z.compare_gt_iff. lia.
  - pose proof (bounded_inv f _ _ Va) as (Ra & _).
    pose proof (bounded_inv f _ _ Vb) as (Rb & _).
    assert (Pa : 0 < Zpos ma * 2 ^ (ea - emin f))
      by (apply Z.mul_pos_pos; [lia | apply Z.pow_pos_nonneg; lia]).
    assert (Pb : 0 < Zpos mb * 2 ^ (eb - emin f))
      by (apply Z.mul_pos_pos; [lia | apply Z.pow_pos_nonneg; lia]).
    destruct sa, sb; cbn [cond_Zopp]; f_equal.
    + (* both negative *)
      destruct (Z.compare_spec ea eb) as [E|E|E].
      * subst eb. rewrite (compare_cont_Z ma mb (2 ^ (ea - emin f)))
          by (apply Z.pow_pos_nonneg; lia).
        rewrite Z.compare_opp. symmetry. apply Z.compare_antisym.
      * symmetry. apply Z.compare_gt_iff.
        pose proof (canonical_lt _ _ _ _ Va Vb E). lia.
      * symmetry. apply Z.compare_lt_iff.
        pose proof (canonical_lt _ _ _ _ Vb Va E). lia.
    + symmetry. apply Z.compare_lt_iff. lia.
    + symmetry. apply Z.compare_gt_iff. lia.
    + destruct (Z.compare_spec ea eb) as [E|E|E].
      * subst eb. apply compare_cont_Z. apply Z.pow_pos_nonneg; lia.
      * symmetry. apply Z.compare_lt_iff.
        apply (canonical_lt _ _ _ _ Va Vb E).
      * symmetry. apply Z.compare_gt_iff.
        pose proof (canonical_lt _ _ _ _ Vb Va E). lia.
Qed.

End Order.
Section Integers.

Variable f : format.
Hypothesis prec_gt_1 : 1 < prec f.
Hypothesis prec_lt_emax : prec f < emax f.

Lemma emin_neg : emin f < 0.
Proof. unfold emin. lia. Qed.

Lemma unit_pos : 0 < 2 ^ (- emin f).
Proof. apply Z.pow_pos_nonneg; pose proof emin_neg; lia. Qed.

Lemma represents_not_nan x v : represents f x v -> is_nan x = false.
Proof. intros [_ H]. destruct x; simpl in *; congruence. Qed.

Lemma represents_compare a b u v :
  represents f a u -> represents f b v -> SFcompare a b = Some (u ?= v).
Proof.
  intros [Va Sa] [Vb Sb].
  rewrite (SFcompare_scaled f) with (u := u * 2 ^ (- emin f)) (v := v * 2 ^ (- emin f)) by assumption.
  f_equal. symmetry. apply Zmult_compare_compat_r. pose proof unit_pos; lia.
Qed.

Lemma digits_le_prec (m : positive) :
  Zpos m < 2 ^ prec f -> Zpos (digits2_pos m) <= prec f.
Proof.
  intros H. pose proof (digits2_pos_bounds m) as [L _].
  assert (2 ^ (Zpos (digits2_pos m) - 1) < 2 ^ prec f) by lia.
  apply Z.pow_lt_mono_r_iff in H0; lia.
Qed.

(** Rounding a number that is a float of the format is exact. *)
Lemma binary_round_scaled (s : bool) (m : positive) (e : Z) :
  Zpos (digits2_pos m) <= prec f ->
  emin f <= e ->
  Zpos (digits2_pos m) + e <= emax f ->
  valid f (binary_round (prec f) (emax f) s m e) = true /\
  scaled f (binary_round (prec f) (emax f) s m e)
  = Some (cond_Zopp s (Zpos m * 2 ^ (e - emin f))).
Proof.
  intros Hd He Hmax.
  destruct (binary_round_exact f) with (s := s) (m := m) (e := e)
    as (m' & e' & -> & B & Le & Hm); try assumption.
  split; [exact B|]. cbn [scaled]. do 2 f_equal.
  apply (bounded_inv f) in B. rewrite Hm, <- Z.mul_assoc, <- Z.pow_add_r by lia.
  do 2 f_equal. lia.
Qed.

Lemma normalize_represents (k : Z) (sz : bool) :
  Z.abs k < 2 ^ prec f ->
  represents f (binary_normalize (prec f) (emax f) k 0 sz) k.
Proof.
  intros Hk. pose proof emin_neg as En.
  destruct k as [|m|m]; cbn [binary_normalize].
  - split; reflexivity.
  - assert (D : Zpos (digits2_pos m) <= prec f) by (apply digits_le_prec; lia).
    destruct (binary_round_scaled false m 0 D) as [V S]; try lia.
    split; [exact V|]. rewrite S. cbn [cond_Zopp]. reflexivity.
  - assert (D : Zpos (digits2_pos m) <= prec f) by (apply digits_le_prec; lia).
    destruct (binary_round_scaled true m 0 D) as [V S]; try lia.
    split; [exact V|]. rewrite S. cbn [cond_Zopp]. f_equal.
    change (0 - emin f) with (- emin f). lia.
Qed.

Lemma nearest_even_bounds (m : positive) (p : positive) :
  Zpos m < 2 ^ prec f ->
  0 <= nearest_even m (Zneg p) < 2 ^ prec f.
Proof.
  intros Hm. unfold nearest_even.
  assert (Hd : 2 <= 2 ^ Zpos p).
  { change 2 with (2 ^ 1) at 1. apply Z.pow_le_mono_r; lia. }
  set (d := 2 ^ Zpos p) in *.
  pose proof (Z.div_mod (Zpos m) d ltac:(lia)) as E.
  pose proof (Z.mod_pos_bound (Zpos m) d ltac:(lia)) as R.
  assert (Q0 : 0 <= Zpos m / d) by (apply Z.div_pos; lia).
  assert (P2 : 2 ^ prec f = 2 * 2 ^ (prec f - 1)).
  { replace (prec f) with (Z.succ (prec f - 1)) at 1 by lia.
    rewrite Z.pow_succ_r by lia. reflexivity. }
  assert (Q1 : Zpos m / d + 1 < 2 ^ prec f) by nia.
  destruct (2 * (Zpos m mod d) ?= d); [destruct (Z.even _)| |]; lia.
Qed.

Lemma valid_finite_represents (s : bool) (m : positive) (e : Z) :
  valid f (S754_finite s m e) = true -> 0 <= e ->
  represents f (S754_finite s m e) (cond_Zopp s (Zpos m * 2 ^ e)).
Proof.
  intros V He. split; [exact V|]. cbn [scaled]. f_equal.
  pose proof emin_neg.
  replace (e - emin f) with (e + - emin f) by lia.
  rewrite Z.pow_add_r by lia. destruct s; cbn [cond_Zopp]; lia.
Qed.

(** [rint] of a valid float is the float of the nearest integer. *)
Lemma rint_denotes (x : spec_float) :
  valid f x = true -> denotes f (rint f x) (nearest x).
Proof.
  intros V. destruct x as [s|s| |s m e]; cbn [rint nearest denotes];
    try reflexivity.
  - split; reflexivity.
  - destruct e as [|p|p].
    + apply (valid_finite_represents s m 0 V). lia.
    + apply (valid_finite_represents s m (Zpos p) V). lia.
    + apply normalize_represents.
      pose proof (bounded_inv f _ _ V) as (_ & D & _).
      pose proof (digits2_pos_bounds m) as [_ U].
      assert (Zpos m < 2 ^ prec f).
      { eapply Z.lt_le_trans; [exact U|]. apply Z.pow_le_mono_r; lia. }
      pose proof (nearest_even_bounds m p H).
      destruct s; cbn [cond_Zopp]; lia.
Qed.

Lemma represents_trunc x v : represents f x v -> trunc x = Some v.
Proof.
  intros [V S]. pose proof emin_neg as En. pose proof unit_pos as Up.
  destruct x as [s|s| |s m e]; cbn [scaled trunc] in *; try discriminate.
  - f_equal. injection S as S. nia.
  - f_equal.
    apply (f_equal (fun o => match o with Some z => z | None => 0 end)) in S.
    cbv beta iota in S.
    pose proof (bounded_inv f _ _ V) as (R & _).
    destruct e as [|p|p].
    + replace (0 - emin f) with (- emin f) in S by lia.
      rewrite Z.pow_0_r, Z.mul_1_r.
      destruct s; cbn [cond_Zopp] in *; nia.
    + replace (Zpos p - emin f) with (Zpos p + - emin f) in S by lia.
      rewrite Z.pow_add_r in S by lia.
      destruct s; cbn [cond_Zopp] in *; nia.
    + assert (E : 2 ^ (- emin f) = 2 ^ Zpos p * 2 ^ (Zneg p - emin f)).
      { rewrite <- Z.pow_add_r by lia. f_equal. lia. }
      assert (P : 0 < 2 ^ (Zneg p - emin f)) by (apply Z.pow_pos_nonneg; lia).
      assert (P' : 0 < 2 ^ Zpos p) by (apply Z.pow_pos_nonneg; lia).
      rewrite E in S.
      assert (M : Zpos m = Z.abs v * 2 ^ Zpos p).
      { destruct s; cbn [cond_Zopp] in S; nia. }
      rewrite M, Z.div_mul by lia.
      destruct s; cbn [cond_Zopp] in *; nia.
Qed.

End Integers.

Section Clip.

Variable f : format.
Hypothesis prec_gt_1 : 1 < prec f.
Hypothesis prec_lt_emax : prec f < emax f.

Lemma maximum_represents a b u v :
  represents f a u -> represents f b v ->
  represents f (maximum a b) (Z.max u v).
Proof.
  intros Ha Hb. unfold maximum, gtb, SFltb.
  rewrite (represents_not_nan f a u Ha).
  rewrite (represents_compare f prec_gt_1 prec_lt_emax b a v u Hb Ha).
  cbn [orb]. destruct (Z.compare_spec v u) as [E|E|E].
  - replace (Z.max u v) with v by lia. exact Hb.
  - replace (Z.max u v) with u by lia. exact Ha.
  - replace (Z.max u v) with v by lia. exact Hb.
Qed.

Lemma minimum_represents a b u v :
  represents f a u -> represents f b v ->
  represents f (minimum a b) (Z.min u v).
Proof.
  intros Ha Hb. unfold minimum, ltb, SFltb.
  rewrite (represents_not_nan f a u Ha).
  rewrite (represents_compare f prec_gt_1 prec_lt_emax a b u v Ha Hb).
  cbn [orb]. destruct (Z.compare_spec u v) as [E|E|E].
  - replace (Z.min u v) with v by lia. exact Hb.
  - replace (Z.min u v) with u by lia. exact Ha.
  - replace (Z.min u v) with v by lia. exact Hb.
Qed.

Lemma represents_finite x v :
  represents f x v ->
  (exists s, x = S754_zero s) \/ (exists s m e, x = S754_finite s m e).
Proof.
  intros [_ S]. destruct x; cbn in S; try discriminate; eauto.
Qed.

(** Clipping an integer-valued float, or an infinity, between two
    integer-valued floats clamps its value. *)
Lemma clip_denotes x i lo hi l h :
  denotes f x i -> represents f lo l -> represents f hi h ->
  denotes f (clip x lo hi) (clamp i l h).
Proof.
  intros Hx Hlo Hhi. unfold clip.
  destruct i as [|[|]|z]; cbn [denotes clamp] in *.
  - subst x. reflexivity.
  - subst x. unfold maximum, gtb, SFltb.
    assert (E : SFcompare lo (S754_infinity true) = Some Gt).
    { destruct (represents_finite lo l Hlo) as [[s ->]|(s & m & e & ->)];
        reflexivity. }
    cbn [is_nan orb]. rewrite E.
    apply minimum_represents; assumption.
  - subst x. unfold maximum, gtb, SFltb.
    assert (E : SFcompare lo (S754_infinity false) = Some Lt).
    { destruct (represents_finite lo l Hlo) as [[s ->]|(s & m & e & ->)];
        reflexivity. }
    cbn [is_nan orb]. rewrite E.
    unfold minimum, ltb, SFltb. cbn [is_nan orb].
    assert (E' : SFcompare (S754_infinity false) hi = Some Gt).
    { destruct (represents_finite hi h Hhi) as [[s ->]|(s & m & e & ->)];
        reflexivity. }
    rewrite E'. exact Hhi.
  - apply minimum_represents; [apply maximum_represents|]; assumption.
Qed.

End Clip.

(** A float of a format is a float of every wider format, with the same
    value. *)
Section Widen.

Variables f g : format.
Hypothesis f_prec_gt_1 : 1 < prec f.
Hypothesis f_prec_lt_emax : prec f < emax f.
Hypothesis g_prec_gt_1 : 1 < prec g.
Hypothesis g_prec_lt_emax : prec g < emax g.
Hypothesis prec_le : prec f <= prec g.
Hypothesis emax_le : emax f <= emax g.

Lemma round_to_wider (x : spec_float) :
  valid f x = true ->
  valid g (round_to g x) = true /\
  scaled g (round_to g x) = scaled g x /\
  is_nan (round_to g x) = is_nan x /\
  isfinite (round_to g x) = isfinite x.
Proof.
  intros V. destruct x as [s|s| |s m e]; cbn [round_to];
    try (repeat split; reflexivity).
  pose proof (bounded_inv f _ _ V) as (R & D & _).
  destruct (binary_round_exact g g_prec_gt_1 g_prec_lt_emax s m e)
    as (m' & e' & E & B & Le & Hm); unfold emin in *; try lia.
  pose proof (binary_round_scaled g g_prec_gt_1 g_prec_lt_emax s m e)
    as [V' S']; unfold emin in *; try lia.
  repeat split; try assumption; rewrite E; reflexivity.
Qed.

Lemma round_to_denotes (x : spec_float) (i : ival) :
  denotes f x i -> denotes g (round_to g x) i.
Proof.
  destruct i as [| s | z]; cbn [denotes].
  - intros ->. reflexivity.
  - intros ->. reflexivity.
  - intros [V S]. destruct (round_to_wider x V) as (V' & S' & _).
    split; [exact V'|]. rewrite S'.
    destruct x as [s|s| |s m e]; cbn [scaled] in *; try discriminate.
    + injection S as S. f_equal.
      assert (0 < 2 ^ (- emin f)) by (apply Z.pow_pos_nonneg; unfold emin; lia).
      assert (0 < 2 ^ (- emin g)) by (apply Z.pow_pos_nonneg; unfold emin; lia).
      nia.
    + apply (f_equal (fun o => match o with Some z => z | None => 0 end)) in S.
      cbv beta iota in S. f_equal.
      pose proof (bounded_inv f _ _ V) as (R & _).
      assert (E1 : 2 ^ (e - emin g) = 2 ^ (e - emin f) * 2 ^ (emin f - emin g)).
      { rewrite <- Z.pow_add_r by (unfold emin in *; lia). f_equal. lia. }
      assert (E2 : 2 ^ (- emin g) = 2 ^ (- emin f) * 2 ^ (emin f - emin g)).
      { rewrite <- Z.pow_add_r by (unfold emin in *; lia). f_equal. lia. }
      rewrite E1, E2.
      destruct s; cbn [cond_Zopp] in *; nia.
Qed.

End Widen.

(** The two formats in use. *)
Lemma binary32_prec_gt_1 : 1 < prec binary32.
Proof. reflexivity. Qed.

Lemma binary32_prec_lt_emax : prec binary32 < emax binary32.
Proof. reflexivity. Qed.

Lemma binary64_prec_gt_1 : 1 < prec binary64.
Proof. reflexivity. Qed.

Lemma binary64_prec_lt_emax : prec binary64 < emax binary64.
Proof. reflexivity. Qed.

End FloatFacts.

(** ** Rounding to the nearest integer *)

Module NearestFacts.
Import Float.

Lemma nearest_even_half (m p : positive) :
  let k := nearest_even m (Zneg p) in
  let d := 2 ^ Zpos p in
  0 <= k /\
  Z.abs (2 * (Zpos m - k * d)) <= d /\
  (Z.abs (2 * (Zpos m - k * d)) = d -> Z.even k = true).
Proof.
  cbv zeta. unfold nearest_even.
  assert (Hd : 0 < 2 ^ Zpos p) by (apply Z.pow_pos_nonneg; lia).
  set (d := 2 ^ Zpos p) in *.
  pose proof (Z.div_mod (Zpos m) d ltac:(lia)) as E.
  pose proof (Z.mod_pos_bound (Zpos m) d ltac:(lia)) as R.
  assert (Q0 : 0 <= Zpos m / d) by (apply Z.div_pos; lia).
  set (q := Zpos m / d) in *. set (r := Zpos m mod d) in *.
  destruct (Z.compare_spec (2 * r) d) as [C|C|C].
  - destruct (Z.even q) eqn:Ev.
    + split; [lia|]. split; [nia|]. intros _. exact Ev.
    + split; [lia|]. split; [nia|]. intros _.
      rewrite Z.even_add, Ev. reflexivity.
  - split; [lia|]. split; [nia|]. intros H. exfalso. nia.
  - split; [lia|]. split; [nia|]. intros H. exfalso. nia.
Qed.

(** [nearest] is rounding to the nearest integer, ties to even: the value
    of a finite float is within one half of it, and at exactly one half
    only of an even integer. *)
Lemma nearest_is_nearest (x : spec_float) (q : Q) (k : Z) :
  to_Q x = Some q -> nearest x = IInt k ->
  (Qabs (q - inject_Z k) <= 1 # 2)%Q /\
  ((Qabs (q - inject_Z k) == 1 # 2)%Q -> Z.even k = true).
Proof.
  destruct x as [s|s| |s m e]; cbn [to_Q nearest]; try discriminate.
  - intros [= <-] [= <-]. split; [discriminate|]. reflexivity.
  - intros Hq [= <-].
    assert (G : forall z : Z,
               (Qabs ((z # 1) - inject_Z z) <= 1 # 2)%Q /\
               ((Qabs ((z # 1) - inject_Z z) == 1 # 2)%Q -> Z.even z = true)).
    { intros z. assert (E : ((z # 1) - inject_Z z == 0)%Q)
        by (unfold inject_Z; ring).
      rewrite E. split; [discriminate|]. intros H. discriminate H. }
    destruct e as [|p|p].
    + injection Hq as <-. cbn [nearest_even].
      apply G.
    + injection Hq as <-. cbn [nearest_even]. apply G.
    + injection Hq as <-.
      pose proof (nearest_even_half m p) as (K0 & H1 & H2). cbv zeta in *.
      set (k := nearest_even m (Zneg p)) in *.
      assert (Hd : 0 < 2 ^ Zpos p) by (apply Z.pow_pos_nonneg; lia).
      assert (Ed : Zpos (2 ^ p) = 2 ^ Zpos p) by apply Pos2Z.inj_pow.
      assert (Ev : Z.even (cond_Zopp s k) = Z.even k)
        by (destruct s; cbn [cond_Zopp]; [apply Z.even_opp | reflexivity]).
      rewrite Ev.
      assert (A : (Qabs ((cond_Zopp s (Zpos m) # 2 ^ p) - inject_Z (cond_Zopp s k))
                   == Z.abs (Zpos m - k * 2 ^ Zpos p) # 2 ^ p)%Q).
      { assert (B : ((cond_Zopp s (Zpos m) # 2 ^ p) - inject_Z (cond_Zopp s k)
                     == cond_Zopp s (Zpos m - k * 2 ^ Zpos p) # 2 ^ p)%Q).
        { unfold Qeq, Qminus, Qplus, Qopp, inject_Z. cbn [Qnum Qden].
          rewrite Ed. destruct s; cbn [cond_Zopp]; rewrite ?Pos2Z.inj_mul, ?Ed; ring. }
        rewrite B. unfold Qabs. destruct s; cbn [cond_Zopp];
          rewrite ?Z.abs_opp; reflexivity. }
      rewrite A. unfold Qle, Qeq. cbn [Qnum Qden]. rewrite Ed.
      split; [lia|]. intros H. apply H2. lia.
Qed.

End NearestFacts.

(** ** NumPy arrays *)

Module NumpyFacts.
Import Numpy.

Lemma zip3_repeat {A B} (g : A -> A -> A -> B) (xs : list A) (lo hi : A) :
  zip3 g xs (repeat lo (length xs)) (repeat hi (length xs))
  = map (fun x => g x lo hi) xs.
Proof. induction xs as [|x xs IH]; simpl; congruence. Qed.

Lemma zip3_repeat_mid {A B} (g : A -> A -> A -> B) (xs his : list A) (lo : A) :
  zip3 g xs (repeat lo (length xs)) his
  = map (fun p => g (fst p) lo (snd p)) (combine xs his).
Proof.
  revert his. induction xs as [|x xs IH]; intros [|h his]; simpl;
    try reflexivity.
  rewrite IH. reflexivity.
Qed.

Lemma broadcast_to_same {A} (a : array A) : broadcast_to a (ashape a) = a.
Proof. destruct a as [x|[|x [|y xs]]]; reflexivity. Qed.

Lemma broadcast_to_scalar {A} (x : A) (s : shape) :
  broadcast_to (Scalar x) s
  = match s with Rank0 => Scalar x | Rank1 n => Vector (repeat x n) end.
Proof. destruct s; reflexivity. Qed.

(** Clipping against two scalars maps over the array. *)
Lemma broadcast3_scalars {A B} (g : A -> A -> A -> B) (a : array A) (lo hi : A) :
  broadcast3 g a (Scalar lo) (Scalar hi) = Ok (amap (fun x => g x lo hi) a).
Proof.
  unfold broadcast3. destruct a as [x|xs]; cbn [ashape broadcast_shapes rbind].
  - reflexivity.
  - change (Rank1 (length xs)) with (ashape (Vector xs)).
    rewrite broadcast_to_same. cbn [ashape broadcast_to amap3 elements amap].
    rewrite zip3_repeat. reflexivity.
Qed.

(** Clipping a vector against a scalar and a vector of its length. *)
Lemma broadcast3_scalar_vector {A B} (g : A -> A -> A -> B)
    (xs his : list A) (lo : A) :
  length his = length xs ->
  broadcast3 g (Vector xs) (Scalar lo) (Vector his)
  = Ok (Vector (map (fun p => g (fst p) lo (snd p)) (combine xs his))).
Proof.
  intros L. unfold broadcast3. cbn [ashape broadcast_shapes rbind].
  rewrite L, Nat.eqb_refl. cbn [rbind].
  change (Rank1 (length xs)) with (ashape (Vector xs)) at 1.
  rewrite broadcast_to_same. rewrite <- L at 2.
  change (Rank1 (length his)) with (ashape (Vector his)).
  rewrite broadcast_to_same. cbn [broadcast_to amap3 elements].
  rewrite zip3_repeat_mid. reflexivity.
Qed.

Lemma broadcast3_vectors {A B} (g : A -> A -> A -> B) (xs los his : list A) :
  length los = length xs -> length his = length xs ->
  broadcast3 g (Vector xs) (Vector los) (Vector his)
  = Ok (Vector (zip3 g xs los his)).
Proof.
  intros L1 L2. unfold broadcast3. cbn [ashape broadcast_shapes rbind].
  rewrite L1, L2, Nat.eqb_refl. cbn [rbind broadcast_shapes].
  rewrite Nat.eqb_refl. cbn [rbind].
  change (Rank1 (length xs)) with (ashape (Vector xs)) at 1.
  rewrite broadcast_to_same.
  rewrite <- L1 at 1. change (Rank1 (length los)) with (ashape (Vector los)).
  rewrite broadcast_to_same.
  rewrite <- L2. change (Rank1 (length his)) with (ashape (Vector his)).
  rewrite broadcast_to_same. reflexivity.
Qed.

Lemma ashape_amap {A B} (g : A -> B) (a : array A) : ashape (amap g a) = ashape a.
Proof. destruct a; cbn; [reflexivity | rewrite length_map; reflexivity]. Qed.

Lemma elements_amap {A B} (g : A -> B) (a : array A) :
  elements (amap g a) = map g (elements a).
Proof. destruct a; reflexivity. Qed.

Lemma ashape_to_floats (f : float_dtype) (a : ndarray) :
  ashape (to_floats f a) = shape_of a.
Proof.
  destruct a as [g x|w x]; cbn; [destruct (float_dtype_eqb g f)|];
    rewrite ?ashape_amap; reflexivity.
Qed.

Lemma float_dtype_eqb_refl f : float_dtype_eqb f f = true.
Proof. destruct f; reflexivity. Qed.

Lemma int_dtype_eqb_refl w : int_dtype_eqb w w = true.
Proof. destruct w; reflexivity. Qed.

Lemma wrap_in_range w z : in_range w z = true -> wrap w z = z.
Proof.
  unfold in_range, wrap. intros H. apply andb_true_iff in H.
  destruct H as [H1 H2]. apply Z.leb_le in H1, H2.
  rewrite Z.mod_small; [lia|]. destruct w; cbn in *; lia.
Qed.

Lemma in_range_int64 w z : in_range w z = true -> in_range int64 z = true.
Proof.
  unfold in_range. intros H. apply andb_true_iff in H.
  destruct H as [H1 H2]. apply Z.leb_le in H1, H2.
  apply andb_true_iff; split; apply Z.leb_le; destruct w; cbn in *; lia.
Qed.

Lemma in_range_between w lo hi z :
  in_range w lo = true -> in_range w hi = true -> lo <= z <= hi ->
  in_range w z = true.
Proof.
  unfold in_range. intros H1 H2 H. apply andb_true_iff in H1, H2.
  destruct H1 as [H1 _], H2 as [_ H2]. apply Z.leb_le in H1, H2.
  apply andb_true_iff; split; apply Z.leb_le; lia.
Qed.

Lemma map_id_Forall {A} (g : A -> A) (P : A -> Prop) (xs : list A) :
  (forall x, P x -> g x = x) -> Forall P xs -> map g xs = xs.
Proof.
  intros H F. induction F as [|x xs Hx F IH]; simpl; [reflexivity|].
  rewrite H, IH by assumption. reflexivity.
Qed.

Lemma amap_id_Forall {A} (g : A -> A) (P : A -> Prop) (a : array A) :
  (forall x, P x -> g x = x) -> Forall P (elements a) -> amap g a = a.
Proof.
  intros H F. destruct a as [x|xs]; cbn in *.
  - inversion F; subst. rewrite H by assumption. reflexivity.
  - f_equal. eapply map_id_Forall; eassumption.
Qed.

(** A cast to the dtype an array has is the array. *)
Lemma astype_same ic (a : ndarray) : astype ic (dtype_of a) a = a.
Proof.
  destruct a as [f x|w x]; cbn.
  - rewrite float_dtype_eqb_refl. reflexivity.
  - rewrite int_dtype_eqb_refl. reflexivity.
Qed.

Lemma dtype_of_astype ic dt a : dtype_of (astype ic dt a) = dt.
Proof. destruct dt; reflexivity. Qed.

Lemma shape_of_astype ic dt a : shape_of (astype ic dt a) = shape_of a.
Proof.
  destruct dt as [f|w], a as [g x|v x]; cbn;
    try destruct (float_dtype_eqb g f); try destruct (int_dtype_eqb v w);
    rewrite ?ashape_amap; reflexivity.
Qed.

Lemma np_float32_idem ic a : np_float32 ic (np_float32 ic a) = np_float32 ic a.
Proof. unfold np_float32. apply (astype_same ic (astype ic (DFloat float32) a)). Qed.

End NumpyFacts.

(** ** Rounding, clipping and casting an action *)

Module ReformatFacts.
Import Numpy Gym Float FloatFacts NumpyFacts Spec.

Lemma fmt_prec_gt_1 f : 1 < prec (fmt f).
Proof. destruct f; reflexivity. Qed.

Lemma fmt_prec_lt_emax f : prec (fmt f) < emax (fmt f).
Proof. destruct f; reflexivity. Qed.

Lemma in_range_0 w : in_range w 0 = true.
Proof. destruct w; reflexivity. Qed.

Lemma Forall2_map_both {A B C} (P : B -> C -> Prop) (Q : A -> Prop)
    (g : A -> B) (h : A -> C) (xs : list A) :
  Forall Q xs -> (forall x, Q x -> P (g x) (h x)) ->
  Forall2 P (map g xs) (map h xs).
Proof.
  intros F H. induction F as [|x xs Hx F IH]; simpl; constructor; auto.
Qed.

(** Widening to float64 keeps the value. *)
Lemma widen_same_value (f : float_dtype) (x : spec_float) :
  valid (fmt f) x = true -> same_value x (widen f x).
Proof.
  intros V. destruct f; cbn [widen].
  - destruct (round_to_wider binary32 binary64) with (x := x)
      as (V' & S' & _); try (cbn; lia); try exact V.
    destruct x; cbn [same_value round_to] in *; auto.
  - destruct x; cbn [same_value]; auto.
Qed.

Lemma map_widen_same_value (f : float_dtype) (xs : list spec_float) :
  Forall (fun x => valid (fmt f) x = true) xs ->
  Forall2 same_value xs (map (widen f) xs).
Proof.
  intros F. induction F as [|x l Hx F IH]; cbn; constructor; auto.
  apply widen_same_value. exact Hx.
Qed.

Lemma elements_to_floats_float64 f (a : array spec_float) :
  elements (to_floats float64 (NdFloat f a)) = map (widen f) (elements a).
Proof.
  destruct f; cbn [to_floats float_dtype_eqb widen].
  - apply elements_amap.
  - rewrite map_id. reflexivity.
Qed.

Section Elements.

Variable invalid_cast : int_dtype -> spec_float -> Z.

Lemma float_to_int_represents g w x z :
  1 < prec g -> prec g < emax g ->
  represents g x z -> in_range w z = true ->
  float_to_int invalid_cast w x = z.
Proof.
  intros G1 G2 R I. unfold float_to_int.
  rewrite (represents_trunc g G1 G2 x z R), I. reflexivity.
Qed.

(** Clipping between the floats of [0] and [hi], then casting: the
    nearest integer clamped into [[0, hi]]. *)
Lemma clip_cast_spec g w x' x hi :
  1 < prec g -> prec g < emax g ->
  denotes g x' (nearest x) ->
  0 <= hi < 2 ^ prec g -> in_range w hi = true ->
  float_to_int invalid_cast w (Float.clip x' (of_Z g 0) (of_Z g hi))
  = round_clamp_cast invalid_cast w hi (inl x) /\
  (is_nan x = false ->
   0 <= float_to_int invalid_cast w (Float.clip x' (of_Z g 0) (of_Z g hi)) <= hi).
Proof.
  intros G1 G2 D Hhi I.
  assert (R0 : represents g (of_Z g 0) 0)
    by (apply (normalize_represents g G1 G2); simpl; lia).
  assert (Rh : represents g (of_Z g hi) hi)
    by (apply (normalize_represents g G1 G2); lia).
  pose proof (clip_denotes g G1 G2 x' (nearest x) _ _ 0 hi D R0 Rh) as C.
  unfold round_clamp_cast.
  destruct (nearest x) as [|[|]|v] eqn:N; cbn [clamp denotes] in C |- *.
  - rewrite C. split; [reflexivity|].
    intros Hn. destruct x; cbn in N, Hn; discriminate.
  - assert (in_range w (Z.min 0 hi) = true)
      by (replace (Z.min 0 hi) with 0 by lia; apply in_range_0).
    rewrite (float_to_int_represents g w _ _ G1 G2 C H). lia.
  - rewrite (float_to_int_represents g w _ _ G1 G2 C I). lia.
  - assert (in_range w (Z.min (Z.max v 0) hi) = true).
    { apply (in_range_between w 0 hi); auto using in_range_0. lia. }
    rewrite (float_to_int_represents g w _ _ G1 G2 C H). lia.
Qed.

Lemma rint_clip_cast_spec f w x hi :
  valid (fmt f) x = true ->
  0 <= hi < 2 ^ prec (fmt f) -> in_range w hi = true ->
  float_to_int invalid_cast w
    (Float.clip (rint (fmt f) x) (of_Z (fmt f) 0) (of_Z (fmt f) hi))
  = round_clamp_cast invalid_cast w hi (inl x) /\
  (is_nan x = false ->
   0 <= float_to_int invalid_cast w
          (Float.clip (rint (fmt f) x) (of_Z (fmt f) 0) (of_Z (fmt f) hi))
     <= hi).
Proof.
  intros V Hhi I.
  apply clip_cast_spec; auto using fmt_prec_gt_1, fmt_prec_lt_emax.
  apply rint_denotes; auto using fmt_prec_gt_1, fmt_prec_lt_emax.
Qed.

(** The same when the rounded element is widened to float64 before it is
    clipped. *)
Lemma rint_widen_clip_cast_spec f w x hi :
  valid (fmt f) x = true ->
  0 <= hi < 2 ^ 53 -> in_range w hi = true ->
  float_to_int invalid_cast w
    (Float.clip (widen f (rint (fmt f) x)) (of_Z binary64 0) (of_Z binary64 hi))
  = round_clamp_cast invalid_cast w hi (inl x) /\
  (is_nan x = false ->
   0 <= float_to_int invalid_cast w
          (Float.clip (widen f (rint (fmt f) x))
             (of_Z binary64 0) (of_Z binary64 hi))
     <= hi).
Proof.
  intros V Hhi I.
  assert (D : denotes (fmt f) (rint (fmt f) x) (nearest x))
    by (apply rint_denotes; auto using fmt_prec_gt_1, fmt_prec_lt_emax).
  assert (Hhi' : 0 <= hi < 2 ^ prec binary64) by exact Hhi.
  apply clip_cast_spec; auto using binary64_prec_gt_1, binary64_prec_lt_emax.
  destruct f; cbn [widen].
  - apply (round_to_denotes binary32 binary64); auto; cbn; lia.
  - exact D.
Qed.

Lemma to_floats_float64 f (xs : list spec_float) :
  to_floats float64 (NdFloat f (Vector xs)) = Vector (map (widen f) xs).
Proof.
  destruct f; cbn; [reflexivity|]. rewrite map_id. reflexivity.
Qed.

Lemma elements_to_ints v w (x : array Z) :
  elements (to_ints invalid_cast w (NdInt v x))
  = map (fun z => if int_dtype_eqb v w then z else wrap w z) (elements x).
Proof.
  cbn [to_ints]. destruct (int_dtype_eqb v w).
  - rewrite map_id. reflexivity.
  - apply elements_amap.
Qed.

Lemma ashape_to_ints v w (x : array Z) :
  ashape (to_ints invalid_cast w (NdInt v x)) = ashape x.
Proof.
  cbn [to_ints]. destruct (int_dtype_eqb v w);
    [reflexivity | apply ashape_amap].
Qed.

Lemma Forall2_combine_maps {A B K C D} (P : B * K -> D -> Prop)
    (Q : A -> Prop) (R : K -> Prop)
    (g1 : A -> B) (g2 : A -> C) (g3 : K -> C) (h : C -> C -> D)
    (xs : list A) (ks : list K) :
  Forall Q xs -> Forall R ks ->
  (forall x k, Q x -> R k -> P (g1 x, k) (h (g2 x) (g3 k))) ->
  Forall2 P (combine (map g1 xs) ks)
    (map (fun p => h (fst p) (snd p)) (combine (map g2 xs) (map g3 ks))).
Proof.
  intros F. revert ks. induction F as [|x xs Hx F IH]; intros ks G H.
  - constructor.
  - destruct G as [|k ks Hk G]; simpl; constructor; auto.
Qed.

Lemma operand_dtype_float_0 f :
  operand_dtype (DFloat f) (OInt 0) = DFloat f.
Proof. destruct f; reflexivity. Qed.

(** The dtype in which a float array is clipped between two Python
    integers: its own, where the upper bound is exact in it, or
    float64. *)
Lemma clip_dtype_float f (a : array spec_float) (hi : Z) :
  (clip_dtype (NdFloat f a) (OInt 0) (OInt hi) = DFloat f /\
   (0 <= hi < 2 ^ 53 -> 0 <= hi < 2 ^ prec (fmt f))) \/
  clip_dtype (NdFloat f a) (OInt 0) (OInt hi) = DFloat float64.
Proof.
  unfold clip_dtype, is_rank0.
  destruct a as [x|xs]; cbn [shape_of ashape andb is_scalar_operand].
  - right. destruct f; reflexivity.
  - cbn [dtype_of]. rewrite operand_dtype_float_0.
    destruct f; cbn [operand_dtype].
    + destruct ((- 32768 <=? hi) && (hi <=? 65535)) eqn:E; [|auto].
      left. split; [reflexivity|]. intros H.
      apply andb_true_iff in E. destruct E as [_ E].
      apply Z.leb_le in E.
      change (2 ^ prec (fmt float32)) with 16777216. lia.
    + left. split; [reflexivity|]. intros H. exact H.
Qed.

(** [np.clip(action.round(), 0, hi).astype(w)] *)
Lemma clip_round_cast_scalar (w : int_dtype) (hi : Z) (action : ndarray) :
  exists r,
    (a <- Numpy.clip invalid_cast (round action) (OInt 0) (OInt hi) ;;
     Ok (astype invalid_cast (DInt w) a)) = Ok (NdInt w r) /\
    ashape r = shape_of action /\
    (valid_array action ->
     0 <= hi < exact_limit action -> in_range w hi = true ->
     rounded_clamped invalid_cast w hi action r).
Proof.
  destruct action as [f a|wa a]; cbn [valid_array exact_limit shape_of].
  - cbn [round]. unfold Numpy.clip.
    destruct (clip_dtype_float f (amap (rint (fmt f)) a) hi)
      as [[-> B]| ->].
    + cbn [to_floats operand_floats].
      rewrite float_dtype_eqb_refl, broadcast3_scalars.
      cbn [rbind astype to_ints]. eexists; split; [reflexivity|]. split.
      * rewrite !ashape_amap. reflexivity.
      * intros V Hhi I. unfold rounded_clamped. cbn [items].
        rewrite !elements_amap, !map_map.
        apply Forall2_map_both with (Q := fun v => valid (fmt f) v = true);
          [exact V|].
        intros x Vx. apply rint_clip_cast_spec; auto.
    + cbn [operand_floats]. rewrite broadcast3_scalars.
      cbn [rbind astype to_ints]. eexists; split; [reflexivity|]. split.
      * rewrite !ashape_amap, ashape_to_floats. cbn [shape_of].
        apply ashape_amap.
      * intros V Hhi I. unfold rounded_clamped. cbn [items].
        rewrite !elements_amap, elements_to_floats_float64, elements_amap,
          !map_map.
        apply Forall2_map_both with (Q := fun v => valid (fmt f) v = true);
          [exact V|].
        intros x Vx. apply rint_widen_clip_cast_spec; assumption.
  - cbn [round]. unfold Numpy.clip.
    assert (D : clip_dtype (NdInt wa a) (OInt 0) (OInt hi) = DInt wa \/
                clip_dtype (NdInt wa a) (OInt 0) (OInt hi) = DInt int64).
    { unfold clip_dtype, is_rank0.
      destruct a as [z|zs]; cbn [shape_of ashape andb is_scalar_operand].
      - right. destruct wa; reflexivity.
      - cbn [dtype_of operand_dtype]. rewrite in_range_0.
        cbn [operand_dtype]. destruct (in_range wa hi); auto. }
    assert (S : forall v1 : int_dtype,
               (v1 = wa \/ v1 = int64) ->
               exists r,
                 (a0 <- (r0 <- broadcast3 clipZ
                                (to_ints invalid_cast v1 (NdInt wa a))
                                (operand_ints invalid_cast v1 (OInt 0))
                                (operand_ints invalid_cast v1 (OInt hi)) ;;
                         Ok (NdInt v1 r0)) ;;
                  Ok (astype invalid_cast (DInt w) a0)) = Ok (NdInt w r) /\
                 ashape r = ashape a /\
                 (Forall (fun z => in_range wa z = true) (elements a) ->
                  0 <= hi < 2 ^ 63 -> in_range w hi = true ->
                  rounded_clamped invalid_cast w hi (NdInt wa a) r)).
    { intros v1 Hv. cbn [operand_ints]. rewrite broadcast3_scalars.
      cbn [rbind astype]. eexists; split; [reflexivity|]. split.
      - rewrite ashape_to_ints, ashape_amap, ashape_to_ints. reflexivity.
      - intros V Hhi I. unfold rounded_clamped. cbn [items].
        rewrite elements_to_ints, elements_amap, elements_to_ints.
        rewrite !map_map.
        apply Forall2_map_both with (Q := fun z => in_range wa z = true);
          [exact V|].
        intros z Hz. cbn [round_clamp_cast item_is_nan].
        assert (E1 : (if int_dtype_eqb wa v1 then z else wrap v1 z) = z).
        { destruct Hv as [->| ->].
          - rewrite int_dtype_eqb_refl. reflexivity.
          - destruct (int_dtype_eqb wa int64); [reflexivity|].
            apply wrap_in_range. apply (in_range_int64 wa). exact Hz. }
        rewrite E1. unfold clipZ.
        assert (E2 : in_range w (Z.min (Z.max z 0) hi) = true).
        { apply (in_range_between w 0 hi); auto using in_range_0. lia. }
        rewrite (wrap_in_range w _ E2).
        destruct (int_dtype_eqb v1 w); split; auto; lia. }
    destruct D as [-> | ->]; apply S; auto.
Qed.

(** [np.clip(action.round(), 0, nvec - 1).astype(int64)] on an action
    with one element for every dimension. *)
Lemma clip_round_cast_nvec (nvec : list Z) (action : ndarray) :
  shape_of action = Rank1 (length nvec) ->
  exists r,
    (a <- Numpy.clip invalid_cast (round action) (OInt 0)
            (OArr (nvec_minus_1 nvec)) ;;
     Ok (astype invalid_cast MultiDiscrete_dtype a)) = Ok (NdInt int64 r) /\
    ashape r = shape_of action /\
    (valid_array action ->
     Forall (fun k => 1 <= k <= exact_limit action) nvec ->
     rounded_clamped_each invalid_cast int64 nvec action r).
Proof.
  intros Sh.
  destruct action as [f [x|xs]|wa [z|zs]]; cbn [shape_of ashape] in Sh;
    try discriminate; injection Sh as L;
    cbn [valid_array exact_limit elements shape_of].
  - cbn [round amap]. unfold Numpy.clip, nvec_minus_1, clip_dtype, is_rank0.
    cbn [shape_of ashape andb dtype_of]. rewrite operand_dtype_float_0.
    cbn [dtype_of operand_dtype].
    assert (P : promote (DFloat f) (DInt int64) = DFloat float64)
      by (destruct f; reflexivity).
    rewrite P. rewrite to_floats_float64.
    cbn [operand_floats to_floats amap].
    rewrite broadcast3_scalar_vector by (rewrite !length_map; lia).
    cbn [rbind astype MultiDiscrete_dtype to_ints amap].
    eexists; split; [reflexivity|]. split.
    + cbn [ashape]. rewrite !length_map, length_combine, !length_map.
      f_equal. lia.
    + intros V K. unfold rounded_clamped_each.
      cbn [items elements]. rewrite !map_map.
      apply Forall2_combine_maps
        with (Q := fun v => valid (fmt f) v = true)
             (R := fun k => 1 <= k <= 2 ^ 53)
             (g2 := fun x => widen f (rint (fmt f) x))
             (g3 := fun k => of_Z (fmt float64) (k - 1))
             (h := fun y hi => float_to_int invalid_cast int64
                                 (Float.clip y (of_Z (fmt float64) 0) hi));
        [exact V | exact K |].
      intros x k Vx Hk. cbn [fst snd].
      apply rint_widen_clip_cast_spec; [exact Vx | lia |].
      apply andb_true_iff; split; apply Z.leb_le; cbn [int_min int_max].
      * lia.
      * assert (2 ^ 53 <= 2 ^ 63) by (apply Z.pow_le_mono_r; lia). lia.
  - cbn [round]. unfold Numpy.clip, nvec_minus_1, clip_dtype, is_rank0.
    cbn [shape_of ashape andb].
    cbn [dtype_of operand_dtype]. rewrite in_range_0.
    assert (P : promote (DInt wa) (DInt int64) = DInt int64)
      by (destruct wa; reflexivity).
    cbn [dtype_of]. rewrite P.
    cbn [operand_ints]. cbn [to_ints int_dtype_eqb].
    set (zs' := if int_dtype_eqb wa int64 then zs else map (wrap int64) zs).
    assert (Ez : (if int_dtype_eqb wa int64 then Vector zs
                  else amap (wrap int64) (Vector zs)) = Vector zs')
      by (unfold zs'; destruct (int_dtype_eqb wa int64); reflexivity).
    assert (Lz : length zs' = length zs)
      by (unfold zs'; destruct (int_dtype_eqb wa int64);
          rewrite ?length_map; reflexivity).
    rewrite Ez.
    rewrite broadcast3_scalar_vector by (rewrite !length_map; lia).
    cbn [rbind astype MultiDiscrete_dtype to_ints int_dtype_eqb].
    eexists; split; [reflexivity|]. split.
    + cbn [ashape].
      rewrite !length_map, length_combine, !length_map. f_equal. lia.
    + intros V K. unfold rounded_clamped_each. cbn [items elements].
      assert (E : zs' = zs).
      { unfold zs'. destruct (int_dtype_eqb wa int64); [reflexivity|].
        apply map_id_Forall with (P := fun z => in_range wa z = true);
          [|exact V].
        intros z Hz. apply wrap_in_range, (in_range_int64 wa), Hz. }
      rewrite E.
      rewrite <- (map_id zs) at 2.
      apply Forall2_combine_maps
        with (Q := fun z => in_range wa z = true)
             (R := fun k => 1 <= k <= 2 ^ 63)
             (g2 := fun z : Z => z)
             (g3 := fun k => k - 1)
             (h := fun y hi => clipZ y 0 hi);
        [exact V | exact K |].
      intros z k Vz Hk. cbn [fst snd round_clamp_cast item_is_nan].
      unfold clipZ. split; [reflexivity | lia].
Qed.

End Elements.
End ReformatFacts.

(** ** Clipping and the shapes of actions *)

Module StepFacts.
Import Numpy Gym Float FloatFacts NumpyFacts Spec ReformatFacts.

Lemma SFcompare_refl (x : spec_float) :
  is_nan x = false -> SFcompare x x = Some Eq.
Proof.
  destruct x as [s|s| |s m e]; cbn; try discriminate; intros _.
  - reflexivity.
  - destruct s; reflexivity.
  - destruct s; rewrite Z.compare_refl, Pos.compare_cont_refl; reflexivity.
Qed.

Lemma leb_refl (x : spec_float) : is_nan x = false -> leb x x = true.
Proof. intros H. unfold leb, SFleb. rewrite SFcompare_refl by exact H. reflexivity. Qed.

Lemma ltb_leb (x y : spec_float) : ltb x y = true -> leb x y = true.
Proof. unfold ltb, leb, SFltb, SFleb. destruct (SFcompare x y) as [[| |]|]; auto. Qed.

Lemma leb_not_nan (x y : spec_float) :
  leb x y = true -> is_nan x = false /\ is_nan y = false.
Proof.
  unfold leb, SFleb. destruct x, y; cbn; try discriminate; auto.
Qed.

(** [Float.clip] clips. *)
Lemma clip_clipped_into (lo hi x : spec_float) :
  clipped_into lo hi x (Float.clip x lo hi).
Proof.
  split; [reflexivity|]. unfold Float.clip, maximum, minimum, gtb. split.
  - intros Nx Hle. rewrite Nx. cbn [orb].
    destruct (leb_not_nan lo hi Hle) as [Nlo Nhi].
    destruct (SFltb lo x) eqn:C1.
    + rewrite Nx. cbn [orb]. destruct (ltb x hi) eqn:C2.
      * split; apply ltb_leb; assumption.
      * split; [assumption | apply leb_refl; assumption].
    + rewrite Nlo. cbn [orb]. destruct (ltb lo hi) eqn:C2.
      * split; [apply leb_refl; assumption | assumption].
      * split; [assumption | apply leb_refl; assumption].
  - intros H1 H2. unfold ltb in H1. rewrite H1, orb_true_r, H2, orb_true_r.
    reflexivity.
Qed.

Lemma zip3_clipped_each (lo hi xs : list spec_float) :
  length lo = length xs -> length hi = length xs ->
  clipped_each lo hi xs (zip3 Float.clip xs lo hi).
Proof.
  revert lo hi. induction xs as [|x xs IH]; intros [|l lo] [|h hi] L1 L2;
    try discriminate.
  - split; [reflexivity|]. intros [|i]; discriminate.
  - cbn in L1, L2. destruct (IH lo hi) as [IL IE]; try lia.
    split; [cbn; lia|]. intros [|i] x' l' h'; cbn.
    + intros [= <-] [= <-] [= <-]. eexists; split; [reflexivity|].
      apply clip_clipped_into.
    + apply IE.
Qed.

Lemma shape_rank1 (a : ndarray) (n : nat) :
  shape_of a = Rank1 n ->
  match a with
  | NdFloat f x => exists xs, x = Vector xs /\ length xs = n
  | NdInt w x => exists xs, x = Vector xs /\ length xs = n
  end.
Proof.
  destruct a as [f [x|xs]|w [x|xs]]; cbn; try discriminate;
    intros [= <-]; eauto.
Qed.

End StepFacts.

(** ** What the array operations can raise *)

Module ErrorFacts.
Import Numpy Gym.

Lemma broadcast_shapes_raises s t e :
  broadcast_shapes s t = Raise e -> e = ValueError.
Proof.
  destruct s as [|n], t as [|k]; cbn; try discriminate.
  destruct (Nat.eqb n k); [discriminate|].
  destruct (Nat.eqb n 1); [discriminate|].
  destruct (Nat.eqb k 1); [discriminate|]. congruence.
Qed.

Lemma broadcast3_raises {A B} (g : A -> A -> A -> B) a b c e :
  broadcast3 g a b c = Raise e -> e = ValueError.
Proof.
  unfold broadcast3.
  destruct (broadcast_shapes (ashape a) (ashape b)) as [s1|e1] eqn:E1; cbn [rbind].
  - destruct (broadcast_shapes s1 (ashape c)) as [s|e2] eqn:E2; cbn [rbind].
    + discriminate.
    + intros [= <-]. eapply broadcast_shapes_raises; eassumption.
  - intros [= <-]. eapply broadcast_shapes_raises; eassumption.
Qed.

(** [np.clip] fails only when the shapes do not broadcast. *)
Lemma clip_raises ic a lo hi e :
  Numpy.clip ic a lo hi = Raise e -> e = ValueError.
Proof.
  unfold Numpy.clip.
  destruct (clip_dtype _ _ hi) as [f|w].
  - destruct (broadcast3 _ _ _ _) as [r|e'] eqn:E; cbn [rbind];
      [discriminate|]. intros [= <-]. eapply broadcast3_raises; eassumption.
  - destruct (broadcast3 _ _ _ _) as [r|e'] eqn:E; cbn [rbind];
      [discriminate|]. intros [= <-]. eapply broadcast3_raises; eassumption.
Qed.

Lemma clip_then_raises {B} ic a lo hi (k : ndarray -> B) e :
  (x <- Numpy.clip ic a lo hi ;; Ok (k x)) = Raise e -> e = ValueError.
Proof.
  destruct (Numpy.clip ic a lo hi) as [r|e'] eqn:E; cbn [rbind];
    [discriminate|]. intros [= <-]. eapply clip_raises; eassumption.
Qed.

End ErrorFacts.

(** ** Tensors *)

Module TorchFacts.
Import Torch Float Spec StepFacts.

Lemma expand_same {A} (xs : list A) : expand xs (length xs) = xs.
Proof. destruct xs as [|x [|y xs]]; reflexivity. Qed.

Lemma broadcast_size_same (n : nat) : broadcast_size n n = Ok n.
Proof. unfold broadcast_size. rewrite Nat.eqb_refl. reflexivity. Qed.

Lemma binop_same_length {A B C} (g : A -> B -> C) (xs : list A) (ys : list B) :
  length xs = length ys -> binop g xs ys = Ok (map2 g xs ys).
Proof.
  intros L. unfold binop. rewrite <- L, broadcast_size_same. cbn [rbind].
  rewrite expand_same. rewrite L at 1. rewrite expand_same. reflexivity.
Qed.

Lemma length_map2 {A B C} (g : A -> B -> C) (xs : list A) (ys : list B) :
  length (map2 g xs ys) = Nat.min (length xs) (length ys).
Proof. unfold map2. rewrite length_map, length_combine. reflexivity. Qed.

Lemma map2_map_map {A B C D} (g : B -> C -> D) (a : A -> B) (b : A -> C)
    (xs : list A) :
  map2 g (map a xs) (map b xs) = map (fun x => g (a x) (b x)) xs.
Proof. unfold map2. induction xs as [|x xs IH]; cbn; congruence. Qed.

Lemma nth_error_map2 {A B C} (g : A -> B -> C) (xs : list A) (ys : list B)
    (i : nat) (x : A) (y : B) :
  nth_error xs i = Some x -> nth_error ys i = Some y ->
  nth_error (map2 g xs ys) i = Some (g x y).
Proof.
  unfold map2. revert ys i. induction xs as [|x' xs IH]; intros [|y' ys] [|i];
    cbn; try discriminate.
  - intros [= <-] [= <-]. reflexivity.
  - apply IH.
Qed.

Lemma column_ok (t : tensor2 spec_float) (j : nat) :
  (j < ncols t)%nat ->
  column t j = Ok (map (fun r => nth j r S754_nan) (rows t)).
Proof.
  intros H. unfold column. apply Nat.ltb_lt in H. rewrite H. reflexivity.
Qed.

Lemma SFcompare_antisym (a b : spec_float) :
  SFcompare b a = option_map CompOpp (SFcompare a b).
Proof.
  destruct a as [sa|sa| |sa ma ea], b as [sb|sb| |sb mb eb]; cbn;
    try reflexivity;
    try (destruct sa; reflexivity); try (destruct sb; reflexivity);
    try (destruct sa, sb; reflexivity).
  destruct sa, sb; cbn; try reflexivity;
    rewrite (Z.compare_antisym ea eb);
    destruct (ea ?= eb); cbn; try reflexivity;
    change (Pos.compare_cont Eq mb ma) with (Pos.compare mb ma);
    change (Pos.compare_cont Eq ma mb) with (Pos.compare ma mb);
    rewrite (Pos.compare_antisym ma mb), ?CompOpp_involutive; reflexivity.
Qed.

(** Among floats that are not NaN, "not at least" is "less than". *)
Lemma negb_geb (a b : spec_float) :
  is_nan a = false -> is_nan b = false -> negb (geb a b) = ltb a b.
Proof.
  intros Na Nb. unfold geb, ltb, SFleb, SFltb. rewrite (SFcompare_antisym a b).
  destruct (SFcompare a b) as [[| |]|] eqn:E; try reflexivity.
  destruct a, b; try discriminate; cbn in E;
    repeat match type of E with
           | context [if ?s then _ else _] => destruct s
           end; discriminate.
Qed.

Lemma negb_leb (a b : spec_float) :
  is_nan a = false -> is_nan b = false -> negb (leb a b) = gtb a b.
Proof. intros Na Nb. apply (negb_geb b a Nb Na). Qed.

Lemma existsb_negb_forallb {A} (p : A -> bool) (xs : list A) :
  existsb (fun v => negb (p v)) xs = negb (forallb p xs).
Proof.
  induction xs as [|x xs IH]; cbn; [reflexivity|].
  rewrite IH, negb_andb. reflexivity.
Qed.

Lemma forallb_isfinite_nth (row : list spec_float) (j : nat) :
  forallb isfinite row = true -> (j < length row)%nat ->
  is_nan (nth j row S754_nan) = false.
Proof.
  intros F L. rewrite forallb_forall in F.
  assert (I : In (nth j row S754_nan) row) by (apply nth_In; exact L).
  apply F in I. destruct (nth j row S754_nan); cbn in *; congruence.
Qed.

(** The test the ant makes is the negation of [ant_done]. *)
Lemma ant_notdone (row : list spec_float) :
  (2 < length row)%nat ->
  negb (forallb isfinite row
        && geb (nth 2 row S754_nan) (scalar Lit.f_0_2)
        && leb (nth 2 row S754_nan) (scalar Lit.f_1_0))
  = ant_done row.
Proof.
  intros L. unfold ant_done. rewrite existsb_negb_forallb.
  destruct (forallb isfinite row) eqn:F; cbn [negb andb orb]; [|reflexivity].
  pose proof (forallb_isfinite_nth row 2 F L) as N.
  rewrite negb_andb.
  rewrite negb_geb, negb_leb by (exact N || reflexivity).
  reflexivity.
Qed.

End TorchFacts.

(** ** Shapes of random tensors *)

Module ResetFacts.
Import Torch Float Spec StepFacts TorchFacts.

Lemma expand_length {A} (xs : list A) (n : nat) :
  length xs = n -> expand xs n = xs.
Proof. intros <-. apply expand_same. Qed.

Lemma binop_rows_shape {A B C} (g : A -> B -> C) (v : tensor1 A)
    (t : tensor2 B) (n k : nat) :
  length v = k -> has_shape t n k ->
  exists t', binop_rows g v t = Ok t' /\ has_shape t' n k.
Proof.
  intros Lv (Ln & Lk & W). unfold binop_rows.
  rewrite Lv, Lk, broadcast_size_same. cbn [rbind].
  eexists; split; [reflexivity|]. unfold has_shape, len, well_shaped in *.
  cbn [rows ncols]. rewrite length_map. repeat split; [exact Ln|].
  rewrite Forall_map. rewrite Lk in W. revert W. apply Forall_impl.
  intros r Lr. rewrite length_map2, !expand_length by assumption.
  rewrite Lv, Lr. apply Nat.min_id.
Qed.

Lemma map_tensor2_shape {A B} (g : A -> B) (t : tensor2 A) (n k : nat) :
  has_shape t n k -> has_shape (map_tensor2 g t) n k.
Proof.
  intros (Ln & Lk & W). unfold has_shape, len, well_shaped, map_tensor2 in *.
  cbn [rows ncols]. rewrite length_map. repeat split; try assumption.
  rewrite Forall_map. revert W. apply Forall_impl.
  intros r Lr. rewrite length_map. exact Lr.
Qed.

Lemma map2_app_lengths {A} (xs ys : list (list A)) (j k : nat) :
  Forall (fun r => length r = j) xs -> Forall (fun r => length r = k) ys ->
  Forall (fun r => length r = (j + k)%nat) (map2 (@app A) xs ys).
Proof.
  unfold map2. intros F. revert ys.
  induction F as [|x xs Hx F IH]; intros ys G; [constructor|].
  destruct G as [|y ys Hy G]; cbn; constructor; auto.
  cbn. rewrite length_app. lia.
Qed.

Lemma cat_cols_shape {A} (a b : tensor2 A) (n j k : nat) :
  has_shape a n j -> has_shape b n k ->
  exists t, cat_cols a b = Ok t /\ has_shape t n (j + k).
Proof.
  intros (La & Ca & Wa) (Lb & Cb & Wb). unfold cat_cols.
  rewrite La, Lb, Nat.eqb_refl.
  eexists; split; [reflexivity|]. unfold has_shape, len, well_shaped in *.
  cbn [rows ncols]. rewrite length_map2, La, Lb, Nat.min_id.
  repeat split; [congruence|]. rewrite Ca, Cb.
  apply map2_app_lengths; [rewrite <- Ca | rewrite <- Cb]; assumption.
Qed.

Section Random.

Variable rng : Type.

Lemma draws_length (draw : rng -> spec_float * rng) (k : nat) (g : rng) :
  length (fst (draws rng draw k g)) = k.
Proof.
  revert g. induction k as [|k IH]; intros g; cbn; [reflexivity|].
  destruct (draw g) as [x g1]. specialize (IH g1).
  destruct (draws rng draw k g1) as [xs g2]. cbn in *. congruence.
Qed.

Lemma draw_rows_shape (draw : rng -> spec_float * rng) (n k : nat) (g : rng) :
  length (fst (draw_rows rng draw n k g)) = n /\
  Forall (fun r => length r = k) (fst (draw_rows rng draw n k g)).
Proof.
  revert g. induction n as [|n IH]; intros g; cbn; [split; constructor|].
  pose proof (draws_length draw k g) as D.
  destruct (draws rng draw k g) as [r g1]. specialize (IH g1).
  destruct (draw_rows rng draw n k g1) as [rs g2]. cbn in *.
  destruct IH as [IL IF]. split; [congruence | constructor; assumption].
Qed.

(** Drawing a random tensor gives the shape asked for and touches only
    the generator. *)
Lemma with_generator_random_tensor {env : Type}
    (draw : rng -> spec_float * rng) (n : Z) (k : nat) (w : world env rng) :
  0 <= n ->
  exists t g',
    with_generator (random_tensor rng draw n k) w = (Ok t, World (self w) g') /\
    has_shape t (Z.to_nat n) k.
Proof.
  intros Hn. unfold with_generator, random_tensor.
  assert (E : (n <? 0) = false) by (apply Z.ltb_ge; exact Hn). rewrite E.
  pose proof (draw_rows_shape draw (Z.to_nat n) k (generator w)) as [L F].
  destruct (draw_rows rng draw (Z.to_nat n) k (generator w)) as [rs g'].
  exists (Tensor2 k rs), g'. split; [reflexivity|].
  repeat split; assumption.
Qed.

End Random.
End ResetFacts.

(** * Properties of the task layer *)

Module Properties.
Import Numpy Gym Torch Float Spec.
Import FloatFacts NumpyFacts ReformatFacts StepFacts ErrorFacts TorchFacts
  ResetFacts.

(** ** The action normalizer *)

Section ReformatAction.

Variable invalid_cast : int_dtype -> spec_float -> Z.
Variable env : Type.
Variable action_space : env -> option space.

Let reformat_action := Task.reformat_action invalid_cast env action_space.

(** C1. For every action, [reformat_action] returns, by the kind of the
    declared action space: for a Box, the action cast to the space's
    dtype and nothing else (the bounds play no part; an action already
    of that dtype comes back as it is, and a float action cast to
    float64 keeps every value); for a Discrete space of cardinality
    [n], an int64 array of the same shape holding every element rounded
    to the nearest integer, clamped into [[0, n - 1]] and cast; for a
    MultiBinary space, the same with the bounds [[0, 1]] and the dtype
    int8; for a MultiDiscrete space and an action with one element for
    every dimension, the same with dimension [i] clamped into
    [[0, nvec_i - 1]], each on its own; and for the undefined space the
    action itself. The values of the elements are stated for an action
    whose elements are numbers of its dtype and for cardinalities up to
    [exact_limit], where the bounds are exact in the arithmetic of the
    clip. A NaN element has no nearest integer: it goes through rounding
    and clamping as NaN, and its cast is the platform's
    [invalid_cast]. *)
Theorem reformat_action_spec (self : env) (action : ndarray) :
  match action_space self with
  | Some (Box low high dtype) =>
      reformat_action self action = Ok (astype invalid_cast dtype action) /\
      dtype_of (astype invalid_cast dtype action) = dtype /\
      shape_of (astype invalid_cast dtype action) = shape_of action /\
      (dtype_of action = dtype -> astype invalid_cast dtype action = action) /\
      (forall f a,
          action = NdFloat f a -> dtype = DFloat float64 ->
          valid_array action ->
          exists ys,
            astype invalid_cast dtype action = NdFloat float64 ys /\
            Forall2 same_value (elements a) (elements ys))
  | Some (Discrete n) =>
      exists r,
        reformat_action self action = Ok (NdInt int64 r) /\
        ashape r = shape_of action /\
        (valid_array action -> 1 <= n <= exact_limit action ->
         rounded_clamped invalid_cast int64 (n - 1) action r)
  | Some (MultiBinary _) =>
      exists r,
        reformat_action self action = Ok (NdInt int8 r) /\
        ashape r = shape_of action /\
        (valid_array action ->
         rounded_clamped invalid_cast int8 1 action r)
  | Some (MultiDiscrete nvec) =>
      shape_of action = Rank1 (length nvec) ->
      exists r,
        reformat_action self action = Ok (NdInt int64 r) /\
        ashape r = shape_of action /\
        (valid_array action ->
         Forall (fun k => 1 <= k <= exact_limit action) nvec ->
         rounded_clamped_each invalid_cast int64 nvec action r)
  | None => reformat_action self action = Ok action
  | Some (Tuple _ | Dict _) => True
  end.
Proof.
  unfold reformat_action, Task.reformat_action.
  destruct (action_space self) as [[low high dt|n|n|nvec|l|l]|];
    try exact I; try reflexivity.
  - repeat split.
    + apply dtype_of_astype.
    + apply shape_of_astype.
    + intros <-. apply astype_same.
    + intros f a -> -> V. cbn [astype]. eexists; split; [reflexivity|].
      rewrite elements_to_floats_float64.
      apply map_widen_same_value. exact V.
  - destruct (clip_round_cast_scalar invalid_cast int64 (n - 1) action)
      as (r & E & S & R).
    exists r. split; [exact E|]. split; [exact S|].
    intros V Hn. apply R; [exact V | lia |].
    apply andb_true_iff; split; apply Z.leb_le; cbn [int_min int_max].
    + lia.
    + assert (exact_limit action <= 2 ^ 63).
      { destruct action as [f a|w a]; cbn [exact_limit]; [|lia].
        apply Z.pow_le_mono_r; destruct f; cbn; lia. }
      lia.
  - destruct (clip_round_cast_scalar invalid_cast int8 1 action)
      as (r & E & S & R).
    exists r. split; [exact E|]. split; [exact S|].
    intros V. apply R; [exact V | | reflexivity].
    split; [lia|]. destruct action as [[|] a|w a]; reflexivity.
  - intros Sh.
    destruct (clip_round_cast_nvec invalid_cast nvec action Sh)
      as (r & E & S & R).
    exists r. split; [exact E|]. split; [exact S|]. exact R.
Qed.

End ReformatAction.

(** ** Stepping and resetting *)

Section Step.

Variable invalid_cast : int_dtype -> spec_float -> Z.
Variables env info : Type.
Variable action_space : env -> option space.
Variable native_step : ndarray -> prog env (ndarray * pynum * bool * info).
Variable native_reset : prog env ndarray.

Let reformat_action := Task.reformat_action invalid_cast env action_space.
Let Task_step := Task.step invalid_cast env info action_space native_step.
Let Task_reset := Task.reset invalid_cast env native_reset.
Let MujocoTask_step :=
  MujocoTask.step invalid_cast env info action_space native_step.

Lemma Task_step_unfold (self : env) (action : ndarray) :
  Task_step action self
  = match reformat_action self action with
    | Ok a => delegate invalid_cast native_step a self
    | Raise e => (Raise e, self)
    end.
Proof.
  unfold Task_step, Task.step, reformat_action, bind, lift, ret, delegate.
  destruct (Task.reformat_action _ _ _ self action) as [a|e]; [|reflexivity].
  destruct (native_step a self) as [[[[[ns r] d] i]|e] self']; reflexivity.
Qed.

Lemma delegate_float32_idem (a : ndarray) (self : env) :
  (let (r, self') := delegate invalid_cast native_step a self in
   (x <- r ;; (let '(ns, rw, d, i) := x in
               Ok (np_float32 invalid_cast ns, rw, d, i)), self'))
  = delegate invalid_cast native_step a self.
Proof.
  unfold delegate.
  destruct (native_step a self) as [[[[[ns r] d] i]|e] self']; cbn [rbind];
    [rewrite np_float32_idem|]; reflexivity.
Qed.

(** C2. [Task.step] first normalizes the action with
    [reformat_action] (whose error it passes on, the simulator
    untouched), then delegates to the native step and returns the next
    state cast to float32, with reward, done and info as the simulator
    gave them; [Task.reset] returns the state of the native reset cast to
    float32. [MujocoTask.step], on a task that declares a Box of a float
    dtype with bounds of that dtype, and an action of the shape of the
    bounds, normalizes the action, clips every element into the bounds
    of its dimension (an element that is not NaN then lies between
    ordered bounds, one strictly inside them is kept), and delegates
    the clipped action in the same way: the second normalization and
    the second cast, made by [Task.step] underneath, change nothing.
    With no action space declared it delegates the action as it is.
    Whatever state a delegated step returns is float32. *)
Theorem step_spec :
  (forall self action,
      Task_step action self
      = match reformat_action self action with
        | Ok a => delegate invalid_cast native_step a self
        | Raise e => (Raise e, self)
        end) /\
  (forall self,
      Task_reset self
      = match native_reset self with
        | (Ok state, self') => (Ok (np_float32 invalid_cast state), self')
        | (Raise e, self') => (Raise e, self')
        end) /\
  (forall self action f lo hi,
      action_space self
      = Some (Box (NdFloat f (Vector lo)) (NdFloat f (Vector hi)) (DFloat f)) ->
      shape_of action = Rank1 (length lo) -> length hi = length lo ->
      exists xs rs,
        reformat_action self action = Ok (NdFloat f (Vector xs)) /\
        clipped_each lo hi xs rs /\
        MujocoTask_step action self
        = delegate invalid_cast native_step (NdFloat f (Vector rs)) self) /\
  (forall self action,
      action_space self = None ->
      MujocoTask_step action self
      = delegate invalid_cast native_step action self) /\
  (forall self action next_state reward done i self',
      delegate invalid_cast native_step action self
      = (Ok (next_state, reward, done, i), self') ->
      dtype_of next_state = DFloat float32).
Proof.
  split; [exact Task_step_unfold|]. split; [|split; [|split]].
  - intros self. unfold Task_reset, Task.reset, bind, ret.
    destruct (native_reset self) as [[st|e] self']; reflexivity.
  - intros self action f lo hi E Sh L.
    assert (R : reformat_action self action
                = Ok (astype invalid_cast (DFloat f) action)).
    { unfold reformat_action, Task.reformat_action. rewrite E. reflexivity. }
    assert (Sx : shape_of (astype invalid_cast (DFloat f) action)
                 = Rank1 (length lo))
      by (rewrite shape_of_astype; exact Sh).
    cbn [astype] in Sx, R.
    destruct (shape_rank1 _ _ Sx) as (xs & Ex & Lx).
    rewrite Ex in R.
    exists xs, (zip3 Float.clip xs lo hi). split; [exact R|].
    split; [apply zip3_clipped_each; lia|].
    unfold MujocoTask_step, MujocoTask.step.
    fold reformat_action. unfold bind at 1, lift at 1. rewrite R.
    unfold bind at 1, lift at 1. rewrite E.
    cbn [MujocoTask.low MujocoTask.high rbind].
    assert (C : Numpy.clip invalid_cast (NdFloat f (Vector xs))
                  (OArr (NdFloat f (Vector lo))) (OArr (NdFloat f (Vector hi)))
                = Ok (NdFloat f (Vector (zip3 Float.clip xs lo hi)))).
    { unfold Numpy.clip, clip_dtype, is_rank0.
      cbn [shape_of ashape andb dtype_of operand_dtype].
      assert (P : promote (promote (DFloat f) (DFloat f)) (DFloat f) = DFloat f)
        by (destruct f; reflexivity).
      rewrite P. cbn [to_floats operand_floats].
      rewrite float_dtype_eqb_refl.
      rewrite broadcast3_vectors by lia. reflexivity. }
    rewrite C. unfold bind, ret.
    fold Task_step. rewrite Task_step_unfold.
    assert (R2 : reformat_action self
                   (NdFloat f (Vector (zip3 Float.clip xs lo hi)))
                 = Ok (NdFloat f (Vector (zip3 Float.clip xs lo hi)))).
    { unfold reformat_action, Task.reformat_action. rewrite E.
      f_equal. apply (astype_same invalid_cast (NdFloat f _)). }
    rewrite R2.
    rewrite <- (delegate_float32_idem (NdFloat f (Vector (zip3 Float.clip xs lo hi))) self) at 2.
    destruct (delegate invalid_cast native_step _ self) as [[[[[ns r] d] i]|e] self'];
      reflexivity.
  - intros self action E.
    unfold MujocoTask_step, MujocoTask.step.
    fold reformat_action.
    assert (R : reformat_action self action = Ok action)
      by (unfold reformat_action, Task.reformat_action; rewrite E; reflexivity).
    unfold bind at 1, lift at 1. rewrite R.
    unfold bind at 1, lift at 1. rewrite E.
    unfold bind, ret. fold Task_step. rewrite Task_step_unfold, R.
    rewrite <- (delegate_float32_idem action self) at 2.
    destruct (delegate invalid_cast native_step _ self) as [[[[[ns r] d] i]|e] self'];
      reflexivity.
  - intros self action ns r d i self'. unfold delegate.
    destruct (native_step action self) as [[[[[ns0 r0] d0] i0]|e] s0];
      [|discriminate].
    intros [= <- _ _ _ _]. reflexivity.
Qed.

End Step.

(** ** Errors and the cart-pole step *)

Section Errors.

Variable invalid_cast : int_dtype -> spec_float -> Z.
Variables env info : Type.
Variable action_space : env -> option space.
Variable native_step : ndarray -> prog env (ndarray * pynum * bool * info).

Let reformat_action := Task.reformat_action invalid_cast env action_space.
Let Task_step := Task.step invalid_cast env info action_space native_step.
Let MujocoTask_step :=
  MujocoTask.step invalid_cast env info action_space native_step.
Let CartPoleTask_step :=
  CartPoleTask.step invalid_cast env info action_space native_step.

(** What [reformat_action] can raise. *)
Lemma reformat_action_raises (self : env) (action : ndarray) (e : exn) :
  reformat_action self action = Raise e ->
  (e = NotImplementedError /\ supported (action_space self) = false) \/
  (e = ValueError /\ supported (action_space self) = true).
Proof.
  unfold reformat_action, Task.reformat_action.
  destruct (action_space self) as [[low high dt|n|n|nvec|l|l]|];
    cbn [supported]; try discriminate;
    try (intros H; apply clip_then_raises in H; auto);
    intros [= <-]; auto.
Qed.

(** C8. [reformat_action] raises [NotImplementedError] (the
    specification's [UnsupportedActionSpace]) exactly when the declared
    action space is of none of the kinds Box, Discrete, MultiBinary,
    MultiDiscrete and undefined, and then for every action; it raises
    that error in no other case. Nothing catches it: [Task.step] and
    [MujocoTask.step], and [CartPoleTask.step] on an action of one
    element, end with the same error and leave the task as it was. *)
Theorem unsupported_action_space :
  (forall self action,
      reformat_action self action = Raise NotImplementedError
      <-> supported (action_space self) = false) /\
  (forall self action,
      supported (action_space self) = false ->
      Task_step action self = (Raise NotImplementedError, self) /\
      MujocoTask_step action self = (Raise NotImplementedError, self) /\
      (shape_of action = Rank1 1 ->
       CartPoleTask_step action self = (Raise NotImplementedError, self))).
Proof.
  assert (U : forall self action,
             supported (action_space self) = false ->
             reformat_action self action = Raise NotImplementedError).
  { intros self action. unfold reformat_action, Task.reformat_action.
    destruct (action_space self) as [[low high dt|n|n|nvec|l|l]|];
      cbn [supported]; try discriminate; reflexivity. }
  split.
  - intros self action. split; [|apply U].
    intros H. apply reformat_action_raises in H.
    destruct H as [[_ H]|[H _]]; [exact H | discriminate].
  - intros self action S. repeat split.
    + unfold Task_step, Task.step. fold reformat_action.
      unfold bind at 1, lift at 1. rewrite (U self action S). reflexivity.
    + unfold MujocoTask_step, MujocoTask.step. fold reformat_action.
      unfold bind at 1, lift at 1. rewrite (U self action S). reflexivity.
    + intros Sh. unfold CartPoleTask_step, CartPoleTask.step.
      fold reformat_action.
      destruct action as [f [x|[|x [|y xs]]]|w [x|[|x [|y xs]]]];
        try discriminate;
        cbn [CartPoleTask.unpack map]; unfold bind at 1, lift at 1;
        unfold bind at 1, lift at 1; rewrite (U self _ S); reflexivity.
Qed.

(** C9. When [CartPoleTask.step] reaches the native step and the native
    step reports [done], the reward [CartPoleTask.step] returns is the
    integer 0; when it does not report [done], the reward is the native
    one. [Task.step], on the same normalized action, returns the native
    reward in both cases. *)
Theorem CartPoleTask_step_reward (self self' : env)
    (action a a1 a2 next_state : ndarray) (reward : pynum) (done : bool)
    (i : info) :
  CartPoleTask.unpack action = Ok [a] ->
  reformat_action self a = Ok a1 ->
  reformat_action self a1 = Ok a2 ->
  native_step a2 self = (Ok (next_state, reward, done, i), self') ->
  CartPoleTask_step action self
  = (Ok (np_float32 invalid_cast next_state,
         (if done then PyInt 0 else reward), done, i), self') /\
  Task_step a1 self
  = (Ok (np_float32 invalid_cast next_state, reward, done, i), self').
Proof.
  intros U R1 R2 N.
  assert (T : Task_step a1 self
              = (Ok (np_float32 invalid_cast next_state, reward, done, i), self')).
  { unfold Task_step, Task.step. fold reformat_action.
    unfold bind at 1, lift at 1. rewrite R2.
    unfold bind, ret. rewrite N. reflexivity. }
  split; [|exact T].
  unfold CartPoleTask_step, CartPoleTask.step. fold reformat_action.
  unfold bind at 1, lift at 1. rewrite U.
  unfold bind at 1, lift at 1. rewrite R1.
  fold Task_step. unfold bind, ret. rewrite T.
  rewrite np_float32_idem. reflexivity.
Qed.

(** C10. [CartPoleTask.step] unpacks its action into the arguments of
    [reformat_action]: an action of rank 0, which is not iterable, and
    an action whose length is not 1 end in a [TypeError] with the task
    as it was, whatever the simulator; an action of one element is
    normalized as that element, a value of rank 0, not as the sequence.
    [Task.step] normalizes the action whole, and its normalization never
    raises a [TypeError]. *)
Theorem CartPoleTask_step_unpacks :
  (forall self action,
      shape_of action = Rank0 ->
      CartPoleTask_step action self = (Raise TypeError, self)) /\
  (forall self action n,
      shape_of action = Rank1 n -> n <> 1%nat ->
      CartPoleTask_step action self = (Raise TypeError, self)) /\
  (forall self action,
      shape_of action = Rank1 1 ->
      exists a,
        CartPoleTask.unpack action = Ok [a] /\
        shape_of a = Rank0 /\ items a = items action /\
        dtype_of a = dtype_of action /\
        CartPoleTask_step action self
        = (a1 <<- lift (reformat_action self a) ;;
           '(next_state, reward, done, i) <<- Task_step a1 ;;
           ret (np_float32 invalid_cast next_state,
                (if (done : bool) then PyInt 0 else reward), done, i)) self) /\
  (forall self action,
      reformat_action self action <> Raise TypeError /\
      Task_step action self
      = match reformat_action self action with
        | Ok a => delegate invalid_cast native_step a self
        | Raise e => (Raise e, self)
        end).
Proof.
  split; [|split; [|split]].
  - intros self [f [x|xs]|w [x|xs]]; cbn [shape_of ashape]; try discriminate;
      intros _; reflexivity.
  - intros self [f [x|xs]|w [x|xs]] n; cbn [shape_of ashape];
      try discriminate; intros [= <-] Hn;
      destruct xs as [|x [|y xs]]; try (exfalso; apply Hn; reflexivity);
      reflexivity.
  - intros self [f [x|xs]|w [x|xs]]; cbn [shape_of ashape];
      try discriminate; intros [= L];
      destruct xs as [|x [|y xs]]; try discriminate;
      eexists; (split; [reflexivity|]); repeat split.
  - intros self action. split.
    + intros H. apply reformat_action_raises in H.
      destruct H as [[H _]|[H _]]; discriminate.
    + apply (Task_step_unfold invalid_cast env info action_space
               native_step).
Qed.

End Errors.

(** ** Costs *)

Lemma binop_map_map {A B C D} (g : B -> C -> D) (a : A -> B) (b : A -> C)
    (xs : list A) :
  binop g (map a xs) (map b xs) = Ok (map (fun x => g (a x) (b x)) xs).
Proof.
  rewrite binop_same_length by (rewrite !length_map; reflexivity).
  rewrite map2_map_map. reflexivity.
Qed.

Section CartPoleCost.

Variable env : Type.
Variables x_threshold theta_threshold_radians : env -> spec_float.

Let get_cost := CartPoleTask.get_cost env x_threshold theta_threshold_radians.

Lemma CartPoleTask_get_cost_rows (self : env)
    (state action next_state : tensor2 spec_float) :
  (3 <= ncols next_state)%nat ->
  get_cost self state action next_state
  = Ok (map (fun row =>
               Float.sub f32
                 (to_float (cart_pole_failed (x_threshold self)
                              (theta_threshold_radians self) row))
                 (scalar Lit.f_1_0))
          (rows next_state),
        Tensor2 1
          (map (fun row =>
                  [to_float (cart_pole_failed (x_threshold self)
                               (theta_threshold_radians self) row)])
             (rows next_state))).
Proof.
  intros H. unfold get_cost, CartPoleTask.get_cost.
  rewrite !column_ok by lia. cbn [rbind].
  rewrite !map_map. rewrite binop_map_map. cbn [rbind].
  rewrite binop_map_map. cbn [rbind]. rewrite binop_map_map. cbn [rbind].
  unfold unsqueeze1. rewrite !map_map. unfold cart_pole_failed, outside.
  do 2 f_equal.
  - apply map_ext. intros row. rewrite <- !orb_assoc. reflexivity.
  - f_equal. apply map_ext. intros row. rewrite <- !orb_assoc. reflexivity.
Qed.

(** C3. On a batch of N next states of at least three columns, the
    cart-pole [get_cost] returns a cost of length N and a done of shape
    [[N, 1]]; row [i] of done is 1.0 exactly when the position (column
    0) is outside [[-x_threshold, x_threshold]] or the angle (column 2)
    is outside [[-theta_threshold_radians, theta_threshold_radians]],
    that is strictly below the lower or strictly above the upper bound
    in the order of the floats, and 0.0 otherwise; the cost of row [i]
    is its done minus 1.0, which is 0.0 on failure and -1.0 otherwise.
    With [x_threshold = 0.2] the row [[0.3, _, 0.0, _]] gives done 1.0
    and cost 0.0, and (with gym's angle threshold) the row
    [[0, 0, 0, 0]] gives done 0.0 and cost -1.0. *)
Theorem CartPoleTask_get_cost_spec :
  (forall self state action next_state,
      (3 <= ncols next_state)%nat ->
      exists cost done,
        get_cost self state action next_state = Ok (cost, done) /\
        length cost = len next_state /\
        ncols done = 1%nat /\ len done = len next_state /\
        forall i row,
          nth_error (rows next_state) i = Some row ->
          let failed :=
            cart_pole_failed (x_threshold self)
              (theta_threshold_radians self) row in
          nth_error (rows done) i = Some [if failed then one else zero] /\
          nth_error cost i
          = Some (Float.sub f32 (if failed then one else zero)
                    (scalar Lit.f_1_0)) /\
          Float.sub f32 (if failed then one else zero) (scalar Lit.f_1_0)
          = (if failed then zero else Float.neg one)) /\
  (forall self state action v w,
      x_threshold self = Lit.f_0_2 ->
      get_cost self state action
        (Tensor2 4 [[scalar Lit.f_0_3; v; zero; w]])
      = Ok ([zero], Tensor2 1 [[one]])) /\
  (forall self state action,
      x_threshold self = Lit.f_0_2 ->
      theta_threshold_radians self = CartPoleEnv.theta_threshold_radians ->
      get_cost self state action (Tensor2 4 [[zero; zero; zero; zero]])
      = Ok ([Float.neg one], Tensor2 1 [[zero]])).
Proof.
  split; [|split].
  - intros self state action next_state H.
    rewrite CartPoleTask_get_cost_rows by exact H.
    eexists; eexists; split; [reflexivity|].
    unfold len; cbn [rows ncols]. rewrite !length_map.
    repeat split.
    + apply (map_nth_error
               (fun row => [to_float (cart_pole_failed _ _ row)])).
      assumption.
    + apply (map_nth_error
               (fun row => Float.sub f32
                             (to_float (cart_pole_failed _ _ row)) _)).
      assumption.
    + destruct (cart_pole_failed _ _ row); vm_compute; reflexivity.
  - intros self state action v w Hx.
    rewrite CartPoleTask_get_cost_rows by (cbn; lia).
    cbn [rows map]. unfold cart_pole_failed, outside. cbn [nth]. rewrite Hx.
    assert (G : gtb (scalar Lit.f_0_3) (scalar Lit.f_0_2) = true)
      by (vm_compute; reflexivity).
    rewrite G, orb_true_r. cbn [orb to_float].
    assert (S : Float.sub f32 one (scalar Lit.f_1_0) = zero)
      by (vm_compute; reflexivity).
    rewrite S. reflexivity.
  - intros self state action Hx Ht.
    rewrite CartPoleTask_get_cost_rows by (cbn; lia).
    cbn [rows map]. rewrite Hx, Ht. vm_compute. reflexivity.
Qed.

End CartPoleCost.
Lemma nth_error_column (t : tensor2 spec_float) (j i : nat) (row : list spec_float) :
  nth_error (rows t) i = Some row ->
  nth_error (map (fun r => nth j r S754_nan) (rows t)) i
  = Some (nth j row S754_nan).
Proof. intros H. apply (map_nth_error (fun r => nth j r S754_nan)). exact H. Qed.

Section AntCost.

Variable env : Type.
Variable dt : env -> spec_float.
Variable sum : list spec_float -> spec_float.

Let get_cost := AntTask.get_cost env dt sum.

(** C4. On a batch of N transitions (states of at least one column,
    well-shaped next states of at least three), the ant [get_cost]
    returns for every row [i] the cost
    [-((x_after - x_before) / dt - 0.5 * sum of squared actions + 1.0)]
    in float32 arithmetic, with the x positions in column 0 of the state
    and of the next state, and a done of shape [[N, 1]] that is 1.0
    exactly when some component of the next state is not finite or its
    column 2 is below 0.2 or above 1.0; a row with a NaN or an infinite
    component is done. The sum of the squared actions of a row is what
    the reduction of the tensor library makes of them, in whatever
    order it adds: the statement holds for every such reduction. *)
Theorem AntTask_get_cost_spec (self : env)
    (state action next_state : tensor2 spec_float) :
  well_shaped next_state ->
  (1 <= ncols state)%nat -> (3 <= ncols next_state)%nat ->
  len state = len next_state -> len action = len next_state ->
  exists cost done,
    get_cost self state action next_state = Ok (cost, done) /\
    length cost = len next_state /\
    ncols done = 1%nat /\ len done = len next_state /\
    forall i srow arow nrow,
      nth_error (rows state) i = Some srow ->
      nth_error (rows action) i = Some arow ->
      nth_error (rows next_state) i = Some nrow ->
      nth_error cost i = Some (ant_cost sum (dt self) srow arow nrow) /\
      nth_error (rows done) i
      = Some [if ant_done nrow then one else zero] /\
      (forall v, In v nrow -> isfinite v = false -> ant_done nrow = true).
Proof.
  intros W C1 C3 L1 L2. unfold len in *.
  unfold get_cost, AntTask.get_cost.
  rewrite !column_ok by lia. cbn [rbind].
  rewrite binop_same_length by (rewrite !length_map; lia). cbn [rbind].
  rewrite binop_same_length
    by (unfold sum1, pow2, map_tensor2; cbn [rows];
        rewrite !length_map, length_map2, !length_map; lia).
  cbn [rbind]. unfold isfinite_all1.
  rewrite (map_map (fun r => nth 2 r S754_nan)).
  rewrite binop_map_map. cbn [rbind].
  rewrite (map_map (fun r => nth 2 r S754_nan)).
  rewrite binop_map_map. cbn [rbind].
  eexists; eexists; split; [reflexivity|].
  unfold unsqueeze1, len; cbn [rows ncols].
  unfold sum1, pow2, map_tensor2; cbn [rows].
  rewrite !length_map, !length_map2, !length_map, !length_map2, !length_map.
  repeat split; try lia.
  - unfold ant_cost.
    apply (map_nth_error Float.neg).
    apply (map_nth_error (fun v => Float.add f32 v (scalar Lit.f_1_0))).
    apply nth_error_map2.
    + apply (map_nth_error (fun v => Float.div f32 v (scalar (dt self)))).
      apply nth_error_map2; apply nth_error_column; assumption.
    + apply (map_nth_error (fun v => Float.mul f32 (scalar Lit.f_0_5) v)).
      rewrite map_map.
      apply (map_nth_error
               (fun r => sum (map (fun x => Float.mul f32 x x) r))).
      assumption.
  - rewrite !map_map.
    erewrite map_nth_error by eassumption.
    rewrite ant_notdone; [reflexivity|].
    unfold well_shaped in W. rewrite Forall_forall in W.
    rewrite (W nrow) by (eapply nth_error_In; eassumption). lia.
  - intros v Hv Fv. unfold ant_done.
    assert (E : existsb (fun v => negb (isfinite v)) nrow = true).
    { apply existsb_exists. exists v. rewrite Fv. auto. }
    rewrite E. reflexivity.
Qed.

End AntCost.

Section NeverTerminal.

Variable env : Type.
Variable dt : env -> spec_float.
Variable sum : list spec_float -> spec_float.

(** C5. Whatever the values of the batch, the done that the half-cheetah
    and the swimmer [get_cost] return is the zero tensor of shape
    [[N, 1]], N the number of rows of the state; and on a batch of N rows
    throughout, with a column 0 in the states, both return. *)
Theorem never_terminal (self : env)
    (state action next_state : tensor2 spec_float) :
  (forall cost done,
      HalfCheetahTask.get_cost env dt sum self state action next_state
      = Ok (cost, done) ->
      done = zeros (len state) 1) /\
  (forall cost done,
      SwimmerTask.get_cost env dt sum self state action next_state
      = Ok (cost, done) ->
      done = zeros (len state) 1) /\
  ((1 <= ncols state)%nat -> (1 <= ncols next_state)%nat ->
   len action = len state -> len next_state = len state ->
   (exists cost,
       HalfCheetahTask.get_cost env dt sum self state action next_state
       = Ok (cost, zeros (len state) 1) /\ length cost = len state) /\
   (exists cost,
       SwimmerTask.get_cost env dt sum self state action next_state
       = Ok (cost, zeros (len state) 1) /\ length cost = len state)) /\
  zeros (len state) 1 = Tensor2 1 (repeat [zero] (len state)).
Proof.
  split; [|split; [|split]].
  - intros cost done. unfold HalfCheetahTask.get_cost.
    destruct (column state 0) as [xb|]; cbn [rbind]; [|discriminate].
    destruct (column next_state 0) as [xa|]; cbn [rbind]; [|discriminate].
    destruct (binop (Float.sub f32) xa xb) as [d|]; cbn [rbind];
      [|discriminate].
    destruct (binop (Float.add f32) _ _) as [r|]; cbn [rbind];
      [|discriminate].
    intros [= _ <-]. reflexivity.
  - intros cost done. unfold SwimmerTask.get_cost.
    destruct (column state 0) as [xb|]; cbn [rbind]; [|discriminate].
    destruct (column next_state 0) as [xa|]; cbn [rbind]; [|discriminate].
    destruct (binop (Float.sub f32) xa xb) as [d|]; cbn [rbind];
      [|discriminate].
    destruct (binop (Float.add f32) _ _) as [r|]; cbn [rbind];
      [|discriminate].
    intros [= _ <-]. reflexivity.
  - intros C1 C2 L1 L2. unfold len in *. split.
    + unfold HalfCheetahTask.get_cost.
      rewrite !column_ok by lia. cbn [rbind].
      rewrite binop_same_length by (rewrite !length_map; lia). cbn [rbind].
      rewrite binop_same_length
        by (unfold sum1, pow2, map_tensor2; cbn [rows];
            rewrite !length_map, length_map2, !length_map; lia).
      cbn [rbind]. eexists; split; [reflexivity|].
      unfold sum1, pow2, map_tensor2; cbn [rows].
      rewrite !length_map, !length_map2, !length_map, !length_map2, !length_map.
      lia.
    + unfold SwimmerTask.get_cost.
      rewrite !column_ok by lia. cbn [rbind].
      rewrite binop_same_length by (rewrite !length_map; lia). cbn [rbind].
      rewrite binop_same_length
        by (unfold sum1, pow2, map_tensor2; cbn [rows];
            rewrite !length_map, length_map2, !length_map; lia).
      cbn [rbind]. eexists; split; [reflexivity|].
      unfold sum1, pow2, map_tensor2; cbn [rows].
      rewrite !length_map, !length_map2, !length_map, !length_map2, !length_map.
      lia.
  - reflexivity.
Qed.

End NeverTerminal.

(** ** Reset states *)

Section ResetState.

Variables env rng : Type.
Variable uniform : spec_float -> spec_float -> rng -> spec_float * rng.
Variable normal : rng -> spec_float * rng.
Variables nq nv : env -> nat.
Variables init_qpos init_qvel : env -> list spec_float.

(** The sampler shared by the articulated-body tasks: initial position
    plus noise, initial velocity plus noise, side by side. *)
Lemma articulated_reset_state
    (noise1 noise2 : prog (world env rng) (tensor2 spec_float))
    (g : spec_float -> spec_float) (w : world env rng) (n : nat) :
  length (init_qpos (self w)) = nq (self w) ->
  length (init_qvel (self w)) = nv (self w) ->
  (forall w', self w' = self w ->
              exists t g', noise1 w' = (Ok t, World (self w) g') /\
                           has_shape t n (nq (self w))) ->
  (forall w', self w' = self w ->
              exists t g', noise2 w' = (Ok t, World (self w) g') /\
                           has_shape t n (nv (self w))) ->
  exists t g',
    (x <<- noise1 ;;
     qpos <<- lift (binop_rows (Float.add f32)
                      (tensor (init_qpos (self w))) x) ;;
     y <<- noise2 ;;
     qvel <<- lift (binop_rows (Float.add f32)
                      (tensor (init_qvel (self w))) (map_tensor2 g y)) ;;
     lift (cat_cols qpos qvel)) w
    = (Ok t, World (self w) g') /\
    has_shape t n (nq (self w) + nv (self w)).
Proof.
  intros Lq Lv N1 N2.
  destruct (N1 w eq_refl) as (t1 & g1 & E1 & S1).
  unfold bind at 1. rewrite E1.
  destruct (binop_rows_shape (Float.add f32) (tensor (init_qpos (self w)))
              t1 n (nq (self w))) as (q & Eq & Sq);
    [unfold tensor; rewrite length_map; exact Lq | exact S1 |].
  unfold bind at 1, lift at 1. rewrite Eq.
  destruct (N2 (World (self w) g1) eq_refl) as (t2 & g2 & E2 & S2).
  unfold bind at 1. rewrite E2.
  destruct (binop_rows_shape (Float.add f32) (tensor (init_qvel (self w)))
              (map_tensor2 g t2) n (nv (self w))) as (v & Ev & Sv);
    [unfold tensor; rewrite length_map; exact Lv
    | apply map_tensor2_shape; exact S2 |].
  unfold bind at 1, lift at 1. rewrite Ev.
  destruct (cat_cols_shape q v n _ _ Sq Sv) as (t & Et & St).
  unfold lift. rewrite Et. exists t, g2. split; [reflexivity | exact St].
Qed.

Lemma map_tensor2_id {A} (t : tensor2 A) : map_tensor2 (fun x => x) t = t.
Proof.
  destruct t as [k rs]. unfold map_tensor2. cbn. f_equal.
  rewrite (map_ext _ (fun r => r)) by (intros r; apply map_id).
  apply map_id.
Qed.

(** C6. For every [n >= 0], [get_reset_state n] returns exactly [n]
    rows, of 4 elements for the cart-pole and of [nq + nv] elements for
    the ant, the half-cheetah and the swimmer (whose initial position
    and velocity have [nq] and [nv] elements); the task object comes
    back as it was, only the random generator has advanced. *)
Theorem get_reset_state_shape (w : world env rng) (n : Z) :
  0 <= n ->
  (exists t g',
      CartPoleTask.get_reset_state env rng uniform n w
      = (Ok t, World (self w) g') /\
      has_shape t (Z.to_nat n) 4) /\
  (length (init_qpos (self w)) = nq (self w) ->
   length (init_qvel (self w)) = nv (self w) ->
   (exists t g',
       AntTask.get_reset_state env nq nv init_qpos init_qvel
         rng uniform normal n w
       = (Ok t, World (self w) g') /\
       has_shape t (Z.to_nat n) (nq (self w) + nv (self w))) /\
   (exists t g',
       HalfCheetahTask.get_reset_state env nq nv init_qpos init_qvel
         rng uniform normal n w
       = (Ok t, World (self w) g') /\
       has_shape t (Z.to_nat n) (nq (self w) + nv (self w))) /\
   (exists t g',
       SwimmerTask.get_reset_state env nq nv init_qpos init_qvel
         rng uniform n w
       = (Ok t, World (self w) g') /\
       has_shape t (Z.to_nat n) (nq (self w) + nv (self w)))).
Proof.
  intros Hn. split.
  - apply with_generator_random_tensor. exact Hn.
  - intros Lq Lv.
    assert (U : forall k lo hi w',
               self w' = self w ->
               exists t g',
                 with_generator (FloatTensor_uniform_ rng uniform n k lo hi) w'
                 = (Ok t, World (self w) g') /\
                 has_shape t (Z.to_nat n) k).
    { intros k lo hi w' <-. apply with_generator_random_tensor. exact Hn. }
    assert (G : forall k w',
               self w' = self w ->
               exists t g',
                 with_generator (randn rng normal n k) w'
                 = (Ok t, World (self w) g') /\
                 has_shape t (Z.to_nat n) k).
    { intros k w' <-. apply with_generator_random_tensor. exact Hn. }
    split; [|split].
    + unfold AntTask.get_reset_state.
      apply articulated_reset_state; auto.
    + unfold HalfCheetahTask.get_reset_state.
      apply articulated_reset_state; auto.
    + unfold SwimmerTask.get_reset_state.
      destruct (articulated_reset_state
                  (with_generator
                     (FloatTensor_uniform_ rng uniform n (nq (self w))
                        (Float.neg Lit.f_0_1) Lit.f_0_1))
                  (with_generator
                     (FloatTensor_uniform_ rng uniform n (nv (self w))
                        (Float.neg Lit.f_0_1) Lit.f_0_1))
                  (fun x => x) w (Z.to_nat n) Lq Lv)
        as (t & g' & E & S); auto.
      exists t, g'. split; [|exact S]. rewrite <- E.
      unfold bind. 
      destruct (with_generator _ w) as [[t1|e1] w1]; [|reflexivity].
      destruct (lift _ w1) as [[q|e2] w2]; [|reflexivity].
      destruct (with_generator _ w2) as [[t2|e3] w3]; [|reflexivity].
      rewrite map_tensor2_id. reflexivity.
Qed.

End ResetState.

(** ** Setting a state and reading it back *)

Section RoundTrip.

Variable env : Type.
Variables nq nv : env -> nat.
Variables qpos qvel : env -> list spec_float.
Variable set_state : ndarray -> ndarray -> prog env unit.

(** C7. For every flat state vector of [nq + nv] floats,
    [set_new_state] hands [MujocoEnv.set_state] the first [nq]
    elements as positions and the other [nv] as velocities: two
    vectors of the shapes [set_state] asks for, which together are the
    state, element for element; its outcome is the outcome of that
    call. The observation read back afterwards is the concatenation of
    the simulator's buffers. When the call has left in them the two
    vectors it was given (as float64, the type of the buffers), the
    observation is the state: the very same array for a float64 state,
    and for a float32 state the float64 array of the same values. The
    code promises no more: on a simulator whose [set_state] changes the
    positions it stores, the observation is not the state. *)
Theorem set_new_state_round_trip (self : env) (f : float_dtype)
    (xs : list spec_float) :
  length xs = (nq self + nv self)%nat ->
  let p := NdFloat f (Vector (firstn (nq self) xs)) in
  let v := NdFloat f (Vector (skipn (nq self) xs)) in
  MujocoTask.set_new_state env nq nv set_state (NdFloat f (Vector xs)) self
  = set_state p v self /\
  shape_of p = Rank1 (nq self) /\ shape_of v = Rank1 (nv self) /\
  elements (to_floats float64 p) ++ elements (to_floats float64 v)
  = map (widen f) xs /\
  forall self',
    set_state p v self = (Ok tt, self') ->
    qpos self' = elements (to_floats float64 p) ->
    qvel self' = elements (to_floats float64 v) ->
    MujocoTask._get_obs env qpos qvel self'
    = NdFloat float64 (Vector (map (widen f) xs)) /\
    (f = float64 ->
     MujocoTask._get_obs env qpos qvel self' = NdFloat f (Vector xs)) /\
    (Forall (fun x => valid (fmt f) x = true) xs ->
     Forall2 same_value xs (map (widen f) xs)).
Proof.
  intros L p v.
  assert (C : elements (to_floats float64 p)
              ++ elements (to_floats float64 v) = map (widen f) xs).
  { unfold p, v. rewrite !to_floats_float64. cbn [elements].
    rewrite <- map_app, firstn_skipn. reflexivity. }
  split; [|split; [|split; [|split; [exact C|]]]].
  - unfold MujocoTask.set_new_state.
    unfold bind at 1, lift at 1. cbn [MujocoTask.slice].
    unfold bind at 1, lift at 1.
    unfold MujocoTask.python_slice.
    rewrite Nat.sub_0_r. cbn [skipn].
    rewrite firstn_all2 with (l := skipn (nq self) xs)
      by (rewrite length_skipn; lia).
    reflexivity.
  - unfold p. cbn [shape_of ashape]. rewrite length_firstn. f_equal. lia.
  - unfold v. cbn [shape_of ashape]. rewrite length_skipn. f_equal. lia.
  - intros self' _ Q V.
    assert (O : MujocoTask._get_obs env qpos qvel self'
                = NdFloat float64 (Vector (map (widen f) xs))).
    { unfold MujocoTask._get_obs, concatenate. rewrite Q, V, C.
      reflexivity. }
    split; [exact O|]. split.
    + intros ->. rewrite O. cbn [widen]. rewrite map_id. reflexivity.
    + apply map_widen_same_value.
Qed.

End RoundTrip.

End Properties.

(** * The properties on concrete inputs *)

Module Witnesses.
Import Numpy Gym Torch Float Spec Properties.

Lemma reformat_action_spec_witness :
  valid_array Example.action /\
  1 <= 2 <= exact_limit Example.action /\
  exists r,
    Task.reformat_action Example.invalid_cast (option space)
Example.action_space (Some (Discrete 2)) Example.action
= Ok (NdInt int64 r) /\
ashape r = shape_of Example.action /\
rounded_clamped Example.invalid_cast int64 (2 - 1) Example.action r.
Proof.
  assert (V : valid_array Example.action)
    by (repeat constructor).
  assert (H : 1 <= 2 <= exact_limit Example.action)
    by (vm_compute; split; discriminate).
  split; [exact V|]. split; [exact H|].
  destruct (reformat_action_spec Example.invalid_cast (option space)
Example.action_space (Some (Discrete 2)) Example.action)
as (r & E & S & R).
exists r. split; [exact E|]. split; [exact S|]. exact (R V H).
Defined.

Lemma step_spec_witness :
  shape_of Example.action2 = Rank1 2 /\
  exists xs rs,
    Task.reformat_action Example.invalid_cast nat Example.box_space
      0%nat Example.action2
    = Ok (NdFloat float32 (Vector xs)) /\
    clipped_each [Example.f32 (-1) 1; Example.f32 (-1) 1]
      [Example.f32 1 1; Example.f32 1 1] xs rs /\
    MujocoTask.step Example.invalid_cast nat unit Example.box_space
Example.native_step Example.action2 0%nat
= delegate Example.invalid_cast Example.native_step
  (NdFloat float32 (Vector rs)) 0%nat.
Proof.
  split; [reflexivity|].
  exact (proj1 (proj2 (proj2
           (step_spec Example.invalid_cast nat unit Example.box_space
Example.native_step Example.native_reset)))
0%nat Example.action2 float32 _ _ eq_refl eq_refl eq_refl).
Defined.

Lemma unsupported_action_space_witness :
  supported (Example.tuple_space 0%nat) = false /\
  Task.step Example.invalid_cast nat unit Example.tuple_space
Example.native_step Example.action1 0%nat
= (Raise NotImplementedError, 0%nat) /\
MujocoTask.step Example.invalid_cast nat unit Example.tuple_space
Example.native_step Example.action1 0%nat
= (Raise NotImplementedError, 0%nat) /\
CartPoleTask.step Example.invalid_cast nat unit Example.tuple_space
Example.native_step Example.action1 0%nat
= (Raise NotImplementedError, 0%nat).
Proof.
  split; [reflexivity|].
  destruct (proj2 (unsupported_action_space Example.invalid_cast nat unit
Example.tuple_space Example.native_step)
0%nat Example.action1 eq_refl) as (T & M & C).
split; [exact T|]. split; [exact M|]. exact (C eq_refl).
Defined.

Lemma CartPoleTask_step_reward_witness :
  CartPoleTask.unpack Example.action1
  = Ok [NdFloat float64 (Scalar (Example.f64 7 10))] /\
Example.native_step (NdInt int64 (Scalar 1)) 2%nat
= (Ok (NdFloat float64 (Vector [Example.f64 0 1; Example.f64 0 1]),
       PyFloat (Example.f64 1 1), true, tt), 3%nat) /\
CartPoleTask.step Example.invalid_cast nat unit Example.discrete_space
Example.native_step Example.action1 2%nat
= (Ok (np_float32 Example.invalid_cast
       (NdFloat float64 (Vector [Example.f64 0 1; Example.f64 0 1])),
     PyInt 0, true, tt), 3%nat) /\
Task.step Example.invalid_cast nat unit Example.discrete_space
Example.native_step (NdInt int64 (Scalar 1)) 2%nat
= (Ok (np_float32 Example.invalid_cast
       (NdFloat float64 (Vector [Example.f64 0 1; Example.f64 0 1])),
     PyFloat (Example.f64 1 1), true, tt), 3%nat).
Proof.
  split; [reflexivity|]. split; [reflexivity|].
  exact (CartPoleTask_step_reward Example.invalid_cast nat unit
Example.discrete_space Example.native_step 2%nat 3%nat
Example.action1 (NdFloat float64 (Scalar (Example.f64 7 10)))
(NdInt int64 (Scalar 1)) (NdInt int64 (Scalar 1))
(NdFloat float64 (Vector [Example.f64 0 1; Example.f64 0 1]))
(PyFloat (Example.f64 1 1)) true tt
eq_refl eq_refl eq_refl eq_refl).
Defined.

Lemma CartPoleTask_step_unpacks_witness :
  shape_of Example.action2 = Rank1 2 /\ 2%nat <> 1%nat /\
  CartPoleTask.step Example.invalid_cast nat unit Example.discrete_space
Example.native_step Example.action2 0%nat
= (Raise TypeError, 0%nat).
Proof.
  assert (N : 2%nat <> 1%nat) by discriminate.
  split; [reflexivity|]. split; [exact N|].
  exact (proj1 (proj2
           (CartPoleTask_step_unpacks Example.invalid_cast nat unit
Example.discrete_space Example.native_step))
0%nat Example.action2 2%nat eq_refl N).
Defined.

Lemma CartPoleTask_get_cost_spec_witness :
Example.x_threshold tt = Lit.f_0_2 /\
Example.theta_threshold_radians tt = CartPoleEnv.theta_threshold_radians /\
CartPoleTask.get_cost unit Example.x_threshold
Example.theta_threshold_radians tt (zeros 1 4) (zeros 1 1)
(Tensor2 4 [[scalar Lit.f_0_3; Example.nan; zero; Example.nan]])
= Ok ([zero], Tensor2 1 [[one]]) /\
CartPoleTask.get_cost unit Example.x_threshold
Example.theta_threshold_radians tt (zeros 1 4) (zeros 1 1)
(Tensor2 4 [[zero; zero; zero; zero]])
= Ok ([Float.neg one], Tensor2 1 [[zero]]).
Proof.
  split; [reflexivity|]. split; [reflexivity|].
  destruct (CartPoleTask_get_cost_spec unit Example.x_threshold
Example.theta_threshold_radians) as (_ & E1 & E2).
split.
- exact (E1 tt (zeros 1 4) (zeros 1 1) Example.nan Example.nan eq_refl).
- exact (E2 tt (zeros 1 4) (zeros 1 1) eq_refl eq_refl).
Defined.

Lemma AntTask_get_cost_spec_witness :
  well_shaped (Example.batch1 [Example.f32 1 10; zero; Example.nan]) /\
  exists cost done,
    AntTask.get_cost unit Example.dt Example.sum tt
      (Example.batch1 [zero; zero; Example.f32 1 2])
      (Example.batch1 [Example.f32 1 2; Example.f32 (-1) 2])
      (Example.batch1 [Example.f32 1 10; zero; Example.nan])
    = Ok (cost, done) /\
    length cost = 1%nat /\ ncols done = 1%nat /\ len done = 1%nat /\
    nth_error (rows done) 0 = Some [one].
Proof.
  assert (W : well_shaped (Example.batch1 [Example.f32 1 10; zero; Example.nan]))
    by (repeat constructor).
  split; [exact W|].
  destruct (AntTask_get_cost_spec unit Example.dt Example.sum tt
              (Example.batch1 [zero; zero; Example.f32 1 2])
              (Example.batch1 [Example.f32 1 2; Example.f32 (-1) 2])
              (Example.batch1 [Example.f32 1 10; zero; Example.nan])
              W (le_S _ _ (le_S _ _ (le_n 1))) (le_n 3) eq_refl eq_refl)
    as (cost & done & E & L & C & N & R).
  exists cost, done. split; [exact E|]. split; [exact L|].
  split; [exact C|]. split; [exact N|].
  exact (proj1 (proj2 (R 0%nat _ _ _ eq_refl eq_refl eq_refl))).
Defined.

Lemma never_terminal_witness :
  (1 <= 3)%nat /\
  (exists cost,
      HalfCheetahTask.get_cost unit Example.dt Example.sum tt
        (Example.batch1 [zero; zero; Example.f32 1 2])
        (Example.batch1 [Example.f32 1 2; Example.f32 (-1) 2])
        (Example.batch1 [Example.f32 1 10; zero; Example.nan])
      = Ok (cost, zeros 1 1) /\ length cost = 1%nat) /\
  (exists cost,
      SwimmerTask.get_cost unit Example.dt Example.sum tt
        (Example.batch1 [zero; zero; Example.f32 1 2])
        (Example.batch1 [Example.f32 1 2; Example.f32 (-1) 2])
        (Example.batch1 [Example.f32 1 10; zero; Example.nan])
      = Ok (cost, zeros 1 1) /\ length cost = 1%nat).
Proof.
  assert (H : (1 <= 3)%nat) by (repeat constructor).
  split; [exact H|].
  exact (proj1 (proj2 (proj2
           (never_terminal unit Example.dt Example.sum tt
              (Example.batch1 [zero; zero; Example.f32 1 2])
              (Example.batch1 [Example.f32 1 2; Example.f32 (-1) 2])
              (Example.batch1 [Example.f32 1 10; zero; Example.nan]))))
           H H eq_refl eq_refl).
Defined.

Lemma get_reset_state_shape_witness :
  0 <= 3 /\
  (exists t g',
      CartPoleTask.get_reset_state unit nat Example.uniform 3 (World tt 0%nat)
      = (Ok t, World tt g') /\
      has_shape t 3 4) /\
  (exists t g',
      AntTask.get_reset_state unit Example.nq Example.nv Example.init_qpos
Example.init_qvel nat Example.uniform Example.normal 3 (World tt 0%nat)
= (Ok t, World tt g') /\
has_shape t 3 3).
Proof.
  assert (H : 0 <= 3) by discriminate.
  split; [exact H|].
  destruct (get_reset_state_shape unit nat Example.uniform Example.normal
Example.nq Example.nv Example.init_qpos Example.init_qvel
(World tt 0%nat) 3 H) as (C & A).
split; [exact C|]. exact (proj1 (A eq_refl eq_refl)).
Defined.

Lemma set_new_state_round_trip_witness :
  length [Example.f32 1 10; Example.f32 3 4; Example.nan] = (2 + 1)%nat /\
  exists self',
    MujocoTask.set_new_state Example.sim Example.sim_nq Example.sim_nv
Example.sim_set_state
(NdFloat float32 (Vector [Example.f32 1 10; Example.f32 3 4; Example.nan]))
(Example.Sim [] [])
= (Ok tt, self') /\
MujocoTask._get_obs Example.sim Example.sim_qpos Example.sim_qvel self'
= NdFloat float64
  (Vector (map (widen float32)
             [Example.f32 1 10; Example.f32 3 4; Example.nan])).
Proof.
  split; [reflexivity|].
  destruct (set_new_state_round_trip Example.sim Example.sim_nq Example.sim_nv
Example.sim_qpos Example.sim_qvel Example.sim_set_state
(Example.Sim [] []) float32
[Example.f32 1 10; Example.f32 3 4; Example.nan] eq_refl)
as (E & _ & _ & _ & O).
eexists. split; [exact E|].
exact (proj1 (O _ eq_refl eq_refl eq_refl)).
Defined.

End Witnesses.

(** * Evaluations *)

Module Evaluations.
Import Numpy Gym Torch.

(** 0.7, -0.3, 2.5 and NaN for a Discrete space of two actions: 1, 0, 1
    (2.5 rounds to 2, which is clamped), and the invalid cast of NaN. *)
Lemma reformat_action_Discrete :
  Task.reformat_action Example.invalid_cast (option space)
Example.action_space (Some (Discrete 2)) Example.action
= Ok (NdInt int64 (Vector [1; 0; 1; - 2 ^ 63])).
Proof. vm_compute. reflexivity. Qed.

(** 7.0, -0.3 and 2.5 for the MultiDiscrete space [[3, 5, 2]]: every
    dimension has its own upper bound. *)
Lemma reformat_action_MultiDiscrete :
  Task.reformat_action Example.invalid_cast (option space)
Example.action_space (Some (MultiDiscrete [3; 5; 2]))
(NdFloat float64
   (Vector [Example.f64 7 1; Example.f64 (-3) 10; Example.f64 5 2]))
= Ok (NdInt int64 (Vector [2; 0; 1])).
Proof. vm_compute. reflexivity. Qed.

(** 99.0 for the MultiDiscrete space [[3, 5, 2]], on all dimensions. *)
Lemma reformat_action_MultiDiscrete_far :
  Task.reformat_action Example.invalid_cast (option space)
Example.action_space (Some (MultiDiscrete [3; 5; 2]))
(NdFloat float64
   (Vector [Example.f64 99 1; Example.f64 99 1; Example.f64 99 1]))
= Ok (NdInt int64 (Vector [2; 4; 1])).
Proof. vm_compute. reflexivity. Qed.

(** 0.7 and 1.0 for a MultiBinary space. *)
Lemma reformat_action_MultiBinary :
  Task.reformat_action Example.invalid_cast (option space)
Example.action_space (Some (MultiBinary 2))
(NdFloat float64 (Vector [Example.f64 7 10; Example.f64 (-4) 1]))
= Ok (NdInt int8 (Vector [1; 0])).
Proof. vm_compute. reflexivity. Qed.

(** A Box of bounds [[-1, 1]] does not clamp -3.0: the normalizer only
    casts. *)
Lemma reformat_action_Box :
  Task.reformat_action Example.invalid_cast (option space)
Example.action_space (Some Example.box) Example.action2
= Ok (NdFloat float32 (Vector [Example.f32 7 10; Example.f32 (-3) 1])).
Proof. vm_compute. reflexivity. Qed.

(** [MujocoTask.step] clips it: the simulator is stepped with -1.0. *)
Lemma MujocoTask_step_clips :
  MujocoTask.step Example.invalid_cast nat unit Example.box_space
Example.native_step Example.action2 0%nat
= Spec.delegate Example.invalid_cast Example.native_step
  (NdFloat float32 (Vector [Example.f32 7 10; Example.f32 (-1) 1])) 0%nat.
Proof. vm_compute. reflexivity. Qed.

(** A negative number of rows is an error of the tensor library. *)
Lemma get_reset_state_negative :
  CartPoleTask.get_reset_state unit nat Example.uniform (-1) (World tt 0%nat)
  = (Raise RuntimeError, World tt 0%nat).
Proof. reflexivity. Qed.

(** The cart-pole comparison is false on a NaN position: the row is not
    done. *)
Lemma CartPoleTask_get_cost_nan :
  CartPoleTask.get_cost unit Example.x_threshold
Example.theta_threshold_radians tt (zeros 1 4) (zeros 1 1)
(Tensor2 4 [[Example.nan; zero; zero; zero]])
= Ok ([Float.neg one], Tensor2 1 [[zero]]).
Proof. vm_compute. reflexivity. Qed.

(** A float32 action against a cardinality of more than 16 bits is
    clipped in float64: the bound 16777217, which is no float32, is
    kept. *)
Lemma reformat_action_Discrete_wide :
  Task.reformat_action Example.invalid_cast (option space)
Example.action_space (Some (Discrete 16777218))
(NdFloat float32 (Vector [Float.of_Z Float.binary32 16777218]))
= Ok (NdInt int64 (Vector [16777217])).
Proof. vm_compute. reflexivity. Qed.

End Evaluations.

(** * Where the code does less than the specification says *)

Module Counterexamples.
Import Numpy Gym Torch.

(** C1. Four actions that do not come back as the claim words it. A NaN
    under [Discrete 2] stays NaN through rounding and clipping, and its
    cast (the most negative int64 on x86-64) is outside [[0, 1]]. With
    the cardinality [2^53 + 2] the bound [n - 1] is no float64: the clip
    uses [2^53] in its place, and the action [2^54] comes back as
    [2^53], below [n - 1]. An action of two elements for a MultiDiscrete
    space of three dimensions is an error. And the cast to the float32 of
    a Box moves the float64 [0.7] to the nearest float32, which is
    smaller. *)
Lemma reformat_action_not_as_declared :
  (exists z,
      Task.reformat_action Example.invalid_cast (option space)
Example.action_space (Some (Discrete 2))
(NdFloat float64 (Vector [Example.nan]))
= Ok (NdInt int64 (Vector [z])) /\
z < 0) /\
(exists z,
Task.reformat_action Example.invalid_cast (option space)
Example.action_space (Some (Discrete (2 ^ 53 + 2)))
(NdFloat float64 (Vector [Float.of_Z Float.binary64 (2 ^ 54)]))
= Ok (NdInt int64 (Vector [z])) /\
z < Z.min (Z.max (2 ^ 54) 0) (2 ^ 53 + 2 - 1)) /\
Task.reformat_action Example.invalid_cast (option space)
Example.action_space (Some (MultiDiscrete [3; 5; 2])) Example.action2
= Raise ValueError /\
(exists y,
  Task.reformat_action Example.invalid_cast (option space)
Example.action_space (Some Example.box) Example.action1
= Ok (NdFloat float32 (Vector [y])) /\
Float.ltb (Float.round_to Float.binary64 y) (Example.f64 7 10) = true).
Proof.
  split; [|split; [|split]].
  - eexists. split; [vm_compute; reflexivity | reflexivity].
  - eexists. split; [vm_compute; reflexivity | reflexivity].
  - vm_compute. reflexivity.
  - eexists. split; [vm_compute; reflexivity | vm_compute; reflexivity].
Qed.

(** C7. A simulator with a free joint, whose forward pass rescales the
    quaternion of the joint: the state with the quaternion
    [(2, 0, 0, 0)] is set without an error, and the observation read
    back has [1.0] where the state has [2.0]. *)
Lemma set_new_state_not_read_back :
  exists self' xs obs,
Example.free_state = NdFloat float64 (Vector xs) /\
length xs = (7 + 6)%nat /\
MujocoTask.set_new_state Example.sim Example.free_nq Example.free_nv
Example.free_set_state Example.free_state (Example.Sim [] [])
= (Ok tt, self') /\
MujocoTask._get_obs Example.sim Example.sim_qpos Example.sim_qvel self'
= NdFloat float64 (Vector obs) /\
nth 3 xs Example.nan = Example.f64 2 1 /\
nth 3 obs Example.nan = Example.f64 1 1 /\
obs <> xs.
Proof.
  do 3 eexists. split; [reflexivity|]. split; [reflexivity|].
  split; [vm_compute; reflexivity|]. split; [reflexivity|].
  split; [vm_compute; reflexivity|]. split; [vm_compute; reflexivity|].
  intros H. vm_compute in H. discriminate H.
Qed.

End Counterexamples.

(** * Further properties

    ** Facts *)


Module CostFacts.
Import Torch Float TorchFacts Properties.

Lemma column_raises (t : tensor2 spec_float) (j : nat) :
  (ncols t <= j)%nat -> column t j = Raise IndexError.
Proof.
  intros H. unfold column. apply Nat.ltb_ge in H. rewrite H. reflexivity.
Qed.

Lemma broadcast_size_raises (n k : nat) :
  n <> k -> n <> 1%nat -> k <> 1%nat -> broadcast_size n k = Raise RuntimeError.
Proof.
  intros A B C. unfold broadcast_size.
  apply Nat.eqb_neq in A, B, C. rewrite A, B, C. reflexivity.
Qed.

Lemma binop_raises {A B C} (g : A -> B -> C) (xs : list A) (ys : list B) :
  length xs <> length ys -> length xs <> 1%nat -> length ys <> 1%nat ->
  binop g xs ys = Raise RuntimeError.
Proof.
  intros A1 B1 C1. unfold binop. rewrite broadcast_size_raises by assumption.
  reflexivity.
Qed.

Lemma length_sum1_pow2 (sum : list spec_float -> spec_float)
    (action : tensor2 spec_float) :
  length (sum1 sum (pow2 action)) = len action.
Proof.
  unfold sum1, pow2, map_tensor2, len; cbn [rows].
  rewrite !length_map. reflexivity.
Qed.

Lemma nth_error_sum1_pow2 (sum : list spec_float -> spec_float)
    (action : tensor2 spec_float) (i : nat) (arow : list spec_float) :
  nth_error (rows action) i = Some arow ->
  nth_error (sum1 sum (pow2 action)) i
  = Some (sum (map (fun a => Float.mul f32 a a) arow)).
Proof.
  intros H. unfold sum1, pow2, map_tensor2; cbn [rows]. rewrite map_map.
  apply (map_nth_error (fun r => sum (map (fun x => Float.mul f32 x x) r))).
  exact H.
Qed.

End CostFacts.

Module OrderFacts.
Import Float.

Lemma ltb_nan_l (y : spec_float) : ltb S754_nan y = false.
Proof. reflexivity. Qed.

Lemma ltb_nan_r (x : spec_float) : ltb x S754_nan = false.
Proof. destruct x as [s|s| |s m e]; reflexivity. Qed.

End OrderFacts.

Module NormalFacts.
Import Numpy Gym Float Spec.
Import FloatFacts NumpyFacts ReformatFacts StepFacts ErrorFacts.

Lemma array_ext {A} (a b : array A) :
  ashape a = ashape b -> elements a = elements b -> a = b.
Proof.
  destruct a as [x|xs], b as [y|ys]; cbn; try discriminate; intros _ E;
    congruence.
Qed.

Lemma exact_limit_le (a : ndarray) : exact_limit a <= 2 ^ 63.
Proof.
  destruct a as [f a|w a]; cbn [exact_limit]; [|lia].
  apply Z.pow_le_mono_r; destruct f; cbn; lia.
Qed.

Lemma broadcast_shapes_mismatch (n k : nat) :
  n <> k -> n <> 1%nat -> k <> 1%nat ->
  broadcast_shapes (Rank1 n) (Rank1 k) = Raise ValueError.
Proof.
  intros A B C. cbn. apply Nat.eqb_neq in A, B, C. rewrite A, B, C.
  reflexivity.
Qed.

Section NormalFacts.

Variable invalid_cast : int_dtype -> spec_float -> Z.

(** Integers already within the bounds pass unchanged. *)
Lemma rounded_clamped_fixed w v hi (x r : array Z) :
  Forall (fun z => 0 <= z <= hi) (elements x) ->
  rounded_clamped invalid_cast w hi (NdInt v x) r ->
  elements r = elements x.
Proof.
  unfold rounded_clamped. cbn [items].
  generalize (elements x) as zs, (elements r) as rs.
  induction zs as [|z zs IH]; intros rs F R; inversion R; subst;
    [reflexivity|].
  inversion F; subst. cbn [round_clamp_cast] in *.
  f_equal; [lia | apply IH; assumption].
Qed.

Lemma rounded_clamped_each_fixed w v nvec (zs : list Z) (r : array Z) :
  Forall2 (fun z k => 0 <= z <= k - 1) zs nvec ->
  rounded_clamped_each invalid_cast w nvec (NdInt v (Vector zs)) r ->
  elements r = zs.
Proof.
  unfold rounded_clamped_each. cbn [items elements].
  generalize (elements r) as rs. intros rs F. revert rs.
  induction F as [|z k zs nvec B F IH]; intros rs R; cbn in R;
    inversion R; subst; [reflexivity|].
  cbn [fst snd round_clamp_cast] in *. f_equal; [lia | apply IH; assumption].
Qed.

(** Without a NaN, every element lands within the bounds. *)
Lemma rounded_clamped_bounds w hi (a : ndarray) (r : array Z) :
  Forall (fun it => item_is_nan it = false) (items a) ->
  rounded_clamped invalid_cast w hi a r ->
  Forall (fun z => 0 <= z <= hi) (elements r).
Proof.
  unfold rounded_clamped.
  generalize (items a) as its, (elements r) as rs.
  induction its as [|it its IH]; intros rs N R; inversion R; subst;
    constructor; inversion N; subst; [tauto | apply IH; assumption].
Qed.

Lemma rounded_clamped_each_bounds w nvec (a : ndarray) (rs : list Z) :
  length (items a) = length nvec ->
  Forall (fun it => item_is_nan it = false) (items a) ->
  rounded_clamped_each invalid_cast w nvec a (Vector rs) ->
  Forall2 (fun z k => 0 <= z <= k - 1) rs nvec.
Proof.
  unfold rounded_clamped_each. cbn [elements].
  generalize (items a) as its. intros its. revert nvec rs.
  induction its as [|it its IH]; intros [|k nvec] rs L N R; cbn in L, R;
    try discriminate; inversion R; subst; constructor;
    inversion N; subst; cbn [fst snd] in *; [tauto|].
  apply IH; auto.
Qed.

Variable env : Type.
Variable action_space : env -> option space.

Let reformat_action := Task.reformat_action invalid_cast env action_space.

Lemma reformat_action_Discrete_fixed (self : env) (n : Z) (x : array Z) :
  action_space self = Some (Discrete n) -> 1 <= n <= 2 ^ 63 ->
  Forall (fun z => 0 <= z <= n - 1) (elements x) ->
  reformat_action self (NdInt int64 x) = Ok (NdInt int64 x).
Proof.
  intros E Hn F. unfold reformat_action, Task.reformat_action. rewrite E.
  destruct (clip_round_cast_scalar invalid_cast int64 (n - 1) (NdInt int64 x))
    as (r & Er & S & R).
  rewrite Er. do 2 f_equal. apply array_ext; [exact S|].
  apply (rounded_clamped_fixed int64 int64 (n - 1)); [exact F|].
  apply R.
  - cbn [valid_array]. revert F. apply Forall_impl. intros z Hz.
    apply andb_true_iff; split; apply Z.leb_le; cbn [int_min int_max]; lia.
  - cbn [exact_limit]. lia.
  - apply andb_true_iff; split; apply Z.leb_le; cbn [int_min int_max]; lia.
Qed.

Lemma reformat_action_MultiBinary_fixed (self : env) (n : Z) (x : array Z) :
  action_space self = Some (MultiBinary n) ->
  Forall (fun z => 0 <= z <= 1) (elements x) ->
  reformat_action self (NdInt int8 x) = Ok (NdInt int8 x).
Proof.
  intros E F. unfold reformat_action, Task.reformat_action. rewrite E.
  destruct (clip_round_cast_scalar invalid_cast int8 1 (NdInt int8 x))
    as (r & Er & S & R).
  unfold MultiBinary_dtype. rewrite Er. do 2 f_equal.
  apply array_ext; [exact S|].
  apply (rounded_clamped_fixed int8 int8 1); [exact F|].
  apply R.
  - cbn [valid_array]. revert F. apply Forall_impl. intros z Hz.
    apply andb_true_iff; split; apply Z.leb_le; cbn [int_min int_max]; lia.
  - cbn [exact_limit]. lia.
  - reflexivity.
Qed.

Lemma reformat_action_MultiDiscrete_fixed (self : env) (nvec zs : list Z) :
  action_space self = Some (MultiDiscrete nvec) ->
  Forall (fun k => 1 <= k <= 2 ^ 63) nvec ->
  Forall2 (fun z k => 0 <= z <= k - 1) zs nvec ->
  reformat_action self (NdInt int64 (Vector zs))
  = Ok (NdInt int64 (Vector zs)).
Proof.
  intros E K F. unfold reformat_action, Task.reformat_action. rewrite E.
  assert (L : length zs = length nvec) by (eapply Forall2_length; eauto).
  destruct (clip_round_cast_nvec invalid_cast nvec (NdInt int64 (Vector zs)))
    as (r & Er & S & R).
  { cbn [shape_of ashape]. rewrite L. reflexivity. }
  rewrite Er. do 2 f_equal. apply array_ext; [exact S|].
  apply (rounded_clamped_each_fixed int64 int64 nvec); [exact F|].
  apply R.
  - cbn [valid_array elements]. clear - F K.
    induction F as [|z k zs nvec B F IH]; constructor.
    + inversion K; subst.
      apply andb_true_iff; split; apply Z.leb_le; cbn [int_min int_max]; lia.
    + apply IH. inversion K; assumption.
  - cbn [exact_limit]. exact K.
Qed.

End NormalFacts.

End NormalFacts.

Module SamplerFacts.
Import Torch Float TorchFacts ResetFacts.

Section SamplerFacts.

Variable rng : Type.

Lemma with_generator_negative {env : Type}
    (draw : rng -> spec_float * rng) (n : Z) (k : nat) (w : world env rng) :
  n < 0 ->
  with_generator (random_tensor rng draw n k) w = (Raise RuntimeError, w).
Proof.
  intros Hn. unfold with_generator, random_tensor.
  apply Z.ltb_lt in Hn. rewrite Hn. destruct w; reflexivity.
Qed.

Lemma with_generator_zero {env : Type}
    (draw : rng -> spec_float * rng) (k : nat) (w : world env rng) :
  with_generator (random_tensor rng draw 0 k) w = (Ok (Tensor2 k []), w).
Proof. destruct w; reflexivity. Qed.

Lemma binop_rows_empty {A B C} (g : A -> B -> C) (v : tensor1 A) (k : nat) :
  length v = k ->
  binop_rows g v (Tensor2 k ([] : list (list B))) = Ok (Tensor2 k []).
Proof.
  intros L. unfold binop_rows. cbn [ncols rows]. rewrite L.
  rewrite broadcast_size_same. reflexivity.
Qed.

End SamplerFacts.

End SamplerFacts.

Module HalvingFacts.
Import Float FloatFacts.

(** Shifting out the zeros a left shift brought in loses nothing. *)
Lemma shr_iter_xO (p : positive) :
  forall m : positive,
    iter_pos shr_1 p
      {| shr_m := Zpos (Pos.iter xO m p); shr_r := false; shr_s := false |}
    = {| shr_m := Zpos m; shr_r := false; shr_s := false |}.
Proof.
  induction p as [p IH|p IH|]; intros m; cbn [iter_pos Pos.iter].
  - cbn [shr_1 shr_m shr_r shr_s orb]. rewrite IH, IH. reflexivity.
  - rewrite IH, IH. reflexivity.
  - reflexivity.
Qed.

Section Halving.

Variable f : format.

(** A float whose mantissa was shifted left rounds back to itself. *)
Lemma binary_round_aux_shift (s : bool) (m : positive) (e : Z) (k : positive) :
  bounded (prec f) (emax f) m e = true ->
  binary_round_aux (prec f) (emax f) s (Zpos (Pos.iter xO m k)) (e - Zpos k)
    loc_Exact
  = S754_finite s m e.
Proof.
  unfold bounded, canonical_mantissa. intros H.
  apply andb_true_iff in H. destruct H as [H1 H2].
  apply Z.eqb_eq in H1.
  unfold binary_round_aux, shr_fexp. simpl Zdigits2 at 1.
  rewrite iter_xO_digits.
  replace (Zpos (digits2_pos m) + Zpos k + (e - Zpos k))
    with (Zpos (digits2_pos m) + e) by lia.
  rewrite H1.
  replace (e - (e - Zpos k)) with (Zpos k) by lia.
  cbn [shr_record_of_loc shr]. rewrite shr_iter_xO.
  cbn [shr_m loc_of_shr_record round_nearest_even fst snd].
  replace (e - Zpos k + Zpos k) with e by lia.
  simpl Zdigits2. rewrite H1, Z.sub_diag. cbn [shr shr_m].
  rewrite H2. reflexivity.
Qed.

(** [x - (-x)] is [2 x], below the largest binade. *)
Lemma sub_neg_double (s : bool) (m : positive) (e : Z) :
  valid f (S754_finite s m e) = true -> e < emax f - prec f ->
  exists m2 e2,
    sub f (S754_finite s m e) (neg (S754_finite s m e))
    = S754_finite s m2 e2 /\
    ((m2 = m /\ e2 = e + 1) \/ (m2 = xO m /\ e2 = e)).
Proof.
  intros V He. unfold valid in V. cbn [valid_binary] in V.
  pose proof (bounded_inv f m e V) as (R & D & C).
  unfold sub, neg. cbn [SFsub SFopp].
  rewrite Z.min_id. unfold shl_align at 1 2. rewrite Z.sub_diag.
  cbn [fst].
  assert (N : binary_normalize (prec f) (emax f)
                (cond_Zopp s (Zpos m) - cond_Zopp (negb s) (Zpos m)) e false
              = binary_round (prec f) (emax f) s (xO m) e).
  { destruct s; cbn [cond_Zopp negb]; 
      [replace (- Zpos m - Zpos m) with (Zneg (xO m)) by lia
      |replace (Zpos m - - Zpos m) with (Zpos (xO m)) by lia];
      reflexivity. }
  rewrite N. unfold binary_round.
  cbn [digits2_pos]. rewrite Pos2Z.inj_succ.
  destruct (Z.eq_dec (Zpos (digits2_pos m)) (prec f)) as [Dn|Ds].
  - (* normal *)
    assert (F : fexp (prec f) (emax f) (Z.succ (Zpos (digits2_pos m)) + e)
                = e + 1)
      by (unfold fexp, SpecFloat.emin, emin in *; lia).
    rewrite F. unfold shl_align.
    replace (e + 1 - e) with 1 by lia.
    exists m, (e + 1). split; [|left; auto].
    assert (B : bounded (prec f) (emax f) m (e + 1) = true)
      by (apply bounded_intro; lia).
    pose proof (binary_round_aux_shift s m (e + 1) 1 B) as S1.
    replace (e + 1 - 1) with e in S1 by lia. exact S1.
  - (* subnormal *)
    assert (Ee : e = emin f) by lia.
    assert (F : fexp (prec f) (emax f) (Z.succ (Zpos (digits2_pos m)) + e)
                = e)
      by (unfold fexp, SpecFloat.emin, emin in *; lia).
    rewrite F. unfold shl_align. rewrite Z.sub_diag.
    exists (xO m), e. split; [|right; auto].
    apply binary_round_aux_canonical.
    apply bounded_intro; cbn [digits2_pos]; lia.
Qed.

(** [-x + x] is [+0]. *)
Lemma add_neg_zero (s : bool) (m : positive) (e : Z) :
  add f (neg (S754_finite s m e)) (S754_finite s m e) = S754_zero false.
Proof.
  unfold add, neg. cbn [SFadd SFopp]. rewrite Z.min_id.
  unfold shl_align. rewrite Z.sub_diag. cbn [fst].
  replace (cond_Zopp (negb s) (Zpos m) + cond_Zopp s (Zpos m)) with 0
    by (destruct s; cbn [cond_Zopp negb]; lia).
  reflexivity.
Qed.

End Halving.

(** Half of the double, in the two formats. *)
Lemma mul_half (fd : Numpy.float_dtype) (s : bool) (m m2 : positive) (e e2 : Z) :
  valid (Numpy.fmt fd) (S754_finite s m e) = true ->
  (m2 = m /\ e2 = e + 1) \/ (m2 = xO m /\ e2 = e) ->
  mul (Numpy.fmt fd) (round_to (Numpy.fmt fd) (py_float 5 10))
    (S754_finite s m2 e2)
  = S754_finite s m e.
Proof.
  intros V H. unfold valid in V. cbn [valid_binary] in V.
  destruct fd; cbn [Numpy.fmt] in *.
  - change (round_to binary32 (py_float 5 10))
      with (S754_finite false 8388608 (-24)).
    unfold mul. cbn [SFmul xorb].
    destruct H as [[-> ->]|[-> ->]].
    + change (8388608 * m)%positive with (Pos.iter xO m 23).
      replace (-24 + (e + 1)) with (e - 23) by lia.
      apply (binary_round_aux_shift binary32); exact V.
    + change (8388608 * xO m)%positive with (Pos.iter xO m 24).
      replace (-24 + e) with (e - 24) by lia.
      apply (binary_round_aux_shift binary32); exact V.
  - change (round_to binary64 (py_float 5 10))
      with (S754_finite false 4503599627370496 (-53)).
    unfold mul. cbn [SFmul xorb].
    destruct H as [[-> ->]|[-> ->]].
    + change (4503599627370496 * m)%positive with (Pos.iter xO m 52).
      replace (-53 + (e + 1)) with (e - 52) by lia.
      apply (binary_round_aux_shift binary64); exact V.
    + change (4503599627370496 * xO m)%positive with (Pos.iter xO m 53).
      replace (-53 + e) with (e - 53) by lia.
      apply (binary_round_aux_shift binary64); exact V.
Qed.

End HalvingFacts.

Module ControlFacts.
Import Numpy Gym Float.
Import FloatFacts NumpyFacts ReformatFacts HalvingFacts.

Lemma broadcast_shapes_same (s : shape) : broadcast_shapes s s = Ok s.
Proof. destruct s as [|n]; cbn; [|rewrite Nat.eqb_refl]; reflexivity. Qed.

Lemma same_shape_refl (s : shape) : same_shape s s = true.
Proof. destruct s as [|n]; cbn; [|rewrite Nat.eqb_refl]; reflexivity. Qed.

Lemma ashape_amap2 {A B} (g : A -> A -> B) (a b : array A) :
  ashape a = ashape b -> ashape (amap2 g a b) = ashape a.
Proof.
  destruct a as [x|xs], b as [y|ys]; cbn; try discriminate; intros E;
    [reflexivity|].
  injection E as E. rewrite length_map, length_combine, <- E, Nat.min_id.
  reflexivity.
Qed.

Lemma broadcast2_same_shape {A B} (g : A -> A -> B) (a b : array A) :
  ashape a = ashape b -> broadcast2 g a b = Ok (amap2 g a b).
Proof.
  intros E. unfold broadcast2. rewrite <- E, broadcast_shapes_same.
  cbn [rbind]. rewrite broadcast_to_same. rewrite E, broadcast_to_same.
  reflexivity.
Qed.

Lemma map_combine_map {A B C} (g : A * B -> C) (k : A -> B) (xs : list A) :
  map g (combine xs (map k xs)) = map (fun x => g (x, k x)) xs.
Proof. induction xs as [|x xs IH]; cbn; congruence. Qed.

Lemma map_combine_map_l {A B C} (g : B * A -> C) (k : A -> B) (xs : list A) :
  map g (combine (map k xs) xs) = map (fun x => g (k x, x)) xs.
Proof. induction xs as [|x xs IH]; cbn; congruence. Qed.

Section ControlFacts.

Variable invalid_cast : int_dtype -> spec_float -> Z.

Lemma ashape_to_ints_any (w : int_dtype) (a : ndarray) :
  ashape (to_ints invalid_cast w a) = shape_of a.
Proof.
  destruct a as [g x|v x]; cbn; [|destruct (int_dtype_eqb v w)];
    rewrite ?ashape_amap; reflexivity.
Qed.

(** A binary operation on arrays of one shape has that shape and the
    common dtype. *)
Lemma ufunc2_same_shape fop zop (a b : ndarray) :
  shape_of a = shape_of b ->
  exists r,
    ufunc2 invalid_cast fop zop a b = Ok r /\
    shape_of r = shape_of a /\
    dtype_of r = promote (dtype_of a) (dtype_of b).
Proof.
  intros E. unfold ufunc2.
  destruct (promote (dtype_of a) (dtype_of b)) as [f|w].
  - rewrite broadcast2_same_shape by (rewrite !ashape_to_floats; exact E).
    cbn [rbind]. eexists; split; [reflexivity|]. split; [|reflexivity].
    cbn [shape_of]. rewrite ashape_amap2, ashape_to_floats;
      [reflexivity | rewrite !ashape_to_floats; exact E].
  - rewrite broadcast2_same_shape by (rewrite !ashape_to_ints_any; exact E).
    cbn [rbind]. eexists; split; [reflexivity|]. split; [|reflexivity].
    cbn [shape_of]. rewrite ashape_amap2, ashape_to_ints_any;
      [reflexivity | rewrite !ashape_to_ints_any; exact E].
Qed.

Lemma shape_of_np_multiply (c : spec_float) (a : ndarray) :
  shape_of (np_multiply c a) = shape_of a.
Proof.
  destruct a as [f [x|xs]|w x]; cbn [np_multiply shape_of ashape];
    rewrite ?length_map, ?ashape_amap; reflexivity.
Qed.

Lemma broadcast_nd_same (a : ndarray) : broadcast_nd a (shape_of a) = a.
Proof. destruct a; cbn; rewrite broadcast_to_same; reflexivity. Qed.

Lemma np_full_same_shape (a : ndarray) (dt : dtype) :
  np_full invalid_cast (shape_of a) a dt = Ok (astype invalid_cast dt a).
Proof.
  unfold np_full. rewrite broadcast_shapes_same. cbn [rbind].
  rewrite same_shape_refl, broadcast_nd_same. reflexivity.
Qed.

End ControlFacts.

(** The control parameters of one dimension with the bounds [-h] and
    [h]. *)
Lemma symmetric_sigma (f : float_dtype) (h : spec_float) :
  valid (fmt f) h = true -> is_nan h = false ->
  (forall s m e, h = S754_finite s m e -> e < emax (fmt f) - prec (fmt f)) ->
  mul (fmt f) (round_to (fmt f) (py_float 5 10)) (sub (fmt f) h (neg h)) = h.
Proof.
  intros V N B. destruct h as [s|s| |s m e]; try discriminate.
  - destruct f, s; reflexivity.
  - destruct f, s; reflexivity.
  - destruct (sub_neg_double (fmt f) s m e V (B s m e eq_refl))
      as (m2 & e2 & -> & H).
    apply mul_half; assumption.
Qed.

Lemma symmetric_mean (f : float_dtype) (h : spec_float) :
  is_nan h = false ->
  add (fmt f) (neg h) h = if isfinite h then S754_zero false else S754_nan.
Proof.
  intros N. destruct h as [s|s| |s m e]; try discriminate.
  - destruct s; reflexivity.
  - destruct s; reflexivity.
  - apply add_neg_zero.
Qed.

End ControlFacts.

Module PipelineFacts.
Import Numpy Gym Float Spec.
Import FloatFacts NumpyFacts ReformatFacts StepFacts Properties.

(** Zero lies between the bounds [-h] and [h] of a positive [h]. *)
Lemma clip_zero_symmetric (h : spec_float) :
  ltb (S754_zero false) h = true ->
  Float.clip (S754_zero false) (neg h) h = S754_zero false.
Proof.
  destruct h as [s|s| |s m e]; try discriminate;
    destruct s; try discriminate; reflexivity.
Qed.

Lemma zip3_clip_zeros (hs : list spec_float) :
  Forall (fun h => ltb (S754_zero false) h = true) hs ->
  zip3 Float.clip (repeat (S754_zero false) (length hs)) (map neg hs) hs
  = repeat (S754_zero false) (length hs).
Proof.
  intros F. induction F as [|h hs H F IH]; cbn [length repeat map zip3];
    [reflexivity|].
  rewrite clip_zero_symmetric by exact H. rewrite IH. reflexivity.
Qed.

Section PipelineFacts.

Variable invalid_cast : int_dtype -> spec_float -> Z.
Variables env info : Type.
Variable action_space : env -> option space.
Variable native_step : ndarray -> prog env (ndarray * pynum * bool * info).

(** An action of the dtype of the Box that clipping leaves alone is
    handed to the simulator as it is. *)
Lemma MujocoTask_step_within (self : env) (action lo hi : ndarray) :
  action_space self = Some (Box lo hi (dtype_of action)) ->
  Numpy.clip invalid_cast action (OArr lo) (OArr hi) = Ok action ->
  MujocoTask.step invalid_cast env info action_space native_step action self
  = delegate invalid_cast native_step action self.
Proof.
  intros E C.
  assert (R : Task.reformat_action invalid_cast env action_space self action
              = Ok action).
  { unfold Task.reformat_action. rewrite E. f_equal. apply astype_same. }
  unfold MujocoTask.step.
  unfold bind at 1, lift at 1. rewrite R.
  unfold bind at 1, lift at 1. rewrite E.
  cbn [MujocoTask.low MujocoTask.high rbind]. rewrite C.
  unfold bind, ret.
  rewrite (Task_step_unfold invalid_cast env info action_space native_step).
  rewrite R.
  rewrite <- (delegate_float32_idem invalid_cast env info native_step
                action self) at 2.
  destruct (delegate invalid_cast native_step action self)
    as [[[[[ns r] d] i]|e] self']; reflexivity.
Qed.

End PipelineFacts.

End PipelineFacts.

Module BroadcastFacts.
Import Numpy Gym Float Spec.
Import FloatFacts NumpyFacts ReformatFacts StepFacts ErrorFacts NormalFacts.

(** An array against a scalar and a vector: the shapes combine, or the
    array is a vector of another length, neither of length 1. *)
Lemma broadcast3_scalar_mid {A B} (g : A -> A -> A -> B) (a : array A)
    (lo : A) (his : list A) :
  (exists r, broadcast3 g a (Scalar lo) (Vector his) = Ok r) \/
  (exists m,
      ashape a = Rank1 m /\ m <> length his /\ m <> 1%nat /\
      length his <> 1%nat /\
      broadcast3 g a (Scalar lo) (Vector his) = Raise ValueError).
Proof.
  unfold broadcast3. destruct (ashape a) as [|m] eqn:Sa; cbn [ashape].
  - left. cbn [broadcast_shapes rbind]. eexists; reflexivity.
  - change (broadcast_shapes (Rank1 m) Rank0) with (Ok (Rank1 m)).
    cbn [rbind broadcast_shapes].
    destruct (Nat.eqb m (length his)) eqn:E1;
      [left; eexists; reflexivity|].
    destruct (Nat.eqb m 1) eqn:E2; [left; eexists; reflexivity|].
    destruct (Nat.eqb (length his) 1) eqn:E3; [left; eexists; reflexivity|].
    right. exists m. apply Nat.eqb_neq in E1, E2, E3. auto.
Qed.

Section BroadcastFacts.

Variable invalid_cast : int_dtype -> spec_float -> Z.

(** Against the vector [nvec - 1] a float action is clipped in
    float64 and an integer action in int64. *)
Lemma clip_dtype_nvec (a : ndarray) (ks : list Z) :
  clip_dtype a (OInt 0) (OArr (NdInt int64 (Vector ks)))
  = match a with
    | NdFloat _ _ => DFloat float64
    | NdInt _ _ => DInt int64
    end.
Proof.
  unfold clip_dtype. cbn [is_scalar_operand is_rank0 shape_of ashape].
  rewrite andb_false_r. destruct a as [f x|w x]; cbn [dtype_of].
  - rewrite operand_dtype_float_0. destruct f; reflexivity.
  - cbn [operand_dtype]. rewrite in_range_0. destruct w; reflexivity.
Qed.

Lemma clip_nvec_cases (nvec : list Z) (action : ndarray) :
  (exists r,
      Numpy.clip invalid_cast (round action) (OInt 0)
        (OArr (nvec_minus_1 nvec)) = Ok r) \/
  (exists m,
      shape_of action = Rank1 m /\ m <> length nvec /\ m <> 1%nat /\
      length nvec <> 1%nat /\
      Numpy.clip invalid_cast (round action) (OInt 0)
        (OArr (nvec_minus_1 nvec)) = Raise ValueError).
Proof.
  destruct action as [f a|w a]; cbn [round shape_of];
    unfold Numpy.clip, nvec_minus_1; rewrite clip_dtype_nvec.
  - cbn [operand_floats to_floats amap].
    match goal with
    | |- context [broadcast3 ?g ?x (Scalar ?lo) (Vector ?his)] =>
        destruct (broadcast3_scalar_mid g x lo his)
          as [(r & ->)|(m & Sa & M1 & M2 & M3 & ->)]
    end.
    + left. eexists; reflexivity.
    + right. exists m. rewrite !length_map in M1, M3.
      repeat split; try assumption.
      rewrite <- Sa.
      destruct f; cbn [to_floats float_dtype_eqb]; rewrite ?ashape_amap;
        reflexivity.
  - cbn [operand_ints to_ints int_dtype_eqb].
    match goal with
    | |- context [broadcast3 ?g ?x (Scalar ?lo) (Vector ?his)] =>
        destruct (broadcast3_scalar_mid g x lo his)
          as [(r & ->)|(m & Sa & M1 & M2 & M3 & ->)]
    end.
    + left. eexists; reflexivity.
    + right. exists m. rewrite !length_map in M1, M3.
      repeat split; try assumption.
      rewrite <- Sa.
      destruct w; cbn [to_ints int_dtype_eqb]; rewrite ?ashape_amap;
        reflexivity.
Qed.


Variable env : Type.
Variable action_space : env -> option space.

(** A vector that does not broadcast against [nvec]. *)
Lemma reformat_action_shape_mismatch (self : env)
    (nvec : list Z) (action : ndarray) (m : nat) :
  action_space self = Some (MultiDiscrete nvec) ->
  shape_of action = Rank1 m ->
  m <> length nvec -> m <> 1%nat -> length nvec <> 1%nat ->
  Task.reformat_action invalid_cast env action_space self action
  = Raise ValueError.
Proof.
  intros E Sh M1 M2 M3. unfold Task.reformat_action.
  rewrite E.
  assert (B : forall A B (g : A -> A -> A -> B) (a : array A) lo his,
             ashape a = Rank1 m -> length his = length nvec ->
             broadcast3 g a (Scalar lo) (Vector his) = Raise ValueError).
  { intros A B g a lo his Sa L. unfold broadcast3. rewrite Sa.
    cbn [ashape]. rewrite L.
    change (broadcast_shapes (Rank1 m) Rank0) with (Ok (Rank1 m)).
    cbn [rbind].
    rewrite broadcast_shapes_mismatch by assumption. reflexivity. }
  destruct action as [f a|w a]; cbn [shape_of] in Sh; cbn [round];
    unfold Numpy.clip, nvec_minus_1; rewrite clip_dtype_nvec.
  - cbn [operand_floats to_floats amap].
    rewrite B; [reflexivity | | rewrite !length_map; reflexivity].
    destruct f; cbn [to_floats float_dtype_eqb]; rewrite ?ashape_amap;
      exact Sh.
  - cbn [operand_ints to_ints int_dtype_eqb].
    rewrite B; [reflexivity | | rewrite !length_map; reflexivity].
    destruct w; cbn [to_ints int_dtype_eqb]; rewrite ?ashape_amap; exact Sh.
Qed.

End BroadcastFacts.

End BroadcastFacts.

(** ** Costs *)

Module CostProperties.
Import Torch Float Spec.
Import TorchFacts OrderFacts Properties CostFacts.

Section Costs.

Variable env : Type.
Variable dt : env -> spec_float.
Variable sum : list spec_float -> spec_float.
Variables x_threshold theta_threshold_radians : env -> spec_float.

(** X1. On a batch of N transitions the half-cheetah [get_cost] returns
    N costs, and the cost of row [i] is
    [-(-0.1 * sum of squared actions + (x_after - x_before) / dt)] in
    float32 arithmetic, the x positions being column 0 of the state and
    of the next state, and the sum of the squares of a row being what
    the reduction [sum] of the tensor library makes of them, whatever
    the order in which it adds. *)
Theorem HalfCheetahTask_get_cost_rows (self : env)
    (state action next_state : tensor2 spec_float) :
  (1 <= ncols state)%nat -> (1 <= ncols next_state)%nat ->
  len state = len next_state -> len action = len next_state ->
  exists cost done,
    HalfCheetahTask.get_cost env dt sum self state action next_state
    = Ok (cost, done) /\
    length cost = len next_state /\
    forall i srow arow nrow,
      nth_error (rows state) i = Some srow ->
      nth_error (rows action) i = Some arow ->
      nth_error (rows next_state) i = Some nrow ->
      nth_error cost i
      = Some (Float.neg
                (Float.add f32
                   (Float.mul f32 (scalar (Float.neg Lit.f_0_1))
                      (sum (map (fun a => Float.mul f32 a a) arow)))
                   (Float.div f32
                      (Float.sub f32 (nth 0 nrow S754_nan)
                         (nth 0 srow S754_nan))
                      (scalar (dt self))))).
Proof.
  intros C1 C2 L1 L2. unfold len in *.
  unfold HalfCheetahTask.get_cost.
  rewrite !column_ok by lia. cbn [rbind].
  rewrite binop_same_length by (rewrite !length_map; lia). cbn [rbind].
  rewrite binop_same_length
    by (rewrite !length_map, length_map2, !length_map, length_sum1_pow2;
        unfold len; lia).
  cbn [rbind]. eexists; eexists; split; [reflexivity|].
  rewrite !length_map, !length_map2, !length_map, !length_map2, !length_map,
    length_sum1_pow2.
  unfold len. split; [lia|].
  intros i srow arow nrow Hs Ha Hn.
  apply (map_nth_error Float.neg).
  apply nth_error_map2.
  - apply (map_nth_error
             (fun v => Float.mul f32 (scalar (Float.neg Lit.f_0_1)) v)).
    apply nth_error_sum1_pow2. exact Ha.
  - apply (map_nth_error (fun v => Float.div f32 v (scalar (dt self)))).
    apply nth_error_map2; apply nth_error_column; assumption.
Qed.

(** X2. On a batch of N transitions the swimmer [get_cost] returns N
    costs, and the cost of row [i] is
    [-((x_after - x_before) / dt + -0.0001 * sum of squared actions)]
    in float32 arithmetic, the sum of the squares of a row being what
    the reduction [sum] of the tensor library makes of them. *)
Theorem SwimmerTask_get_cost_rows (self : env)
    (state action next_state : tensor2 spec_float) :
  (1 <= ncols state)%nat -> (1 <= ncols next_state)%nat ->
  len state = len next_state -> len action = len next_state ->
  exists cost done,
    SwimmerTask.get_cost env dt sum self state action next_state
    = Ok (cost, done) /\
    length cost = len next_state /\
    forall i srow arow nrow,
      nth_error (rows state) i = Some srow ->
      nth_error (rows action) i = Some arow ->
      nth_error (rows next_state) i = Some nrow ->
      nth_error cost i
      = Some (Float.neg
                (Float.add f32
                   (Float.div f32
                      (Float.sub f32 (nth 0 nrow S754_nan)
                         (nth 0 srow S754_nan))
                      (scalar (dt self)))
                   (Float.mul f32 (scalar (Float.neg Lit.f_0_0001))
                      (sum (map (fun a => Float.mul f32 a a) arow))))).
Proof.
  intros C1 C2 L1 L2. unfold len in *.
  unfold SwimmerTask.get_cost.
  rewrite !column_ok by lia. cbn [rbind].
  rewrite binop_same_length by (rewrite !length_map; lia). cbn [rbind].
  rewrite binop_same_length
    by (rewrite !length_map, length_map2, !length_map, length_sum1_pow2;
        unfold len; lia).
  cbn [rbind]. eexists; eexists; split; [reflexivity|].
  rewrite !length_map, !length_map2, !length_map, !length_map2, !length_map,
    length_sum1_pow2.
  unfold len. split; [lia|].
  intros i srow arow nrow Hs Ha Hn.
  apply (map_nth_error Float.neg).
  apply nth_error_map2.
  - apply (map_nth_error (fun v => Float.div f32 v (scalar (dt self)))).
    apply nth_error_map2; apply nth_error_column; assumption.
  - apply (map_nth_error
             (fun v => Float.mul f32 (scalar (Float.neg Lit.f_0_0001)) v)).
    apply nth_error_sum1_pow2. exact Ha.
Qed.

(** X3. A batch that lacks a column the cost reads is an [IndexError]:
    the cart-pole needs columns 0 and 2 of the next state, the other
    tasks column 0 of the state and of the next state, and the ant
    column 2 of the next state as well. *)
Theorem get_cost_missing_column (self : env)
    (state action next_state : tensor2 spec_float) :
  ((ncols next_state < 3)%nat ->
   CartPoleTask.get_cost env x_threshold theta_threshold_radians
     self state action next_state = Raise IndexError) /\
  (ncols state = 0%nat \/ ncols next_state = 0%nat ->
   AntTask.get_cost env dt sum self state action next_state = Raise IndexError /\
   HalfCheetahTask.get_cost env dt sum self state action next_state
   = Raise IndexError /\
   SwimmerTask.get_cost env dt sum self state action next_state
   = Raise IndexError) /\
  ((1 <= ncols state)%nat -> (1 <= ncols next_state < 3)%nat ->
   len state = len next_state -> len action = len next_state ->
   AntTask.get_cost env dt sum self state action next_state = Raise IndexError).
Proof.
  split; [|split].
  - intros H. unfold CartPoleTask.get_cost.
    destruct (Nat.eq_dec (ncols next_state) 0) as [Z|NZ].
    + rewrite (column_raises next_state 0) by lia. reflexivity.
    + rewrite (column_ok next_state 0) by lia. cbn [rbind].
      rewrite (column_raises next_state 2) by lia. reflexivity.
  - intros H.
    unfold AntTask.get_cost, HalfCheetahTask.get_cost, SwimmerTask.get_cost.
    destruct (Nat.eq_dec (ncols state) 0) as [Z|NZ].
    + rewrite (column_raises state 0) by lia. auto.
    + rewrite (column_ok state 0) by lia. cbn [rbind].
      rewrite (column_raises next_state 0) by lia. auto.
  - intros C1 C2 L1 L2. unfold len in *. unfold AntTask.get_cost.
    rewrite !column_ok by lia. cbn [rbind].
    rewrite binop_same_length by (rewrite !length_map; lia). cbn [rbind].
    rewrite binop_same_length
      by (rewrite !length_map, length_map2, !length_map, length_sum1_pow2;
          unfold len; lia).
    cbn [rbind]. rewrite (column_raises next_state 2) by lia. reflexivity.
Qed.

(** X4. The ant, half-cheetah and swimmer costs pair the rows of the
    state with those of the next state: when the two batches differ in
    their number of rows and neither has exactly one, [get_cost] is a
    [RuntimeError]. *)
Theorem get_cost_row_mismatch (self : env)
    (state action next_state : tensor2 spec_float) :
  (1 <= ncols state)%nat -> (1 <= ncols next_state)%nat ->
  len state <> len next_state ->
  len state <> 1%nat -> len next_state <> 1%nat ->
  AntTask.get_cost env dt sum self state action next_state = Raise RuntimeError /\
  HalfCheetahTask.get_cost env dt sum self state action next_state
  = Raise RuntimeError /\
  SwimmerTask.get_cost env dt sum self state action next_state
  = Raise RuntimeError.
Proof.
  intros C1 C2 N N1 N2. unfold len in *.
  unfold AntTask.get_cost, HalfCheetahTask.get_cost, SwimmerTask.get_cost.
  rewrite !column_ok by lia. cbn [rbind].
  rewrite binop_raises by (rewrite !length_map; auto).
  auto.
Qed.

End Costs.

Section CartPoleNaN.

Variable env : Type.
Variables x_threshold theta_threshold_radians : env -> spec_float.

(** X5. The cart-pole cost does not see a NaN: a next state whose
    position and angle are NaN compares false with every threshold, so
    that its row is not done and costs [-1.0], as a row within the
    thresholds does. *)
Theorem CartPoleTask_get_cost_nan_row (self : env)
    (state action next_state : tensor2 spec_float) :
  (3 <= ncols next_state)%nat ->
  exists cost done,
    CartPoleTask.get_cost env x_threshold theta_threshold_radians
      self state action next_state = Ok (cost, done) /\
    forall i row,
      nth_error (rows next_state) i = Some row ->
      nth 0 row S754_nan = S754_nan -> nth 2 row S754_nan = S754_nan ->
      nth_error (rows done) i = Some [zero] /\
      nth_error cost i = Some (Float.neg one).
Proof.
  intros H.
  rewrite (CartPoleTask_get_cost_rows env x_threshold
             theta_threshold_radians) by exact H.
  eexists; eexists; split; [reflexivity|].
  intros i row Hr N0 N2. cbn [rows].
  assert (Fl : cart_pole_failed (x_threshold self)
                 (theta_threshold_radians self) row = false).
  { unfold cart_pole_failed, outside, gtb. rewrite N0, N2.
    rewrite !ltb_nan_l, !ltb_nan_r. reflexivity. }
  split.
  - erewrite map_nth_error by exact Hr. rewrite Fl. reflexivity.
  - erewrite map_nth_error by exact Hr. rewrite Fl. reflexivity.
Qed.

End CartPoleNaN.

End CostProperties.

(** ** The action normalizer and the steps *)

Module NormalizerProperties.
Import Numpy Gym Float Spec.
Import FloatFacts NearestFacts NumpyFacts ReformatFacts StepFacts ErrorFacts.
Import Properties NormalFacts BroadcastFacts.

Section Normalizer.

Variable invalid_cast : int_dtype -> spec_float -> Z.
Variables env info : Type.
Variable action_space : env -> option space.
Variable native_step : ndarray -> prog env (ndarray * pynum * bool * info).

Let reformat_action := Task.reformat_action invalid_cast env action_space.
Let MujocoTask_step :=
  MujocoTask.step invalid_cast env info action_space native_step.
Let CartPoleTask_step :=
  CartPoleTask.step invalid_cast env info action_space native_step.

(** X6. An integer action that already conforms to the declared space
    comes back unchanged from [reformat_action]: an int64 array within
    [[0, n - 1]] for a Discrete space, an int8 array of zeros and ones
    for a MultiBinary space, an int64 vector with element [i] within
    [[0, nvec_i - 1]] for a MultiDiscrete space. *)
Theorem reformat_action_conformant (self : env) :
  (forall n x,
      action_space self = Some (Discrete n) -> 1 <= n <= 2 ^ 63 ->
      Forall (fun z => 0 <= z <= n - 1) (elements x) ->
      reformat_action self (NdInt int64 x) = Ok (NdInt int64 x)) /\
  (forall n x,
      action_space self = Some (MultiBinary n) ->
      Forall (fun z => 0 <= z <= 1) (elements x) ->
      reformat_action self (NdInt int8 x) = Ok (NdInt int8 x)) /\
  (forall nvec zs,
      action_space self = Some (MultiDiscrete nvec) ->
      Forall (fun k => 1 <= k <= 2 ^ 63) nvec ->
      Forall2 (fun z k => 0 <= z <= k - 1) zs nvec ->
      reformat_action self (NdInt int64 (Vector zs))
      = Ok (NdInt int64 (Vector zs))).
Proof.
  split; [|split].
  - intros n x. apply reformat_action_Discrete_fixed.
  - intros n x. apply reformat_action_MultiBinary_fixed.
  - intros nvec zs. apply reformat_action_MultiDiscrete_fixed.
Qed.

(** X7. [reformat_action] is idempotent on actions of numbers: what it
    returns for an action without NaN (within the cardinalities where
    the clip is exact, and with one element for every dimension of a
    MultiDiscrete space) it returns again when applied to its own
    result, for every kind of action space. *)
Theorem reformat_action_idempotent (self : env) (action a1 : ndarray) :
  valid_array action ->
  Forall (fun it => item_is_nan it = false) (items action) ->
  match action_space self with
  | Some (Discrete n) => 1 <= n <= exact_limit action
  | Some (MultiDiscrete nvec) =>
      shape_of action = Rank1 (length nvec) /\
      Forall (fun k => 1 <= k <= exact_limit action) nvec
  | _ => True
  end ->
  reformat_action self action = Ok a1 ->
  reformat_action self a1 = Ok a1.
Proof.
  intros V N.
  pose proof (exact_limit_le action) as EL.
  destruct (action_space self) as [[low high dt|n|n|nvec|l|l]|] eqn:E;
    intros D R; unfold reformat_action, Task.reformat_action in R;
    rewrite E in R.
  - injection R as <-.
    unfold reformat_action, Task.reformat_action. rewrite E. f_equal.
    rewrite <- (dtype_of_astype invalid_cast dt action) at 1.
    apply astype_same.
  - destruct (clip_round_cast_scalar invalid_cast int64 (n - 1) action)
      as (r & Er & S & C).
    rewrite Er in R. injection R as <-.
    apply (reformat_action_Discrete_fixed invalid_cast env action_space
             self n r E); [lia|].
    apply (rounded_clamped_bounds invalid_cast int64 (n - 1) action);
      [exact N|].
    apply C; [exact V | lia |].
    apply andb_true_iff; split; apply Z.leb_le; cbn [int_min int_max]; lia.
  - destruct (clip_round_cast_scalar invalid_cast int8 1 action)
      as (r & Er & S & C).
    unfold MultiBinary_dtype in R. rewrite Er in R. injection R as <-.
    apply (reformat_action_MultiBinary_fixed invalid_cast env action_space
             self n r E).
    apply (rounded_clamped_bounds invalid_cast int8 1 action); [exact N|].
    apply C; [exact V | | reflexivity].
    split; [lia|]. destruct action as [[|] a|w a]; reflexivity.
  - destruct D as [Sh K].
    destruct (clip_round_cast_nvec invalid_cast nvec action Sh)
      as (r & Er & S & C).
    rewrite Er in R. injection R as <-.
    destruct r as [z|rs];
      [rewrite Sh in S; discriminate|].
    apply (reformat_action_MultiDiscrete_fixed invalid_cast env action_space
             self nvec rs E).
    + revert K. apply Forall_impl. intros k Hk. lia.
    + apply (rounded_clamped_each_bounds invalid_cast int64 nvec action);
        [| exact N | apply C; assumption].
      destruct action as [f [x|xs]|w [x|xs]]; cbn [shape_of ashape] in Sh;
        try discriminate; injection Sh as L; cbn [items elements];
        rewrite length_map; exact L.
  - discriminate.
  - discriminate.
  - injection R as <-. unfold reformat_action, Task.reformat_action.
    rewrite E. reflexivity.
Qed.

(** X8. On a cart-pole with a Discrete space of cardinality [n],
    [CartPoleTask.step] hands the simulator a rank-0 int64 action
    within [[0, n - 1]] for every float it is given, NaN and infinities
    included: [Task.step] underneath normalizes a second time and
    clamps whatever the first cast produced. *)
Theorem CartPoleTask_step_action_in_range (self : env) (n : Z)
    (f : float_dtype) (x : spec_float) :
  action_space self = Some (Discrete n) -> 1 <= n <= 2 ^ 63 ->
  exists z,
    0 <= z <= n - 1 /\
    CartPoleTask_step (NdFloat f (Vector [x])) self
    = match native_step (NdInt int64 (Scalar z)) self with
      | (Ok (next_state, reward, done, i), self') =>
          (Ok (np_float32 invalid_cast next_state,
               (if (done : bool) then PyInt 0 else reward), done, i), self')
      | (Raise e, self') => (Raise e, self')
      end.
Proof.
  intros E Hn.
  destruct (clip_round_cast_scalar invalid_cast int64 (n - 1)
              (NdFloat f (Scalar x))) as (r & Er & S & _).
  destruct r as [z0|]; [|discriminate]. clear S.
  assert (I : in_range int64 (n - 1) = true)
    by (apply andb_true_iff; split; apply Z.leb_le; cbn [int_min int_max]; lia).
  assert (R2 : reformat_action self (NdInt int64 (Scalar z0))
               = Ok (NdInt int64 (Scalar (clipZ z0 0 (n - 1))))).
  { unfold reformat_action, Task.reformat_action. rewrite E.
    cbn [round]. unfold Numpy.clip, clip_dtype, is_rank0.
    cbn [shape_of ashape andb is_scalar_operand dtype_of
           scalar_operand_dtype promote].
    cbn [to_ints operand_ints int_dtype_eqb].
    rewrite broadcast3_scalars. reflexivity. }
  exists (clipZ z0 0 (n - 1)). split; [unfold clipZ; lia|].
  unfold CartPoleTask_step, CartPoleTask.step.
  cbn [CartPoleTask.unpack map].
  unfold bind at 1, lift at 1. unfold bind at 1, lift at 1.
  unfold Task.reformat_action at 1. rewrite E, Er.
  unfold bind.
  rewrite (Task_step_unfold invalid_cast env info action_space native_step).
  fold reformat_action. rewrite R2.
  unfold ret, delegate.
  destruct (native_step _ self) as [[[[[ns rw] d] i]|e] self'];
    [rewrite np_float32_idem|]; reflexivity.
Qed.

(** X9. [reformat_action] raises [ValueError] in one case only: the
    space is MultiDiscrete and the action, which [np.clip] broadcasts
    against [nvec], is a vector whose length is neither that of [nvec]
    nor 1, with [nvec] of more than one dimension. Every other action
    for a MultiDiscrete space is accepted, an action of rank 0 or of one
    element included. *)
Theorem reformat_action_ValueError (self : env) (action : ndarray) :
  reformat_action self action = Raise ValueError <->
  exists nvec m,
    action_space self = Some (MultiDiscrete nvec) /\
    shape_of action = Rank1 m /\
    m <> length nvec /\ m <> 1%nat /\ length nvec <> 1%nat.
Proof.
  unfold reformat_action, Task.reformat_action. split.
  - destruct (action_space self) as [[low high dt|n|n|nvec|l|l]|];
      try discriminate.
    + destruct (clip_round_cast_scalar invalid_cast int64 (n - 1) action)
        as (r & -> & _). discriminate.
    + destruct (clip_round_cast_scalar invalid_cast int8 1 action)
        as (r & Er & _). unfold MultiBinary_dtype. rewrite Er.
      discriminate.
    + destruct (clip_nvec_cases invalid_cast nvec action)
        as [(r & ->)|(m & Sh & M1 & M2 & M3 & _)]; [discriminate|].
      intros _. exists nvec, m. auto.
  - intros (nvec & m & E & Sh & M1 & M2 & M3).
    apply (reformat_action_shape_mismatch invalid_cast env action_space
             self nvec action m); assumption.
Qed.

(** X10. [MujocoTask.step] reads the bounds of the action space, which
    only a Box has: on a task that declares a Discrete or a MultiBinary
    space it raises [AttributeError] for every action, after the
    normalization, and the simulator is not stepped. *)
Theorem MujocoTask_step_needs_Box (self : env) (n : Z) (action : ndarray) :
  action_space self = Some (Discrete n) \/
  action_space self = Some (MultiBinary n) ->
  MujocoTask_step action self = (Raise AttributeError, self).
Proof.
  intros E. unfold MujocoTask_step, MujocoTask.step.
  unfold bind at 1, lift at 1. unfold Task.reformat_action.
  destruct E as [E|E]; rewrite E.
  - destruct (clip_round_cast_scalar invalid_cast int64 (n - 1) action)
      as (r & Er & _).
    rewrite Er. reflexivity.
  - destruct (clip_round_cast_scalar invalid_cast int8 1 action)
      as (r & Er & _).
    unfold MultiBinary_dtype. rewrite Er. reflexivity.
Qed.

End Normalizer.

(** X11. [action.round()] rounds to the nearest integer, ties to the even
    one: every finite element [x] of a float action becomes the float of
    an integer [k] with [|x - k| <= 1/2], and [k] is even when [x] lies
    halfway between two integers (0.5 gives 0, 1.5 and 2.5 give 2); an
    infinite or NaN element, and an integer action, are left as they
    are. The shape is kept. *)
Theorem round_half_even :
  (forall (f : float_dtype) (a : array spec_float),
      valid_array (NdFloat f a) ->
      exists r,
        Numpy.round (NdFloat f a) = NdFloat f r /\
        ashape r = ashape a /\
        Forall2 (fun x y =>
                   (isfinite x = false -> y = x) /\
                   (forall q,
                       to_Q x = Some q ->
                       exists k,
                         represents (fmt f) y k /\
                         (Qabs (q - inject_Z k) <= 1 # 2)%Q /\
                         ((Qabs (q - inject_Z k) == 1 # 2)%Q ->
                          Z.even k = true)))
          (elements a) (elements r)) /\
  (forall (w : int_dtype) (a : array Z),
      Numpy.round (NdInt w a) = NdInt w a).
Proof.
  split; [|reflexivity].
  intros f a V. cbn [valid_array] in V. cbn [Numpy.round].
  eexists; split; [reflexivity|]. split; [apply ashape_amap|].
  rewrite elements_amap. rewrite <- (map_id (elements a)) at 1.
  apply Forall2_map_both with (Q := fun v => valid (fmt f) v = true);
    [exact V|].
  intros x Vx.
  pose proof (rint_denotes (fmt f) (fmt_prec_gt_1 f) (fmt_prec_lt_emax f) x Vx)
    as D.
  split.
  - intros Fx. destruct x as [s|s| |s m e]; try discriminate; reflexivity.
  - intros q Hq.
    destruct (nearest x) as [|s|k] eqn:Nx;
      try (destruct x; discriminate).
    exists k. split; [exact D|].
    apply (nearest_is_nearest x q k Hq Nx).
Qed.

End NormalizerProperties.

(** ** Reset states and the simulator state *)

Module StateProperties.
Import Numpy Torch Float.
Import NumpyFacts ReformatFacts TorchFacts ResetFacts SamplerFacts.

Section Samplers.

Variables env rng : Type.
Variable uniform : spec_float -> spec_float -> rng -> spec_float * rng.
Variable normal : rng -> spec_float * rng.
Variables nq nv : env -> nat.
Variables init_qpos init_qvel : env -> list spec_float.

(** X12. A negative number of reset states is a [RuntimeError] for
    every task, and the task and the random generator are left as they
    were: nothing is drawn. *)
Theorem get_reset_state_negative_count (w : world env rng) (n : Z) :
  n < 0 ->
  CartPoleTask.get_reset_state env rng uniform n w = (Raise RuntimeError, w) /\
  AntTask.get_reset_state env nq nv init_qpos init_qvel rng uniform normal n w
  = (Raise RuntimeError, w) /\
  HalfCheetahTask.get_reset_state env nq nv init_qpos init_qvel
    rng uniform normal n w
  = (Raise RuntimeError, w) /\
  SwimmerTask.get_reset_state env nq nv init_qpos init_qvel rng uniform n w
  = (Raise RuntimeError, w).
Proof.
  intros Hn.
  unfold CartPoleTask.get_reset_state, AntTask.get_reset_state,
    HalfCheetahTask.get_reset_state, SwimmerTask.get_reset_state,
    FloatTensor_uniform_, bind.
  cbv beta.
  rewrite !with_generator_negative by exact Hn. auto.
Qed.

(** X13. Zero reset states are an empty batch: the cart-pole returns
    the tensor of shape [[0, 4]], the other tasks (whose initial
    position and velocity have [nq] and [nv] elements) the tensor of
    shape [[0, nq + nv]], and the random generator has not advanced. *)
Theorem get_reset_state_zero (w : world env rng) :
  CartPoleTask.get_reset_state env rng uniform 0 w = (Ok (Tensor2 4 []), w) /\
  (length (init_qpos (self w)) = nq (self w) ->
   length (init_qvel (self w)) = nv (self w) ->
   AntTask.get_reset_state env nq nv init_qpos init_qvel rng uniform normal 0 w
   = (Ok (Tensor2 (nq (self w) + nv (self w)) []), w) /\
   HalfCheetahTask.get_reset_state env nq nv init_qpos init_qvel
     rng uniform normal 0 w
   = (Ok (Tensor2 (nq (self w) + nv (self w)) []), w) /\
   SwimmerTask.get_reset_state env nq nv init_qpos init_qvel rng uniform 0 w
   = (Ok (Tensor2 (nq (self w) + nv (self w)) []), w)).
Proof.
  split.
  - apply with_generator_zero.
  - intros Lq Lv.
    assert (Q : forall B (g : spec_float -> B -> spec_float),
               binop_rows g (tensor (init_qpos (self w)))
                 (Tensor2 (nq (self w)) []) = Ok (Tensor2 (nq (self w)) []))
      by (intros; apply binop_rows_empty; unfold tensor;
          rewrite length_map; exact Lq).
    assert (V : forall B (g : spec_float -> B -> spec_float),
               binop_rows g (tensor (init_qvel (self w)))
                 (Tensor2 (nv (self w)) []) = Ok (Tensor2 (nv (self w)) []))
      by (intros; apply binop_rows_empty; unfold tensor;
          rewrite length_map; exact Lv).
    unfold AntTask.get_reset_state, HalfCheetahTask.get_reset_state,
      SwimmerTask.get_reset_state, FloatTensor_uniform_, randn, bind, lift.
    cbv beta.
    rewrite !with_generator_zero. cbv beta iota. rewrite !Q. cbv beta iota.
    unfold map_tensor2. cbn [ncols rows map]. rewrite !V. cbv beta iota.
    auto.
Qed.

End Samplers.

Section SetNewState.

Variable env : Type.
Variables nq nv : env -> nat.
Variable set_state : ndarray -> ndarray -> prog env unit.

(** X15. [set_new_state] reads the first [nq + nv] elements of the
    state and ignores the rest: on a flat state of at least [nq + nv]
    elements, float or integer, it does what it does on
    [state[:nq + nv]], whatever the simulator. A state of rank 0 cannot
    be sliced: [IndexError], the simulator untouched. *)
Theorem set_new_state_prefix (self : env) (state : ndarray) :
  (forall m,
      shape_of state = Rank1 m -> (nq self + nv self <= m)%nat ->
      exists prefix,
        MujocoTask.slice state 0 (nq self + nv self) = Ok prefix /\
        shape_of prefix = Rank1 (nq self + nv self) /\
        MujocoTask.set_new_state env nq nv set_state state self
        = MujocoTask.set_new_state env nq nv set_state prefix self) /\
  (shape_of state = Rank0 ->
   MujocoTask.set_new_state env nq nv set_state state self
   = (Raise IndexError, self)).
Proof.
  split.
  - intros m Sh Hm.
    assert (P : forall A (xs : list A),
               length xs = m ->
               length (MujocoTask.python_slice xs 0 (nq self + nv self))
               = (nq self + nv self)%nat /\
               MujocoTask.python_slice
                 (MujocoTask.python_slice xs 0 (nq self + nv self))
                 0 (nq self)
               = MujocoTask.python_slice xs 0 (nq self) /\
               MujocoTask.python_slice
                 (MujocoTask.python_slice xs 0 (nq self + nv self))
                 (nq self) (nq self + nv self)
               = MujocoTask.python_slice xs (nq self) (nq self + nv self)).
    { intros A xs L. unfold MujocoTask.python_slice.
      rewrite !Nat.sub_0_r. cbn [skipn].
      replace (nq self + nv self - nq self)%nat with (nv self) by lia.
      split; [rewrite length_firstn; lia|]. split.
      - rewrite firstn_firstn. f_equal. lia.
      - rewrite <- firstn_skipn_comm, firstn_firstn. f_equal. lia. }
    destruct state as [f [x|xs]|wd [x|xs]]; cbn [shape_of ashape] in Sh;
      try discriminate; injection Sh as L;
      destruct (P _ xs L) as (P1 & P2 & P3);
      cbn [MujocoTask.slice]; eexists; (split; [reflexivity|]);
      (split; [cbn [shape_of ashape]; rewrite P1; reflexivity|]);
      unfold MujocoTask.set_new_state, bind, lift;
      cbn [MujocoTask.slice]; rewrite P2, P3; reflexivity.
  - destruct state as [f [x|xs]|wd [x|xs]]; cbn [shape_of ashape];
      try discriminate; intros _; reflexivity.
Qed.

End SetNewState.

End StateProperties.

(** ** Control parameters *)

Module ControlProperties.
Import Numpy Gym Float.
Import FloatFacts NumpyFacts ReformatFacts HalvingFacts ControlFacts.

Section ControlParams.

Variable invalid_cast : int_dtype -> spec_float -> Z.
Variable env : Type.
Variable action_space : env -> option space.

Let get_control_params :=
  MujocoTask.get_control_params invalid_cast env action_space.

(** X16. On a task that declares a Box whose bounds have one shape,
    [MujocoTask.get_control_params] returns the integer 0 for [mu], a
    [sigma] of the shape of the bounds and a float32 [u_init] of that
    shape. For bounds of rank 1 [sigma] has their common float dtype
    (float64 for integer bounds); for bounds of rank 0 it is float64,
    whatever their dtype, since an array of rank 0 counts as a scalar
    against the Python float [0.5]. With no action space, or one that
    is not a Box, it raises [AttributeError]. *)
Theorem get_control_params_shape (self : env) :
  (forall low high dt,
      action_space self = Some (Box low high dt) ->
      shape_of low = shape_of high ->
      exists sigma u_init,
        get_control_params self = Ok (PyInt 0, sigma, u_init) /\
        shape_of sigma = shape_of low /\
        dtype_of sigma
        = match shape_of low with
          | Rank0 => DFloat float64
          | Rank1 _ =>
              match promote (dtype_of high) (dtype_of low) with
              | DFloat f => DFloat f
              | DInt _ => DFloat float64
              end
          end /\
        shape_of u_init = shape_of low /\
        dtype_of u_init = DFloat float32) /\
  (match action_space self with
   | Some (Box _ _ _) => True
   | _ => get_control_params self = Raise AttributeError
   end).
Proof.
  unfold get_control_params, MujocoTask.get_control_params. split.
  - intros low high dt E Sh. rewrite E.
    cbn [MujocoTask.low MujocoTask.high rbind].
    destruct (ufunc2_same_shape invalid_cast Float.sub Z.sub high low
                (eq_sym Sh)) as (d & Ed & Sd & Dd).
    unfold np_subtract. rewrite Ed. cbn [rbind].
    set (sigma := np_multiply (py_float 5 10) d).
    assert (Ss : shape_of sigma = shape_of low)
      by (unfold sigma; rewrite shape_of_np_multiply; congruence).
    destruct (ufunc2_same_shape invalid_cast Float.add Z.add low sigma
                (eq_sym Ss)) as (mean & Em & Sm & _).
    unfold np_add. rewrite Em. cbn [rbind].
    rewrite <- Sm, np_full_same_shape. cbn [rbind].
    exists sigma, (astype invalid_cast (DFloat float32) mean).
    split; [reflexivity|]. split; [congruence|]. split; [|split].
    + unfold sigma. rewrite <- Dd, Sm, Sh, <- Sd.
      destruct d as [f [x|xs]|w [z|zs]]; reflexivity.
    + rewrite shape_of_astype. reflexivity.
    + reflexivity.
  - destruct (action_space self) as [[low high dt|n|n|nvec|l|l]|];
      try exact I; reflexivity.
Qed.

(** X17. For a Box of float bounds that are symmetric, [low = -high]
    dimension by dimension (the bounds of the ant, the half-cheetah
    and the swimmer are [-1] and [1]), [get_control_params] returns
    [sigma = high] exactly and a [u_init] that is [+0.0] in every
    dimension with a finite bound and NaN in every dimension with an
    infinite one. The finite bounds are below the largest binade of
    their format, so that [high - low] does not overflow. *)
Theorem get_control_params_symmetric (self : env) (f : float_dtype)
    (hs : list spec_float) (dt : dtype) :
  action_space self
  = Some (Box (NdFloat f (Vector (map Float.neg hs)))
              (NdFloat f (Vector hs)) dt) ->
  Forall (fun h =>
            valid (fmt f) h = true /\ is_nan h = false /\
            forall s m e,
              h = S754_finite s m e -> e < emax (fmt f) - prec (fmt f))
    hs ->
  get_control_params self
  = Ok (PyInt 0,
        NdFloat f (Vector hs),
        NdFloat float32
          (Vector (map (fun h => if isfinite h then S754_zero false
                                 else S754_nan) hs))).
Proof.
  intros E F. unfold get_control_params, MujocoTask.get_control_params.
  rewrite E. cbn [MujocoTask.low MujocoTask.high rbind].
  assert (P : promote (DFloat f) (DFloat f) = DFloat f)
    by (destruct f; reflexivity).
  unfold np_subtract, ufunc2. cbn [dtype_of]. rewrite P.
  cbn [to_floats]. rewrite float_dtype_eqb_refl.
  rewrite broadcast2_same_shape
    by (cbn [ashape]; rewrite length_map; reflexivity).
  cbn [rbind amap2 elements np_multiply amap].
  rewrite map_combine_map, map_map. cbn [fst snd].
  rewrite (map_id_Forall _ _ hs (fun h H => symmetric_sigma f h
             (proj1 H) (proj1 (proj2 H)) (proj2 (proj2 H))) F).
  unfold np_add, ufunc2. cbn [dtype_of]. rewrite P.
  cbn [to_floats]. rewrite float_dtype_eqb_refl.
  rewrite broadcast2_same_shape
    by (cbn [ashape]; rewrite length_map; reflexivity).
  cbn [rbind amap2 elements].
  rewrite map_combine_map_l. cbn [fst snd].
  assert (M : map (fun x => add (fmt f) (neg x) x) hs
              = map (fun h => if isfinite h then S754_zero false
                              else S754_nan) hs).
  { clear E. induction F as [|h hs [_ [N _]] F IH]; cbn [map];
      [reflexivity|].
    rewrite symmetric_mean by exact N. rewrite IH. reflexivity. }
  rewrite M.
  set (ms := map (fun h => if isfinite h then S754_zero false else S754_nan) hs).
  assert (Sh : shape_of (NdFloat f (Vector (map neg hs)))
               = shape_of (NdFloat f (Vector ms)))
    by (cbn [shape_of ashape]; unfold ms; rewrite !length_map; reflexivity).
  rewrite Sh, np_full_same_shape. cbn [rbind astype to_floats].
  do 3 f_equal.
  destruct f; cbn [float_dtype_eqb]; [reflexivity|].
  cbn [amap]. f_equal. unfold ms. rewrite map_map.
  apply map_ext. intros h. destruct (isfinite h); reflexivity.
Qed.

End ControlParams.

End ControlProperties.

(** ** From the control parameters to the step *)

Module PipelineProperties.
Import Numpy Gym Float Spec.
Import FloatFacts NumpyFacts ReformatFacts StepFacts.
Import HalvingFacts ControlFacts PipelineFacts.

Section Pipeline.

Variable invalid_cast : int_dtype -> spec_float -> Z.
Variables env info : Type.
Variable action_space : env -> option space.
Variable native_step : ndarray -> prog env (ndarray * pynum * bool * info).

(** X18. The initial control is an action the step accepts as it is:
    on a task with a float32 Box of bounds [-h_i] and [h_i], every
    [h_i] positive and finite (below the largest binade), the [u_init]
    of [get_control_params] is the zero vector, and [MujocoTask.step]
    on it steps the simulator with that very vector, nothing cast and
    nothing clipped. *)
Theorem u_init_steps_unchanged (self : env) (hs : list spec_float) :
  action_space self
  = Some (Box (NdFloat float32 (Vector (map Float.neg hs)))
              (NdFloat float32 (Vector hs)) (DFloat float32)) ->
  Forall (fun h =>
            valid binary32 h = true /\ isfinite h = true /\
            ltb (S754_zero false) h = true /\
            forall s m e,
              h = S754_finite s m e -> e < emax binary32 - prec binary32)
    hs ->
  let u_init :=
    NdFloat float32 (Vector (repeat (S754_zero false) (length hs))) in
  MujocoTask.get_control_params invalid_cast env action_space self
  = Ok (PyInt 0, NdFloat float32 (Vector hs), u_init) /\
  MujocoTask.step invalid_cast env info action_space native_step u_init self
  = delegate invalid_cast native_step u_init self.
Proof.
  intros E F u_init. split.
  - unfold MujocoTask.get_control_params.
    rewrite E. cbn [MujocoTask.low MujocoTask.high rbind].
    unfold np_subtract, ufunc2. cbn [dtype_of promote to_floats float_dtype_eqb].
    rewrite broadcast2_same_shape
      by (cbn [ashape]; rewrite length_map; reflexivity).
    cbn [rbind amap2 elements np_multiply amap].
    rewrite map_combine_map, map_map. cbn [fst snd].
    assert (S : map (fun x => mul (fmt float32)
                               (round_to (fmt float32) (py_float 5 10))
                               (sub (fmt float32) x (neg x))) hs = hs).
    { assert (F' : Forall (fun h =>
                             valid (fmt float32) h = true /\
                             is_nan h = false /\
                             forall s m e,
                               h = S754_finite s m e ->
                               e < emax (fmt float32) - prec (fmt float32))
                     hs).
      { revert F. apply Forall_impl. intros h (V & Fh & _ & B).
        split; [exact V|]. split; [|exact B].
        destruct h; try discriminate; reflexivity. }
      apply (map_id_Forall _ _ hs
               (fun h H => symmetric_sigma float32 h (proj1 H)
                             (proj1 (proj2 H)) (proj2 (proj2 H))) F'). }
    rewrite S.
    unfold np_add, ufunc2. cbn [dtype_of promote to_floats float_dtype_eqb].
    rewrite broadcast2_same_shape
      by (cbn [ashape]; rewrite length_map; reflexivity).
    cbn [rbind amap2 elements].
    rewrite map_combine_map_l. cbn [fst snd].
    assert (M : map (fun x => add (fmt float32) (neg x) x) hs
                = repeat (S754_zero false) (length hs)).
    { clear E S. induction F as [|h hs (_ & Fh & _) F IH];
        cbn [map length repeat]; [reflexivity|].
      rewrite symmetric_mean
        by (destruct h; try discriminate; reflexivity).
      rewrite Fh, IH. reflexivity. }
    rewrite M.
    assert (Sh : shape_of (NdFloat float32 (Vector (map neg hs)))
                 = shape_of (NdFloat float32
                               (Vector (repeat (S754_zero false) (length hs)))))
      by (cbn [shape_of ashape]; rewrite length_map, repeat_length;
          reflexivity).
    rewrite Sh, np_full_same_shape. reflexivity.
  - apply (MujocoTask_step_within invalid_cast env info action_space
             native_step self u_init
             (NdFloat float32 (Vector (map Float.neg hs)))
             (NdFloat float32 (Vector hs))); [exact E|].
    unfold u_init, Numpy.clip, clip_dtype, is_rank0.
    cbn [shape_of ashape andb dtype_of operand_dtype promote to_floats
           operand_floats float_dtype_eqb].
    rewrite broadcast3_vectors
      by (rewrite ?length_map, ?repeat_length; lia).
    cbn [rbind]. rewrite zip3_clip_zeros; [reflexivity|].
    revert F. apply Forall_impl. intros h H. apply H.
Qed.

End Pipeline.

End PipelineProperties.

(** ** The further properties on concrete inputs *)

Module MoreWitnesses.
Import Numpy Gym Torch.

Lemma HalfCheetahTask_get_cost_rows_witness :
  exists cost done,
    HalfCheetahTask.get_cost unit Example.dt Example.sum tt
      (Tensor2 2 [[Example.f32 0 1; Example.f32 1 1]])
      (Tensor2 1 [[Example.f32 1 2]])
      (Tensor2 2 [[Example.f32 1 10; Example.f32 1 1]])
    = Ok (cost, done) /\
    length cost = 1%nat.
Proof.
  destruct (CostProperties.HalfCheetahTask_get_cost_rows unit Example.dt Example.sum tt
              (Tensor2 2 [[Example.f32 0 1; Example.f32 1 1]])
              (Tensor2 1 [[Example.f32 1 2]])
              (Tensor2 2 [[Example.f32 1 10; Example.f32 1 1]])
              ltac:(cbn; lia) ltac:(cbn; lia) eq_refl eq_refl)
    as (cost & done & E & L & _).
  exists cost, done. split; [exact E | exact L].
Defined.

Lemma SwimmerTask_get_cost_rows_witness :
  exists cost done,
    SwimmerTask.get_cost unit Example.dt Example.sum tt
      (Tensor2 2 [[Example.f32 0 1; Example.f32 1 1]])
      (Tensor2 1 [[Example.f32 1 2]])
      (Tensor2 2 [[Example.f32 1 10; Example.f32 1 1]])
    = Ok (cost, done) /\
    length cost = 1%nat.
Proof.
  destruct (CostProperties.SwimmerTask_get_cost_rows unit Example.dt Example.sum tt
              (Tensor2 2 [[Example.f32 0 1; Example.f32 1 1]])
              (Tensor2 1 [[Example.f32 1 2]])
              (Tensor2 2 [[Example.f32 1 10; Example.f32 1 1]])
              ltac:(cbn; lia) ltac:(cbn; lia) eq_refl eq_refl)
    as (cost & done & E & L & _).
  exists cost, done. split; [exact E | exact L].
Defined.

Lemma get_cost_missing_column_witness :
  CartPoleTask.get_cost unit Example.x_threshold
Example.theta_threshold_radians tt (zeros 1 4) (zeros 1 1) (zeros 1 2)
= Raise IndexError /\
AntTask.get_cost unit Example.dt Example.sum tt (zeros 1 0) (zeros 1 1) (zeros 1 3)
= Raise IndexError /\
AntTask.get_cost unit Example.dt Example.sum tt (zeros 1 4) (zeros 1 1) (zeros 1 2)
= Raise IndexError.
Proof.
  destruct (CostProperties.get_cost_missing_column unit Example.dt
Example.sum Example.x_threshold Example.theta_threshold_radians tt
(zeros 1 4) (zeros 1 1) (zeros 1 2)) as (C & _ & H).
destruct (CostProperties.get_cost_missing_column unit Example.dt
Example.sum Example.x_threshold Example.theta_threshold_radians tt
(zeros 1 0) (zeros 1 1) (zeros 1 3)) as (_ & A & _).
split; [apply C; cbn; lia|].
split; [apply (proj1 (A (or_introl eq_refl)))|].
apply H; cbn; try lia; reflexivity.
Defined.

Lemma get_cost_row_mismatch_witness :
  HalfCheetahTask.get_cost unit Example.dt Example.sum tt (zeros 2 3) (zeros 2 1) (zeros 3 3)
  = Raise RuntimeError.
Proof.
  apply (CostProperties.get_cost_row_mismatch unit Example.dt Example.sum tt
           (zeros 2 3) (zeros 2 1) (zeros 3 3));
    cbn; try lia; discriminate.
Defined.

Lemma CartPoleTask_get_cost_nan_row_witness :
  exists cost done,
    CartPoleTask.get_cost unit Example.x_threshold
Example.theta_threshold_radians tt (zeros 1 4) (zeros 1 1)
(Tensor2 4 [[Example.nan; zero; Example.nan; zero]])
= Ok (cost, done) /\
nth_error (rows done) 0 = Some [zero] /\
nth_error cost 0 = Some (Float.neg one).
Proof.
  destruct (CostProperties.CartPoleTask_get_cost_nan_row unit
Example.x_threshold Example.theta_threshold_radians tt
(zeros 1 4) (zeros 1 1)
(Tensor2 4 [[Example.nan; zero; Example.nan; zero]])
ltac:(cbn; lia)) as (cost & done & E & R).
exists cost, done. split; [exact E|].
apply (R 0%nat [Example.nan; zero; Example.nan; zero]); reflexivity.
Defined.

Lemma reformat_action_conformant_witness :
  Task.reformat_action Example.invalid_cast (option space)
Example.action_space (Some (Discrete 3)) (NdInt int64 (Vector [0; 2; 1]))
= Ok (NdInt int64 (Vector [0; 2; 1])) /\
Task.reformat_action Example.invalid_cast (option space)
Example.action_space (Some (MultiDiscrete [3; 5]))
(NdInt int64 (Vector [2; 4]))
= Ok (NdInt int64 (Vector [2; 4])).
Proof.
  split.
  - apply (proj1 (NormalizerProperties.reformat_action_conformant
Example.invalid_cast (option space) Example.action_space
(Some (Discrete 3))) 3 (Vector [0; 2; 1]));
[reflexivity | lia | repeat constructor; lia].
- apply (proj2 (proj2 (NormalizerProperties.reformat_action_conformant
Example.invalid_cast (option space)
Example.action_space
(Some (MultiDiscrete [3; 5])))) [3; 5] [2; 4]);
[reflexivity | repeat constructor; lia | repeat constructor; lia].
Defined.

Lemma reformat_action_idempotent_witness :
  Task.reformat_action Example.invalid_cast (option space)
Example.action_space (Some (Discrete 2)) Example.action1
= Ok (NdInt int64 (Vector [1])) /\
Task.reformat_action Example.invalid_cast (option space)
Example.action_space (Some (Discrete 2)) (NdInt int64 (Vector [1]))
= Ok (NdInt int64 (Vector [1])).
Proof.
  assert (R : Task.reformat_action Example.invalid_cast (option space)
Example.action_space (Some (Discrete 2)) Example.action1
= Ok (NdInt int64 (Vector [1])))
by (vm_compute; reflexivity).
split; [exact R|].
apply (NormalizerProperties.reformat_action_idempotent
Example.invalid_cast (option space) Example.action_space
(Some (Discrete 2)) Example.action1 (NdInt int64 (Vector [1])));
[repeat constructor | repeat constructor
| vm_compute; split; discriminate | exact R].
Defined.

Lemma CartPoleTask_step_action_in_range_witness :
  exists z,
    0 <= z <= 2 - 1 /\
    CartPoleTask.step Example.invalid_cast nat unit Example.discrete_space
Example.native_step (NdFloat float64 (Vector [Example.nan])) 0%nat
= match Example.native_step (NdInt int64 (Scalar z)) 0%nat with
| (Ok (next_state, reward, done, i), self') =>
    (Ok (np_float32 Example.invalid_cast next_state,
         (if (done : bool) then PyInt 0 else reward), done, i), self')
| (Raise e, self') => (Raise e, self')
end.
Proof.
  apply (NormalizerProperties.CartPoleTask_step_action_in_range
Example.invalid_cast nat unit Example.discrete_space
Example.native_step 0%nat 2 float64 Example.nan);
[reflexivity | lia].
Defined.

Lemma reformat_action_ValueError_witness :
  Task.reformat_action Example.invalid_cast (option space)
Example.action_space (Some (MultiDiscrete [3; 5; 2])) Example.action2
= Raise ValueError.
Proof.
  apply (proj2 (NormalizerProperties.reformat_action_ValueError
Example.invalid_cast (option space) Example.action_space
(Some (MultiDiscrete [3; 5; 2])) Example.action2)).
exists [3; 5; 2], 2%nat.
repeat split; try reflexivity; discriminate.
Defined.

Lemma MujocoTask_step_needs_Box_witness :
  MujocoTask.step Example.invalid_cast nat unit Example.discrete_space
Example.native_step Example.action1 0%nat
= (Raise AttributeError, 0%nat).
Proof.
  apply (NormalizerProperties.MujocoTask_step_needs_Box
Example.invalid_cast nat unit Example.discrete_space
Example.native_step 0%nat 2 Example.action1 (or_introl eq_refl)).
Defined.

Lemma round_half_even_witness :
  valid_array (NdFloat float64 (Vector [Example.f64 5 2])) /\
  exists r,
    Numpy.round (NdFloat float64 (Vector [Example.f64 5 2]))
    = NdFloat float64 r /\
    ashape r = Rank1 1.
Proof.
  assert (V : valid_array (NdFloat float64 (Vector [Example.f64 5 2])))
    by (repeat constructor).
  split; [exact V|].
  destruct (proj1 NormalizerProperties.round_half_even float64
              (Vector [Example.f64 5 2]) V) as (r & E & S & _).
  exists r. split; [exact E | exact S].
Defined.

Lemma get_reset_state_negative_count_witness :
  -1 < 0 /\
  SwimmerTask.get_reset_state unit Example.nq Example.nv Example.init_qpos
Example.init_qvel nat Example.uniform (-1) (World tt 0%nat)
= (Raise RuntimeError, World tt 0%nat).
Proof.
  assert (H : -1 < 0) by reflexivity.
  split; [exact H|].
  apply (StateProperties.get_reset_state_negative_count unit nat
Example.uniform Example.normal Example.nq Example.nv
Example.init_qpos Example.init_qvel (World tt 0%nat) (-1) H).
Defined.

Lemma get_reset_state_zero_witness :
  AntTask.get_reset_state unit Example.nq Example.nv Example.init_qpos
Example.init_qvel nat Example.uniform Example.normal 0 (World tt 0%nat)
= (Ok (Tensor2 3 []), World tt 0%nat).
Proof.
  apply (proj2 (StateProperties.get_reset_state_zero unit nat
Example.uniform Example.normal Example.nq Example.nv
Example.init_qpos Example.init_qvel (World tt 0%nat))
eq_refl eq_refl).
Defined.

Lemma set_new_state_prefix_witness :
  exists prefix,
    MujocoTask.slice (NdInt int64 (Vector [1; 2; 3; 4])) 0 (2 + 1)
    = Ok prefix /\
    shape_of prefix = Rank1 (2 + 1) /\
    MujocoTask.set_new_state Example.sim Example.sim_nq Example.sim_nv
Example.sim_set_state (NdInt int64 (Vector [1; 2; 3; 4]))
(Example.Sim [] [])
= MujocoTask.set_new_state Example.sim Example.sim_nq Example.sim_nv
Example.sim_set_state prefix (Example.Sim [] []).
Proof.
  apply (proj1 (StateProperties.set_new_state_prefix Example.sim
Example.sim_nq Example.sim_nv Example.sim_set_state
(Example.Sim [] [])
(NdInt int64 (Vector [1; 2; 3; 4]))) 4%nat);
[reflexivity | unfold Example.sim_nq, Example.sim_nv; lia].
Defined.

Lemma get_control_params_shape_witness :
  exists sigma u_init,
    MujocoTask.get_control_params Example.invalid_cast (option space)
Example.action_space (Some Example.box)
= Ok (PyInt 0, sigma, u_init) /\
shape_of sigma = Rank1 2 /\
shape_of u_init = Rank1 2 /\
dtype_of u_init = DFloat float32.
Proof.
  destruct (proj1 (ControlProperties.get_control_params_shape
Example.invalid_cast (option space) Example.action_space
(Some Example.box))
(NdFloat float32 (Vector [Example.f32 (-1) 1; Example.f32 (-1) 1]))
(NdFloat float32 (Vector [Example.f32 1 1; Example.f32 1 1]))
(DFloat float32) eq_refl eq_refl)
as (sigma & u & E & S & _ & Su & Du).
exists sigma, u. repeat split; assumption.
Defined.

Lemma get_control_params_symmetric_witness :
  MujocoTask.get_control_params Example.invalid_cast unit
    (fun _ =>
       Some (Box (NdFloat float32
                    (Vector (map Float.neg
                               [Example.f32 1 1; S754_infinity false])))
                 (NdFloat float32
                    (Vector [Example.f32 1 1; S754_infinity false]))
                 (DFloat float32)))
    tt
  = Ok (PyInt 0,
        NdFloat float32 (Vector [Example.f32 1 1; S754_infinity false]),
        NdFloat float32 (Vector [S754_zero false; S754_nan])).
Proof.
  apply (ControlProperties.get_control_params_symmetric Example.invalid_cast
           unit
           (fun _ =>
              Some (Box (NdFloat float32
                           (Vector (map Float.neg
                                      [Example.f32 1 1; S754_infinity false])))
                        (NdFloat float32
                           (Vector [Example.f32 1 1; S754_infinity false]))
                        (DFloat float32)))
           tt float32 [Example.f32 1 1; S754_infinity false] (DFloat float32)
           eq_refl).
  repeat constructor; try (intros s m e H; vm_compute in H);
    try discriminate.
  injection H as _ _ <-. reflexivity.
Defined.

Lemma u_init_steps_unchanged_witness :
  MujocoTask.get_control_params Example.invalid_cast nat Example.box_space 0%nat
  = Ok (PyInt 0,
        NdFloat float32 (Vector [Example.f32 1 1; Example.f32 1 1]),
        NdFloat float32 (Vector [S754_zero false; S754_zero false])) /\
  MujocoTask.step Example.invalid_cast nat unit Example.box_space
Example.native_step
(NdFloat float32 (Vector [S754_zero false; S754_zero false])) 0%nat
= Spec.delegate Example.invalid_cast Example.native_step
  (NdFloat float32 (Vector [S754_zero false; S754_zero false])) 0%nat.
Proof.
  apply (PipelineProperties.u_init_steps_unchanged Example.invalid_cast
           nat unit Example.box_space Example.native_step 0%nat
           [Example.f32 1 1; Example.f32 1 1] eq_refl).
  repeat constructor; try (intros s m e H; vm_compute in H;
                            injection H as _ _ <-; reflexivity).
Defined.

End MoreWitnesses.
